(** * NewCoin Hunter: the decision pipeline of [newcoin_hunter.py]

    A shallow embedding of the screening pipeline: the record normalizer
    ([row_from_pair] and its helpers), the gate evaluator ([pass_gates]),
    the scorer ([score]), the exit-price calculator ([compute_stop_loss],
    [fib_levels], [add_exit_prices]) and the two-stage funnel ([run_once],
    [run]).

    Numbers.  A Python [int] is a [Z].  A Python [float] is modelled by the
    rational it denotes ([Q]): comparisons, [min], [max] and [abs] are then
    exactly those of the program, while [+], [-], [*], [/] and [round] are
    taken without binary64 rounding error, and NaN and the infinities have
    no counterpart.  Equality of floats is [Qeq] ([==]).  [float] applied
    to an [int] that no binary64 number can hold raises [OverflowError], as
    in the program; the gate, the scorer, the exit prices and the report
    are embedded on the values they compute from numbers inside that
    range.

    Built-ins whose result depends on text that the program never inspects
    (parsing a string as a number, printing a float or a container) are
    section variables of [Section Pipeline]; so are the clock and the
    network client. *)

From Stdlib Require Import ZArith QArith Qround Qminmax Qabs Lqa Lia.
From Stdlib Require Import Bool List String Ascii DecimalString DecimalZ.
From Stdlib Require Import Permutation Sorted.
Import ListNotations.

Local Open Scope Q_scope.

(** ** Python values and built-ins *)

Module Py.

(** [a < b] on floats. *)
Definition Qltb (x y : Q) : bool := negb (Qle_bool y x).

(** A number that may be an [int] or a [float] (thresholds of a config). *)
Inductive num : Type :=
| PInt (z : Z)
| PFloat (q : Q).

Definition num_val (n : num) : Q :=
  match n with
  | PInt z => inject_Z z
  | PFloat q => q
  end.

(** What [json.loads] produces. *)
#[local] Unset Elimination Schemes.
Inductive pyval : Type :=
| VNone
| VBool (b : bool)
| VInt (z : Z)
| VFloat (q : Q)
| VStr (s : string)
| VList (l : list pyval)
| VDict (d : list (string * pyval)).
#[local] Set Elimination Schemes.

(** Truth value of an object ([bool(v)], as used by [or], [not], [if]). *)
Definition truthy (v : pyval) : bool :=
  match v with
  | VNone => false
  | VBool b => b
  | VInt z => negb (z =? 0)%Z
  | VFloat q => negb (Qeq_bool q 0)
  | VStr s => negb (String.eqb s "")
  | VList l => match l with [] => false | _ => true end
  | VDict d => match d with [] => false | _ => true end
  end.

(** [a or b]. *)
Definition por (a b : pyval) : pyval := if truthy a then a else b.

(** The exceptions the pipeline can meet. *)
Inductive exn : Type :=
| TypeError
| ValueError
| AttributeError
| ZeroDivisionError
| OverflowError
| RequestException.

Inductive result (A : Type) : Type :=
| Ok (a : A)
| Raise (e : exn).
Arguments Ok {A} a.
Arguments Raise {A} e.

Definition bind {A B : Type} (m : result A) (k : A -> result B) : result B :=
  match m with
  | Ok a => k a
  | Raise e => Raise e
  end.

(** The least magnitude of an [int] that [float] cannot hold: halfway
    between the largest binary64 number and 2^1024. *)
Definition float_int_bound : Z := (2 ^ 1024 - 2 ^ 970)%Z.

(** [float(z)] for an int [z]. *)
Definition float_of_int (z : Z) : result Q :=
  if (Z.abs z <? float_int_bound)%Z then Ok (inject_Z z)
  else Raise OverflowError.

(** Rounding to the nearest integer, ties to even. *)
Definition round_half_even (x : Q) : Z :=
  let f := Qfloor x in
  let r := x - inject_Z f in
  if Qltb r (1 # 2) then f
  else if Qltb (1 # 2) r then (f + 1)%Z
  else if Z.even f then f else (f + 1)%Z.

Definition pow10 (n : nat) : Q := inject_Z (10 ^ Z.of_nat n).

(** [round(x, ndigits)] for a float [x] and [ndigits >= 0]. *)
Definition round (x : Q) (ndigits : nat) : Q :=
  inject_Z (round_half_even (x * pow10 ndigits)) / pow10 ndigits.

(** [a / b] on floats. *)
Definition div (a b : Q) : result Q :=
  if Qeq_bool b 0 then Raise ZeroDivisionError else Ok (a / b).

(** [int(x)] for a float [x]: truncation toward zero. *)
Definition trunc (x : Q) : Z :=
  if Qle_bool 0 x then Qfloor x else Qceiling x.

(** [str(z)] for an int. *)
Definition str_of_Z (z : Z) : string := NilZero.string_of_int (Z.to_int z).

Definition digit (d : Z) : string :=
  String (ascii_of_nat (48 + Z.to_nat d)) EmptyString.

(** The last [k] decimal digits of [n], zero-padded. *)
Fixpoint pad_digits (k : nat) (n : Z) : string :=
  match k with
  | O => EmptyString
  | S k' => (pad_digits k' (n / 10) ++ digit (n mod 10))%string
  end.

(** [format(q, ".<prec>f")]. *)
Definition fmt_f (q : Q) (prec : nat) : string :=
  let z := Z.abs (round_half_even (q * pow10 prec)) in
  let p := (10 ^ Z.of_nat prec)%Z in
  let sign := if Qltb q 0 then "-"%string else EmptyString in
  match prec with
  | O => (sign ++ str_of_Z z)%string
  | _ => (sign ++ str_of_Z (z / p) ++ "." ++ pad_digits prec (z mod p))%string
  end.

End Py.

Import Py.

Notation "x <- m ;; k" := (bind m (fun x => k))
  (at level 61, m at next level, right associativity).

(** ** Dictionaries, strings and conversions *)

Module Dict.

(** A [dict] with string keys, in insertion order. *)
Fixpoint lookup {V : Type} (k : string) (d : list (string * V)) : option V :=
  match d with
  | [] => None
  | (k', v) :: d' => if String.eqb k k' then Some v else lookup k d'
  end.

(** [d[k] = v]: an existing key keeps its place, a new key goes last. *)
Fixpoint set {V : Type} (k : string) (v : V) (d : list (string * V))
  : list (string * V) :=
  match d with
  | [] => [(k, v)]
  | (k', v') :: d' =>
      if String.eqb k k' then (k, v) :: d' else (k', v') :: set k v d'
  end.

(** [d.update(e)]. *)
Definition update {V : Type} (d e : list (string * V)) : list (string * V) :=
  fold_left (fun acc kv => set (fst kv) (snd kv) acc) e d.

End Dict.

(** [v.get(k, dflt)]; only a [dict] has the method. *)
Definition get_default (v : pyval) (k : string) (dflt : pyval) : result pyval :=
  match v with
  | VDict d =>
      Ok (match Dict.lookup k d with Some x => x | None => dflt end)
  | _ => Raise AttributeError
  end.

(** [v.get(k)]. *)
Definition get (v : pyval) (k : string) : result pyval :=
  get_default v k VNone.

(** [isinstance(v, dict)] and [isinstance(v, list)]. *)
Definition is_dict (v : pyval) : bool :=
  match v with VDict _ => true | _ => false end.

Definition is_list (v : pyval) : bool :=
  match v with VList _ => true | _ => false end.

Definition lower_ascii (c : ascii) : ascii :=
  let n := nat_of_ascii c in
  if (65 <=? n)%nat && (n <=? 90)%nat then ascii_of_nat (n + 32) else c.

(** [s.lower()] on the ASCII letters. *)
Fixpoint lower (s : string) : string :=
  match s with
  | EmptyString => EmptyString
  | String c s' => String (lower_ascii c) (lower s')
  end.

(** [v.lower()]; only a [str] has the method. *)
Definition py_lower (v : pyval) : result string :=
  match v with
  | VStr s => Ok (lower s)
  | _ => Raise AttributeError
  end.

(** [needle in hay] for two strings. *)
Fixpoint contains (needle hay : string) : bool :=
  match hay with
  | EmptyString => String.eqb needle EmptyString
  | String _ hay' => String.prefix needle hay || contains needle hay'
  end.

Fixpoint chars (s : string) : list pyval :=
  match s with
  | EmptyString => []
  | String c s' => VStr (String c EmptyString) :: chars s'
  end.

(** The elements a [for] loop visits. *)
Definition py_iter (v : pyval) : result (list pyval) :=
  match v with
  | VList l => Ok l
  | VDict d => Ok (map (fun kv => VStr (fst kv)) d)
  | VStr s => Ok (chars s)
  | _ => Raise TypeError
  end.

(** [v not in (None, "")] negated: [v] is [None] or the empty string. *)
Definition none_or_empty (v : pyval) : bool :=
  match v with
  | VNone => true
  | VStr s => String.eqb s EmptyString
  | _ => false
  end.

(** ** Data model *)

(** One normalized trading pair: the dictionary [row_from_pair] returns,
    field for key.  Text fields hold whatever the snapshot held. *)
Record Candidate : Type := {
  token_symbol : pyval;
  chain : pyval;
  contract_address : pyval;
  pair_address : pyval;
  price_usd : Q;
  fdv_usd : Q;
  lp_usd : Q;
  volume_24h_usd : Q;
  unique_traders_24h : Z;
  buys_24h : Z;
  sells_24h : Z;
  chg24_pct : option Q;
  dex : string;
  trade_url : pyval;
  explorer_link : string;   (* key "explorer_url" *)
  twitter_url : pyval;
  telegram_url : pyval;
  website_url : pyval;
  age_hours : option Q
}.

(** A price cell of the report: a number or the empty string. *)
Inductive cell : Type :=
| CEmpty
| CNum (q : Q).

(** A row as it moves through the funnel: the candidate's keys plus the
    keys a pass adds ("score", the exit prices, "rank", "reject_reason"). *)
Record Row : Type := {
  row_cand : Candidate;
  row_score : option Q;
  row_exits : list (string * cell);
  row_rank : option Z;
  row_reject_reason : option string
}.

Definition row_of (c : Candidate) : Row :=
  {| row_cand := c; row_score := None; row_exits := [];
     row_rank := None; row_reject_reason := None |}.

Definition set_score (r : Row) (s : Q) : Row :=
  {| row_cand := row_cand r; row_score := Some s; row_exits := row_exits r;
     row_rank := row_rank r; row_reject_reason := row_reject_reason r |}.

Definition update_exits (r : Row) (e : list (string * cell)) : Row :=
  {| row_cand := row_cand r; row_score := row_score r;
     row_exits := Dict.update (row_exits r) e;
     row_rank := row_rank r; row_reject_reason := row_reject_reason r |}.

Definition set_rank (r : Row) (i : Z) : Row :=
  {| row_cand := row_cand r; row_score := row_score r;
     row_exits := row_exits r;
     row_rank := Some i; row_reject_reason := row_reject_reason r |}.

Definition set_reject_reason (r : Row) (why : string) : Row :=
  {| row_cand := row_cand r; row_score := row_score r;
     row_exits := row_exits r;
     row_rank := row_rank r; row_reject_reason := Some why |}.

(** The thresholds of one pass.  A threshold is an [int] in the defaults and
    a [float] when overridden on the command line; [min_traders_24h] is
    always an [int]. *)
Record GateConfig : Type := {
  max_age_h : num;
  min_lp : num;
  max_lp : num;
  max_fdv : num;
  min_traders_24h : Z;
  min_vliq : num;
  require_social : bool
}.

Definition DISCOVERY : GateConfig :=
  {| max_age_h := PInt 2160; min_lp := PInt 3000; max_lp := PInt 2000000;
     max_fdv := PInt 20000000; min_traders_24h := 4;
     min_vliq := PFloat 0.10; require_social := false |}.

Definition REFINE : GateConfig :=
  {| max_age_h := PInt 504; min_lp := PInt 6000; max_lp := PInt 1500000;
     max_fdv := PInt 12000000; min_traders_24h := 8;
     min_vliq := PFloat 0.15; require_social := true |}.

Section Pipeline.

(** [float(s)] and [int(s)] for a string [s]; [None] stands for the
    [ValueError] of a string the conversion rejects. *)
Variable float_of_str : string -> option Q.
Variable int_of_str : string -> option Z.

(** [repr] of a float and of a container. *)
Variable py_repr : pyval -> string.

(** [time.time() * 1000] at the n-th snapshot the run normalizes. *)
Variable clock_ms : nat -> Q.

(** The network client, [fetch_pairs_for_chain(query, limit)]. *)
Variable fetch_pairs_for_chain : string -> Z -> result (list pyval).

(** [float(v)]. *)
Definition py_float (v : pyval) : result Q :=
  match v with
  | VInt z => float_of_int z
  | VFloat q => Ok q
  | VBool b => Ok (if b then 1 else 0)
  | VStr s =>
      match float_of_str s with
      | Some q => Ok q
      | None => Raise ValueError
      end
  | _ => Raise TypeError
  end.

(** [int(v)]. *)
Definition py_int (v : pyval) : result Z :=
  match v with
  | VInt z => Ok z
  | VFloat q => Ok (trunc q)
  | VBool b => Ok (if b then 1 else 0)%Z
  | VStr s =>
      match int_of_str s with
      | Some z => Ok z
      | None => Raise ValueError
      end
  | _ => Raise TypeError
  end.

(** [str(v)], as an f-string renders [v]. *)
Definition py_str (v : pyval) : string :=
  match v with
  | VStr s => s
  | VInt z => str_of_Z z
  | VNone => "None"
  | VBool b => if b then "True" else "False"
  | _ => py_repr v
  end.

(** [str(n)] for a threshold. *)
Definition str_of_num (n : num) : string :=
  match n with
  | PInt z => str_of_Z z
  | PFloat q => py_repr (VFloat q)
  end.

(** ** Record normalizer *)

(** The first key of [ks] whose value in [d] is true, as the two [for]
    loops of [pick_created_ms] look for it. *)
Fixpoint first_true (d : pyval) (ks : list string) : result (option pyval) :=
  match ks with
  | [] => Ok None
  | k :: ks' =>
      v <- get d k ;;
      if truthy v then Ok (Some v) else first_true d ks'
  end.

Definition pick_created_ms (pair : pyval) : result (option Q) :=
  info0 <- get pair "info" ;;
  let info := por info0 (VDict []) in
  liq0 <- get pair "liquidity" ;;
  let liq := por liq0 (VDict []) in
  f1 <- first_true pair ["pairCreatedAt"; "createdAt"]%string ;;
  match f1 with
  | Some v => x <- py_float v ;; Ok (Some x)
  | None =>
      f2 <- first_true info ["createdAt"; "listedAt"]%string ;;
      match f2 with
      | Some v => x <- py_float v ;; Ok (Some x)
      | None =>
          v <- get liq "createdAt" ;;
          if truthy v then x <- py_float v ;; Ok (Some x) else Ok None
      end
  end.

Definition age_hours_from_ms (now_ms : Q) (ms : option Q) : option Q :=
  match ms with
  | None => None
  | Some ms =>
      let age_h := (now_ms - ms) / 3600000 in
      if Qltb (24 * 365 * 5) age_h then None else Some (Qmax 0 age_h)
  end.

Definition dex_table : list (string * string) :=
  [ ("raydium", "Raydium (Solana)"); ("orca", "Orca (Solana)");
    ("meteora", "Meteora (Solana)"); ("lifinity", "Lifinity (Solana)");
    ("phoenix", "Phoenix (Solana)"); ("uniswapv3", "Uniswap v3");
    ("aerodrome", "Aerodrome (Base)"); ("baseswap", "BaseSwap (Base)");
    ("pancakeswap-v3", "PancakeSwap v3") ]%string.

Definition dex_name (dex_id chain_id : pyval) : result string :=
  d <- py_lower (por dex_id (VStr "")) ;;
  c <- py_lower (por chain_id (VStr "")) ;;
  match Dict.lookup d dex_table with
  | Some name => Ok name
  | None =>
      if contains "solana" c then Ok "Solana DEX"%string
      else if contains "base" c then Ok "Base DEX"%string
      else if contains "eth" c then Ok "Ethereum DEX"%string
      else Ok "DEX"%string
  end.

Definition explorer_url (chain_id addr : pyval) : result string :=
  if negb (truthy addr) then Ok EmptyString
  else
    c <- py_lower (por chain_id (VStr "")) ;;
    let a := py_str addr in
    if contains "solana" c then Ok ("https://solscan.io/token/" ++ a)%string
    else if contains "base" c then Ok ("https://basescan.org/token/" ++ a)%string
    else if contains "eth" c then Ok ("https://etherscan.io/token/" ++ a)%string
    else if contains "bsc" c then Ok ("https://bscscan.com/token/" ++ a)%string
    else if contains "arbitrum" c
      then Ok ("https://arbiscan.io/token/" ++ a)%string
    else if contains "polygon" c
      then Ok ("https://polygonscan.com/token/" ++ a)%string
    else if contains "optimism" c
      then Ok ("https://optimistic.etherscan.io/token/" ++ a)%string
    else if contains "avax" c || contains "avalanche" c
      then Ok ("https://snowtrace.io/token/" ++ a)%string
    else Ok EmptyString.

(** The [for s in ...] loop of [socials], carrying [tw] and [tg]. *)
Fixpoint socials_loop (l : list pyval) (tw tg : pyval)
  : result (pyval * pyval) :=
  match l with
  | [] => Ok (tw, tg)
  | s :: l' =>
      ty <- get s "type" ;;
      t <- py_lower (por ty (VStr "")) ;;
      u0 <- get s "url" ;;
      let u := por u0 (VStr "") in
      let tw' := if String.eqb t "twitter" && negb (truthy tw) then u else tw in
      let tg' := if String.eqb t "telegram" && negb (truthy tg) then u else tg in
      socials_loop l' tw' tg'
  end.

Definition socials (info : pyval) : result (pyval * pyval * pyval) :=
  if is_dict info then
    s0 <- get info "socials" ;;
    l <- py_iter (por s0 (VList [])) ;;
    twtg <- socials_loop l (VStr "") (VStr "") ;;
    w0 <- get info "websites" ;;
    let webs := por w0 (VList []) in
    match webs with
    | VList (w :: _) =>
        u <- get w "url" ;;
        Ok (fst twtg, snd twtg, por u (VStr ""))
    | _ => Ok (fst twtg, snd twtg, VStr "")
    end
  else Ok (VStr "", VStr "", VStr "").

Definition row_from_pair (now_ms : Q) (p : pyval) : result Candidate :=
  base0 <- get p "baseToken" ;;
  let base := por base0 (VDict []) in
  info0 <- get p "info" ;;
  let info := por info0 (VDict []) in
  liq0 <- get p "liquidity" ;;
  let liq := por liq0 (VDict []) in
  txns0 <- get p "txns" ;;
  h24 <- get (por txns0 (VDict [])) "h24" ;;
  let txns := por h24 (VDict []) in
  volume0 <- get p "volume" ;;
  vh24 <- get (por volume0 (VDict [])) "h24" ;;
  let vol24 := por vh24 (VInt 0) in
  change0 <- get p "priceChange" ;;
  chg24 <- get (por change0 (VDict [])) "h24" ;;
  b0 <- get_default txns "buys" (VInt 0) ;;
  buys <- py_int b0 ;;
  s0 <- get_default txns "sells" (VInt 0) ;;
  sells <- py_int s0 ;;
  let traders := (buys + sells)%Z in
  created <- pick_created_ms p ;;
  let age_h := age_hours_from_ms now_ms created in
  soc <- socials info ;;
  let '(tw, tg, web) := soc in
  price0 <- get p "priceUsd" ;;
  price <- py_float (por price0 (VFloat 0)) ;;
  fdv0 <- get p "fdv" ;;
  fdv <- py_float (por fdv0 (VFloat 0)) ;;
  usd0 <- get (por liq (VDict [])) "usd" ;;
  lp <- py_float (por usd0 (VFloat 0)) ;;
  symbol <- get base "symbol" ;;
  chain_id <- get p "chainId" ;;
  address <- get base "address" ;;
  pair_addr <- get p "pairAddress" ;;
  vol <- py_float (por vol24 (VInt 0)) ;;
  chg <- (if none_or_empty chg24 then Ok None
          else x <- py_float chg24 ;; Ok (Some x)) ;;
  dex_id <- get p "dexId" ;;
  dexn <- dex_name dex_id chain_id ;;
  url <- get p "url" ;;
  expl <- explorer_url chain_id address ;;
  Ok {| token_symbol := por symbol (VStr "");
        chain := por chain_id (VStr "");
        contract_address := address;
        pair_address := pair_addr;
        price_usd := price;
        fdv_usd := fdv;
        lp_usd := lp;
        volume_24h_usd := vol;
        unique_traders_24h := traders;
        buys_24h := buys;
        sells_24h := sells;
        chg24_pct := chg;
        dex := dexn;
        trade_url := por url (VStr "");
        explorer_link := expl;
        twitter_url := tw;
        telegram_url := tg;
        website_url := web;
        age_hours := match age_h with
                     | None => None
                     | Some a => Some (round a 2)
                     end |}.

(** ** Gate evaluator *)

(** The 24-hour volume-to-liquidity ratio, as [pass_gates] and
    [add_exit_prices] compute it. *)
Definition vliq_of (c : Candidate) : Q :=
  if Qltb 0 (lp_usd c) then volume_24h_usd c / (lp_usd c + 1e-9) else 0.

(** [r["twitter_url"] or r["telegram_url"] or r["website_url"]], as a
    condition. *)
Definition has_social (c : Candidate) : bool :=
  truthy (twitter_url c) || truthy (telegram_url c) || truthy (website_url c).

Definition pass_gates (r : Row) (cfg : GateConfig) : bool * string :=
  let c := row_cand r in
  let age := age_hours c in
  if match age with
     | Some a => Qltb (num_val (max_age_h cfg)) a
     | None => false
     end
  then (false, ("age>" ++ str_of_num (max_age_h cfg) ++ "h")%string)
  else
  let lp := lp_usd c in
  if negb (Qle_bool (num_val (min_lp cfg)) lp
           && Qle_bool lp (num_val (max_lp cfg)))
  then (false, ("lp$" ++ fmt_f lp 0 ++ " outside [" ++ str_of_num (min_lp cfg)
                ++ "," ++ str_of_num (max_lp cfg) ++ "]")%string)
  else
  let fdv := fdv_usd c in
  if Qltb 0 fdv && Qltb (num_val (max_fdv cfg)) fdv
  then (false, ("fdv>" ++ str_of_num (max_fdv cfg))%string)
  else
  let traders := unique_traders_24h c in
  if (traders <? min_traders_24h cfg)%Z
  then (false, ("traders24h<" ++ str_of_Z (min_traders_24h cfg))%string)
  else
  let vliq := vliq_of c in
  if Qltb vliq (num_val (min_vliq cfg))
  then (false, ("vliq<" ++ fmt_f (num_val (min_vliq cfg)) 2)%string)
  else
  if require_social cfg && negb (has_social c)
  then (false, "no_socials"%string)
  else (true, EmptyString).

(** ** Scorer *)

(** The valuation-desirability term of [score] (its local [fdv_ok]). *)
Definition fdv_ok (fdv : Q) : Q :=
  if Qltb 0 fdv && Qle_bool fdv 3000000 then 1.0
  else if Qle_bool fdv 6000000 then 0.85
  else if Qle_bool fdv 10000000 then 0.7
  else if Qle_bool fdv 15000000 then 0.5
  else 0.0.

(** The age-desirability term of [score] (its local [age_ok]). *)
Definition age_ok (age : option Q) : Q :=
  match age with
  | None => 1.0
  | Some a =>
      if Qle_bool a 24 then 1.0
      else if Qle_bool a 72 then 0.75
      else if Qle_bool a 240 then 0.5
      else 0.3
  end.

(** The condition of the buy-pressure bonus. *)
Definition buy_pressure (buys sells : Z) : bool :=
  (10 <=? buys + sells)%Z
  && Qltb (inject_Z (Z.max 1 sells) * 1.05) (inject_Z buys).

(** [score] on the values it reads from the row. *)
Definition score_of (lp vol : Q) (traders : Z) (fdv : Q) (age : option Q)
  (buys sells : Z) : Q :=
  let vliq := if Qltb 0 lp then Qmin (vol / (lp + 1e-9)) 5.0 / 5.0 else 0.0 in
  let tnorm := Qmin (inject_Z traders / 1500.0) 1.0 in
  let s := 100 * (0.46 * vliq + 0.29 * tnorm + 0.15 * fdv_ok fdv
                  + 0.10 * age_ok age) in
  let s := if buy_pressure buys sells then s + 2.0 else s in
  round s 2.

Definition score (r : Row) : Q :=
  let c := row_cand r in
  score_of (lp_usd c) (volume_24h_usd c) (unique_traders_24h c) (fdv_usd c)
    (age_hours c) (buys_24h c) (sells_24h c).

(** ** Exit-price calculator *)

Definition tighten_cond (vliq : Q) (traders : Z) : bool :=
  Qle_bool 0.30 vliq && (20 <=? traders)%Z.

Definition loosen_cond (vliq : Q) (traders : Z) : bool :=
  Qltb vliq 0.15 || (traders <? 8)%Z.

(** The three assignments to [sl_pct], in the order of the source, on the
    truth values of the two tests. *)
Definition sl_pct_assign (tighten loosen : bool) : Q :=
  let sl_pct := 0.25 in
  let sl_pct := if tighten then 0.22 else sl_pct in
  let sl_pct := if loosen then 0.28 else sl_pct in
  sl_pct.

Definition sl_pct (vliq : Q) (traders : Z) : Q :=
  sl_pct_assign (tighten_cond vliq traders) (loosen_cond vliq traders).

Definition compute_stop_loss (price vliq : Q) (traders : Z) : Q :=
  if Qle_bool price 0 then 0.0
  else round (price * (1.0 - sl_pct vliq traders)) 12.

(** The swing of [fib_levels]; the [try] turns a failing division into the
    default swing. *)
Definition fib_swing (price : Q) (chg24_pct : option Q) : Q :=
  match chg24_pct with
  | None => 0.10 * price
  | Some chg =>
      match div price (1.0 + chg / 100.0) with
      | Ok open_ => Qabs (price - open_)
      | Raise _ => 0.10 * price
      end
  end.

Definition fib_levels (price : Q) (chg24_pct : option Q)
  : list (string * cell) :=
  if Qle_bool price 0 then
    [ ("fib_dn_0382", CEmpty); ("fib_dn_0618", CEmpty);
      ("fib_up_1618", CEmpty); ("fib_up_2618", CEmpty) ]%string
  else
    let swing := fib_swing price chg24_pct in
    let dn_382 := Qmax (price - 0.382 * swing) 0.0 in
    let dn_618 := Qmax (price - 0.618 * swing) 0.0 in
    let up_1618 := price + 1.618 * swing in
    let up_2618 := price + 2.618 * swing in
    [ ("fib_dn_0382", CNum (round dn_382 12));
      ("fib_dn_0618", CNum (round dn_618 12));
      ("fib_up_1618", CNum (round up_1618 12));
      ("fib_up_2618", CNum (round up_2618 12)) ]%string.

Definition tp_key (m : Q) : string :=
  ("tp" ++ str_of_Z (trunc m) ++ "x_price")%string.

Definition fdv_key (T : Q) : string :=
  ("fdv" ++ str_of_Z (trunc (T / 1000000)) ++ "m_price")%string.

Definition add_exit_prices (r : Row) (tp_multipliers fdv_targets : list Q)
  : list (string * cell) :=
  let c := row_cand r in
  let price := price_usd c in
  let fdv := fdv_usd c in
  let out := [] in
  let out :=
    fold_left
      (fun out m =>
         Dict.set (tp_key m)
           (if Qltb 0 price then CNum (round (price * m) 12) else CEmpty) out)
      tp_multipliers out in
  let out :=
    if Qltb 0 price && Qltb 0 fdv then
      fold_left
        (fun out T =>
           let mult := T / fdv in
           Dict.set (fdv_key T) (CNum (round (price * mult) 12)) out)
        fdv_targets out
    else
      fold_left (fun out T => Dict.set (fdv_key T) CEmpty out)
        fdv_targets out in
  let vliq := vliq_of c in
  let out :=
    Dict.set "stop_loss_price"
      (CNum (compute_stop_loss price vliq (unique_traders_24h c))) out in
  Dict.update out (fib_levels price (chg24_pct c)).

(** ** Funnel orchestrator *)

(** [sorted(l, key=key, reverse=True)]: descending keys, and rows of equal
    key in the order of [l]. *)
Fixpoint insert_desc {A : Type} (key : A -> Q) (x : A) (l : list A) : list A :=
  match l with
  | [] => [x]
  | y :: l' =>
      if Qltb (key x) (key y) then y :: insert_desc key x l' else x :: y :: l'
  end.

Fixpoint sorted_desc {A : Type} (key : A -> Q) (l : list A) : list A :=
  match l with
  | [] => []
  | x :: l' => insert_desc key x (sorted_desc key l')
  end.

(** [l[:n]]; a negative [n] counts from the end. *)
Definition slice_to {A : Type} (l : list A) (n : Z) : list A :=
  if (0 <=? n)%Z then firstn (Z.to_nat n) l
  else firstn (List.length l - Z.to_nat (- n)) l.

(** [for i, it in enumerate(items, start=i): it["rank"] = i]. *)
Fixpoint assign_ranks (i : Z) (items : list Row) : list Row :=
  match items with
  | [] => []
  | it :: items' => set_rank it i :: assign_ranks (i + 1) items'
  end.

(** The key a row is ranked by, [x["score"]]; every row the funnel sorts
    has one. *)
Definition score_key (x : Row) : Q :=
  match row_score x with
  | Some s => s
  | None => 0
  end.

(** What a pass appends to [items] for a row that passes. *)
Definition scored (r : Row) (tp_multipliers fdv_targets : list Q) : Row :=
  let rr := set_score r (score r) in
  update_exits rr (add_exit_prices rr tp_multipliers fdv_targets).

(** The first loop of [run_once]: [(items, rejects)]. *)
Fixpoint gate_loop (rows : list Row) (cfg : GateConfig)
  (tp_multipliers fdv_targets : list Q) : list Row * list Row :=
  match rows with
  | [] => ([], [])
  | r :: rows' =>
      let '(ok, why) := pass_gates r cfg in
      let '(items, rejects) := gate_loop rows' cfg tp_multipliers fdv_targets in
      if ok then (scored r tp_multipliers fdv_targets :: items, rejects)
      else (items, set_reject_reason r why :: rejects)
  end.

(** What a pass writes to a file of the output directory. *)
Inductive content : Type :=
| Csv (table : list Row)
| Html (tag : string) (table : list Row).

(** The output directory: file name to content. *)
Definition files : Type := list (string * content).

(** One pass.  Returns the ranked items and the output directory after the
    three files are written; the report is kept as the rows it renders. *)
Definition run_once (rows : list Row) (cfg : GateConfig) (target : Z)
  (outdir : files) (tag : string) (tp_multipliers fdv_targets : list Q)
  : list Row * files :=
  let '(items, rejects) := gate_loop rows cfg tp_multipliers fdv_targets in
  let items := slice_to (sorted_desc score_key items) target in
  let items := assign_ranks 1 items in
  let outdir :=
    Dict.set ("candidates_" ++ tag ++ ".csv")%string (Csv items) outdir in
  let outdir :=
    Dict.set ("rejects_" ++ tag ++ ".csv")%string (Csv rejects) outdir in
  let outdir :=
    Dict.set ("candidates_" ++ tag ++ ".html")%string (Html tag items) outdir in
  (items, outdir).

(** [rows.extend(row_from_pair(p) for p in pairs)]: rows are appended one
    by one, and an exception ends the loop with the rows appended so far.
    [n] counts the snapshots normalized before. *)
Fixpoint extend_rows (rows : list Row) (n : nat) (pairs : list pyval)
  : list Row * nat * option exn :=
  match pairs with
  | [] => (rows, n, None)
  | p :: pairs' =>
      match row_from_pair (clock_ms n) p with
      | Ok c => extend_rows (rows ++ [row_of c]) (S n) pairs'
      | Raise e => (rows, S n, Some e)
      end
  end.

(** The [for q in chains] loop of [run]; the [except] clause reports the
    exception and goes on with the next query. *)
Fixpoint collect_rows (chains : list string) (limit_per_chain : Z)
  (rows : list Row) (n : nat) : list Row :=
  match chains with
  | [] => rows
  | q :: chains' =>
      match fetch_pairs_for_chain q limit_per_chain with
      | Ok pairs =>
          let '(rows', n', _) := extend_rows rows n pairs in
          collect_rows chains' limit_per_chain rows' n'
      | Raise _ => collect_rows chains' limit_per_chain rows n
      end
  end.

(** The two passes.  Returns the output directory. *)
Definition run (chains : list string) (limit_per_chain : Z)
  (target_disc target_ref : Z) (outdir : files)
  (tp_multipliers fdv_targets : list Q) (disc_cfg ref_cfg : GateConfig)
  : files :=
  let rows := collect_rows chains limit_per_chain [] 0 in
  let '(disc, outdir) :=
    run_once rows disc_cfg target_disc outdir "discovery"
      tp_multipliers fdv_targets in
  let refined_input := match disc with [] => rows | _ :: _ => disc end in
  snd (run_once refined_input ref_cfg target_ref outdir "refined"
         tp_multipliers fdv_targets).

(** ** The gate as the specification words it *)

(** The ratio of the specification: 0 when liquidity is 0, else
    volume / (liquidity + 1e-9). *)
Definition spec_vliq (c : Candidate) : Q :=
  if Qeq_bool (lp_usd c) 0 then 0
  else volume_24h_usd c / (lp_usd c + 1e-9).

(** The same ratio with 0 at any liquidity that is not positive. *)
Definition ratio_or_zero (c : Candidate) : Q :=
  if Qle_bool (lp_usd c) 0 then 0
  else volume_24h_usd c / (lp_usd c + 1e-9).

(** A field that holds nothing: the empty string, null, or another empty
    or zero value. *)
Definition empty_value (v : pyval) : Prop :=
  v = VNone \/ v = VBool false \/ v = VInt 0
  \/ (exists q, v = VFloat q /\ q == 0)
  \/ v = VStr "" \/ v = VList [] \/ v = VDict [].

(** At least one of the Twitter, Telegram and website URLs is non-empty. *)
Definition some_social_link (c : Candidate) : Prop :=
  ~ empty_value (twitter_url c) \/ ~ empty_value (telegram_url c)
  \/ ~ empty_value (website_url c).

(** The six conditions of the specification's gate, for a given
    volume-to-liquidity ratio. *)
Definition gate_conditions (ratio : Candidate -> Q) (c : Candidate)
  (cfg : GateConfig) : Prop :=
  (num_val (min_lp cfg) <= lp_usd c /\ lp_usd c <= num_val (max_lp cfg))
  /\ (age_hours c = None
      \/ exists a, age_hours c = Some a /\ a <= num_val (max_age_h cfg))
  /\ (fdv_usd c <= 0 \/ fdv_usd c <= num_val (max_fdv cfg))
  /\ (min_traders_24h cfg <= unique_traders_24h c)%Z
  /\ num_val (min_vliq cfg) <= ratio c
  /\ (require_social cfg = false \/ some_social_link c).

(** The gate with the ratio as the specification states it. *)
Definition gate_spec (c : Candidate) (cfg : GateConfig) : Prop :=
  gate_conditions spec_vliq c cfg.

(** ** Sample data *)

(** The candidate of the specification's scenarios A and B. *)
Definition scenario_candidate : Candidate :=
  {| token_symbol := VStr "ABC"; chain := VStr "base";
     contract_address := VNone; pair_address := VNone;
     price_usd := 1.0; fdv_usd := 0.0; lp_usd := 5000.0;
     volume_24h_usd := 2000.0;
     unique_traders_24h := 10; buys_24h := 5; sells_24h := 5;
     chg24_pct := None; dex := "DEX"; trade_url := VStr "";
     explorer_link := EmptyString;
     twitter_url := VStr ""; telegram_url := VStr ""; website_url := VStr "";
     age_hours := Some 1.0 |}.

(** [c] with the buy and sell counts replaced, the trader count being
    their sum as [row_from_pair] derives it. *)
Definition with_trades (c : Candidate) (buys sells : Z) : Candidate :=
  {| token_symbol := token_symbol c; chain := chain c;
     contract_address := contract_address c; pair_address := pair_address c;
     price_usd := price_usd c; fdv_usd := fdv_usd c; lp_usd := lp_usd c;
     volume_24h_usd := volume_24h_usd c;
     unique_traders_24h := (buys + sells)%Z;
     buys_24h := buys; sells_24h := sells;
     chg24_pct := chg24_pct c; dex := dex c; trade_url := trade_url c;
     explorer_link := explorer_link c;
     twitter_url := twitter_url c; telegram_url := telegram_url c;
     website_url := website_url c; age_hours := age_hours c |}.

(** A candidate whose liquidity is reported negative. *)
Definition negative_lp_candidate : Candidate :=
  {| token_symbol := VStr "NEG"; chain := VStr "base";
     contract_address := VNone; pair_address := VNone;
     price_usd := 1.0; fdv_usd := 0.0; lp_usd := -5;
     volume_24h_usd := 100;
     unique_traders_24h := 10; buys_24h := 5; sells_24h := 5;
     chg24_pct := None; dex := "DEX"; trade_url := VStr "";
     explorer_link := EmptyString;
     twitter_url := VStr ""; telegram_url := VStr ""; website_url := VStr "";
     age_hours := None |}.

(** The discovery thresholds with the liquidity minimum at -10 and the
    ratio minimum at 0, as the command line can set them. *)
Definition DISCOVERY_any_lp : GateConfig :=
  {| max_age_h := max_age_h DISCOVERY; min_lp := PFloat (-10);
     max_lp := max_lp DISCOVERY; max_fdv := max_fdv DISCOVERY;
     min_traders_24h := min_traders_24h DISCOVERY;
     min_vliq := PFloat 0; require_social := false |}.

(** The discovery thresholds with a social link required. *)
Definition DISCOVERY_social : GateConfig :=
  {| max_age_h := max_age_h DISCOVERY; min_lp := min_lp DISCOVERY;
     max_lp := max_lp DISCOVERY; max_fdv := max_fdv DISCOVERY;
     min_traders_24h := min_traders_24h DISCOVERY;
     min_vliq := min_vliq DISCOVERY; require_social := true |}.

(** The value of a price cell under a key, when it is a number. *)
Definition cell_is (d : list (string * cell)) (k : string) (q : Q) : Prop :=
  match Dict.lookup k d with
  | Some (CNum x) => x == q
  | _ => False
  end.

(** ** The stop-loss cut as the specification words it *)


(** ** Vocabulary of the statements *)

(** The keys of a dictionary are distinct. *)
Definition keys_distinct {V : Type} (d : list (string * V)) : Prop :=
  NoDup (map fst d).

(** [a] may stand before [b] in a ranking: its key is not the smaller. *)
Definition ranks_before {A : Type} (key : A -> Q) (a b : A) : Prop :=
  key b <= key a.

(** The rows whose key equals [k], in list order. *)
Definition with_key {A : Type} (key : A -> Q) (k : Q) (l : list A) : list A :=
  filter (fun a => Qeq_bool (key a) k) l.

(** ** Snapshots the normalizer accepts *)

(** The value [d.get(k)] has when [d] is a dictionary. *)
Definition field (d : pyval) (k : string) : pyval :=
  match d with
  | VDict l => match Dict.lookup k l with Some x => x | None => VNone end
  | _ => VNone
  end.

Definition is_str (v : pyval) : bool :=
  match v with VStr _ => true | _ => false end.

(** [float(v)] has a value: a float, a boolean, an int that a float can
    hold, or a string that denotes a number. *)
Definition numeric (v : pyval) : bool :=
  match v with
  | VInt z => (Z.abs z <? float_int_bound)%Z
  | VFloat _ | VBool _ => true
  | VStr s => match float_of_str s with Some _ => true | None => false end
  | _ => false
  end.

(** [int(v)] has a value. *)
Definition integral (v : pyval) : bool :=
  match v with
  | VInt _ | VFloat _ | VBool _ => true
  | VStr s => match int_of_str s with Some _ => true | None => false end
  | _ => false
  end.

(** Absent, null, zero or empty; or else of the expected kind. *)
Definition falsy_or (kind : pyval -> bool) (v : pyval) : bool :=
  negb (truthy v) || kind v.

(** A nested group of fields: absent, null or empty, or an object. *)
Definition group (d : pyval) (k : string) : pyval :=
  por (field d k) (VDict []).

Definition social_entry_ok (s : pyval) : bool :=
  is_dict s && falsy_or is_str (field s "type").

Definition socials_ok (info : pyval) : bool :=
  match por (field info "socials") (VList []) with
  | VList l => forallb social_entry_ok l
  | _ => false
  end.

Definition websites_ok (info : pyval) : bool :=
  match por (field info "websites") (VList []) with
  | VList (w :: _) => is_dict w
  | _ => true
  end.

(** A snapshot the normalizer accepts: the snapshot is an object; each
    nested group is an object, or absent, null or empty; a buy or sell count
    is absent or a value [int] converts; each other numeric field is absent,
    null, zero or empty, or a value [float] converts (the percent change:
    null, the empty string, or such a value); the entries of "socials" are
    objects whose type is text or absent, the first website is an object;
    the DEX and chain identifiers are text or absent. *)
Definition snapshot_ok (p : pyval) : bool :=
  let base := group p "baseToken" in
  let info := group p "info" in
  let liq := group p "liquidity" in
  let txns := group (group p "txns") "h24" in
  let volume := group p "volume" in
  let change := group p "priceChange" in
  let chg24 := field change "h24" in
  is_dict p && is_dict base && is_dict info && is_dict liq
  && is_dict (group p "txns") && is_dict txns
  && is_dict volume && is_dict change
  && match Dict.lookup "buys" (match txns with VDict l => l | _ => [] end) with
     | Some v => integral v
     | None => true
     end
  && match Dict.lookup "sells" (match txns with VDict l => l | _ => [] end) with
     | Some v => integral v
     | None => true
     end
  && falsy_or numeric (field p "pairCreatedAt")
  && falsy_or numeric (field p "createdAt")
  && falsy_or numeric (field info "createdAt")
  && falsy_or numeric (field info "listedAt")
  && falsy_or numeric (field liq "createdAt")
  && socials_ok info && websites_ok info
  && falsy_or numeric (field p "priceUsd")
  && falsy_or numeric (field p "fdv")
  && falsy_or numeric (field liq "usd")
  && falsy_or numeric (field volume "h24")
  && (none_or_empty chg24 || numeric chg24)
  && falsy_or is_str (field p "dexId")
  && falsy_or is_str (field p "chainId").

(** ** Sample snapshots and built-ins *)

Definition digit_of (c : ascii) : option Z :=
  let n := nat_of_ascii c in
  if (48 <=? n)%nat && (n <=? 57)%nat then Some (Z.of_nat (n - 48)) else None.

(** Unsigned decimal notation, digits with at most one point: [acc] holds
    the digits read, [frac] the count of those after the point. *)
Fixpoint decimal_loop (s : string) (acc : Z) (frac : option nat) (seen : bool)
  : option Q :=
  match s with
  | EmptyString =>
      if seen
      then Some (inject_Z acc / pow10 (match frac with Some k => k | None => 0 end))
      else None
  | String c s' =>
      if Ascii.eqb c "."%char then
        match frac with
        | None => decimal_loop s' acc (Some O) seen
        | Some _ => None
        end
      else
        match digit_of c with
        | Some d => decimal_loop s' (acc * 10 + d) (option_map S frac) true
        | None => None
        end
  end.

(** [float(s)] on the strings of the samples. *)
Definition sample_float_of_str (s : string) : option Q :=
  decimal_loop s 0 None false.

(** [int(s)] on the strings of the samples. *)
Definition sample_int_of_str (s : string) : option Z :=
  match decimal_loop s 0 None false with
  | Some q => if String.eqb s (str_of_Z (Qfloor q)) then Some (Qfloor q) else None
  | None => None
  end.

(** No sample prints a float or a container. *)
Definition sample_repr (v : pyval) : string := EmptyString.

Definition sample_clock_ms (n : nat) : Q := 1700003600000.

(** A snapshot as the market-data service sends it. *)
Definition sample_pair : pyval :=
  VDict
    [ ("chainId", VStr "base"); ("dexId", VStr "aerodrome");
      ("url", VStr "https://dexscreener.com/base/0xpair");
      ("pairAddress", VStr "0xpair");
      ("baseToken",
        VDict [ ("address", VStr "0xtoken"); ("symbol", VStr "ABC") ]);
      ("priceUsd", VStr "0.5");
      ("txns", VDict [ ("h24", VDict [ ("buys", VInt 30); ("sells", VInt 10) ]) ]);
      ("volume", VDict [ ("h24", VFloat 4000.0) ]);
      ("priceChange", VDict [ ("h24", VFloat 12.5) ]);
      ("liquidity", VDict [ ("usd", VFloat 8000.0) ]);
      ("fdv", VInt 2000000);
      ("pairCreatedAt", VInt 1700000000000);
      ("info",
        VDict
          [ ("socials",
              VList [ VDict [ ("type", VStr "twitter");
                              ("url", VStr "https://x.com/abc") ] ]);
            ("websites", VList [ VDict [ ("url", VStr "https://abc.io") ] ]) ])
    ]%string.

(** The same with a price that is not a number. *)
Definition malformed_pair : pyval :=
  VDict
    [ ("chainId", VStr "base"); ("priceUsd", VStr "n/a");
      ("liquidity", VDict [ ("usd", VFloat 8000.0) ]) ]%string.

(** A valuation that is an integer too large for a float. *)
Definition oversized_pair : pyval :=
  VDict [ ("chainId", VStr "base"); ("fdv", VInt (10 ^ 400)) ]%string.

(** A buy count that is present and null. *)
Definition null_count_pair : pyval :=
  VDict
    [ ("chainId", VStr "base");
      ("txns", VDict [ ("h24", VDict [ ("buys", VNone) ]) ]) ]%string.

(** A snapshot with no field at all. *)
Definition empty_pair : pyval := VDict [].

Definition sample_fetch (q : string) (limit : Z) : result (list pyval) :=
  if String.eqb q "base" then Ok [sample_pair; empty_pair]
  else if String.eqb q "solana" then Ok [sample_pair; malformed_pair; sample_pair]
  else Raise RequestException.

(** ** Orders on thresholds *)

(** [strict] asks of a candidate at least what [loose] asks. *)
Definition at_least_as_strict (strict loose : GateConfig) : Prop :=
  num_val (max_age_h strict) <= num_val (max_age_h loose)
  /\ num_val (min_lp loose) <= num_val (min_lp strict)
  /\ num_val (max_lp strict) <= num_val (max_lp loose)
  /\ num_val (max_fdv strict) <= num_val (max_fdv loose)
  /\ (min_traders_24h loose <= min_traders_24h strict)%Z
  /\ num_val (min_vliq loose) <= num_val (min_vliq strict)
  /\ (require_social loose = true -> require_social strict = true).

(** A text field of a candidate: the empty string or a true value. *)
Definition empty_or_true (v : pyval) : Prop :=
  v = VStr "" \/ truthy v = true.

(** The creation timestamps [pick_created_ms] looks at, in its order. *)
Definition created_fields (p : pyval) : list pyval :=
  [ field p "pairCreatedAt"; field p "createdAt";
    field (group p "info") "createdAt"; field (group p "info") "listedAt";
    field (group p "liquidity") "createdAt" ].

(** The snapshots the queries of a run return, a failed query giving
    none. *)
Definition fetched (chains : list string) (limit_per_chain : Z)
  : list pyval :=
  flat_map
    (fun q =>
       match fetch_pairs_for_chain q limit_per_chain with
       | Ok pairs => pairs
       | Raise _ => []
       end)
    chains.

(** The outcome of [row_from_pair] on each snapshot of a list, the first
    being the [n]-th the run normalizes. *)
Fixpoint normalized (n : nat) (pairs : list pyval) : list (result Candidate) :=
  match pairs with
  | [] => []
  | p :: pairs' => row_from_pair (clock_ms n) p :: normalized (S n) pairs'
  end.

(** The candidate [sample_pair] normalizes to, one hour after the pair
    was created. *)
Definition sample_candidate : Candidate :=
  {| token_symbol := VStr "ABC"; chain := VStr "base";
     contract_address := VStr "0xtoken"; pair_address := VStr "0xpair";
     price_usd := 0.5; fdv_usd := 2000000; lp_usd := 8000.0;
     volume_24h_usd := 4000.0;
     unique_traders_24h := 40; buys_24h := 30; sells_24h := 10;
     chg24_pct := Some 12.5; dex := "Aerodrome (Base)";
     trade_url := VStr "https://dexscreener.com/base/0xpair";
     explorer_link := "https://basescan.org/token/0xtoken";
     twitter_url := VStr "https://x.com/abc"; telegram_url := VStr "";
     website_url := VStr "https://abc.io";
     age_hours := Some 1.00 |}.

(** [c] with another age. *)
Definition with_age (c : Candidate) (age : option Q) : Candidate :=
  {| token_symbol := token_symbol c; chain := chain c;
     contract_address := contract_address c; pair_address := pair_address c;
     price_usd := price_usd c; fdv_usd := fdv_usd c; lp_usd := lp_usd c;
     volume_24h_usd := volume_24h_usd c;
     unique_traders_24h := unique_traders_24h c;
     buys_24h := buys_24h c; sells_24h := sells_24h c;
     chg24_pct := chg24_pct c; dex := dex c; trade_url := trade_url c;
     explorer_link := explorer_link c;
     twitter_url := twitter_url c; telegram_url := telegram_url c;
     website_url := website_url c; age_hours := age |}.

(** The candidate [empty_pair] normalizes to. *)
Definition empty_candidate : Candidate :=
  {| token_symbol := VStr ""; chain := VStr "";
     contract_address := VNone; pair_address := VNone;
     price_usd := 0; fdv_usd := 0; lp_usd := 0; volume_24h_usd := 0;
     unique_traders_24h := 0; buys_24h := 0; sells_24h := 0;
     chg24_pct := None; dex := "DEX"; trade_url := VStr "";
     explorer_link := EmptyString;
     twitter_url := VStr ""; telegram_url := VStr ""; website_url := VStr "";
     age_hours := None |}.

(** Two entries of a "socials" list, both of type Twitter. *)
Definition twitter_entry (url : string) : pyval :=
  VDict [ ("type", VStr "Twitter"); ("url", VStr url) ]%string.

(** The discovery thresholds with a maximum age of 0 hours. *)
Definition DISCOVERY_newborn : GateConfig :=
  {| max_age_h := PInt 0; min_lp := min_lp DISCOVERY;
     max_lp := max_lp DISCOVERY; max_fdv := max_fdv DISCOVERY;
     min_traders_24h := min_traders_24h DISCOVERY;
     min_vliq := min_vliq DISCOVERY;
     require_social := require_social DISCOVERY |}.

(** The refine thresholds with a maximum age of 0 hours. *)
Definition REFINE_newborn : GateConfig :=
  {| max_age_h := PInt 0; min_lp := min_lp REFINE;
     max_lp := max_lp REFINE; max_fdv := max_fdv REFINE;
     min_traders_24h := min_traders_24h REFINE;
     min_vliq := min_vliq REFINE;
     require_social := require_social REFINE |}.

(** ** Comparisons and rounding *)

(** A statement depends on the built-ins its own text mentions. *)
#[local] Set Default Proof Using "Type".

Lemma Qltb_lt (x y : Q) : Qltb x y = true <-> x < y.
Proof.
  unfold Qltb. rewrite negb_true_iff.
  split; intro H.
  - apply Qnot_le_lt. intro Hle. apply Qle_bool_iff in Hle. congruence.
  - destruct (Qle_bool y x) eqn:E; [|reflexivity].
    apply Qle_bool_iff in E. exfalso. apply (Qlt_not_le _ _ H E).
Qed.

Lemma Qltb_ge (x y : Q) : Qltb x y = false <-> y <= x.
Proof.
  unfold Qltb. rewrite negb_false_iff. apply Qle_bool_iff.
Qed.

Lemma Qle_bool_gt (x y : Q) : Qle_bool x y = false <-> y < x.
Proof.
  rewrite <- Qltb_lt. unfold Qltb. rewrite negb_true_iff. reflexivity.
Qed.

(** Turns the boolean tests of the model into propositions. *)
Ltac prop_tests :=
  repeat match goal with
  | H : Qltb _ _ = true |- _ => apply Qltb_lt in H
  | H : Qltb _ _ = false |- _ => apply Qltb_ge in H
  | H : Qle_bool _ _ = true |- _ => apply Qle_bool_iff in H
  | H : Qle_bool _ _ = false |- _ => apply Qle_bool_gt in H
  | H : Qeq_bool _ _ = true |- _ => apply Qeq_bool_iff in H
  | H : Qeq_bool _ _ = false |- _ => apply Qeq_bool_neq in H
  | H : (_ <? _)%Z = true |- _ => apply Z.ltb_lt in H
  | H : (_ <? _)%Z = false |- _ => apply Z.ltb_ge in H
  | H : (_ <=? _)%Z = true |- _ => apply Z.leb_le in H
  | H : (_ <=? _)%Z = false |- _ => apply Z.leb_gt in H
  end.

Lemma round_half_even_floor (x : Q) :
  (Qfloor x <= round_half_even x <= Qfloor x + 1)%Z.
Proof.
  unfold round_half_even.
  destruct (Qltb _ _); [lia|].
  destruct (Qltb _ _); [lia|].
  destruct (Z.even _); lia.
Qed.

Lemma Qfloor_bounds (x : Q) :
  inject_Z (Qfloor x) <= x /\ x < inject_Z (Qfloor x) + 1.
Proof.
  split; [apply Qfloor_le|].
  pose proof (Qlt_floor x) as H. rewrite inject_Z_plus in H. exact H.
Qed.

(** The rounded integer is within one half of the number. *)
Lemma round_half_even_near (x : Q) :
  x - (1 # 2) <= inject_Z (round_half_even x)
  /\ inject_Z (round_half_even x) <= x + (1 # 2).
Proof.
  destruct (Qfloor_bounds x) as [Hlo Hhi].
  unfold round_half_even.
  destruct (Qltb (x - inject_Z (Qfloor x)) (1 # 2)) eqn:E1.
  { prop_tests. split; lra. }
  destruct (Qltb (1 # 2) (x - inject_Z (Qfloor x))) eqn:E2.
  { prop_tests. rewrite inject_Z_plus. change (inject_Z 1) with 1.
    split; lra. }
  prop_tests.
  destruct (Z.even (Qfloor x));
    [|rewrite inject_Z_plus; change (inject_Z 1) with 1]; split; lra.
Qed.

Lemma round_half_even_mono (x y : Q) :
  x <= y -> (round_half_even x <= round_half_even y)%Z.
Proof.
  intro Hxy.
  pose proof (Qfloor_resp_le x y Hxy) as Hf.
  pose proof (round_half_even_floor x) as Hx.
  pose proof (round_half_even_floor y) as Hy.
  destruct (Z.eq_dec (Qfloor x) (Qfloor y)) as [Heq | Hne]; [|lia].
  clear Hx Hf.
  unfold round_half_even in *. rewrite <- Heq in *.
  destruct (Qltb (x - inject_Z (Qfloor x)) (1 # 2)) eqn:E1; [lia|].
  destruct (Qltb (1 # 2) (x - inject_Z (Qfloor x))) eqn:E2.
  - prop_tests.
    destruct (Qltb (y - inject_Z (Qfloor x)) (1 # 2)) eqn:E3;
      [prop_tests; lra|].
    destruct (Qltb (1 # 2) (y - inject_Z (Qfloor x))) eqn:E4;
      [lia | prop_tests; lra].
  - prop_tests.
    destruct (Qltb (y - inject_Z (Qfloor x)) (1 # 2)) eqn:E3;
      [prop_tests; lra|].
    destruct (Qltb (1 # 2) (y - inject_Z (Qfloor x))) eqn:E4;
      destruct (Z.even (Qfloor x)); lia.
Qed.

Lemma pow10_pos (n : nat) : 0 < pow10 n.
Proof.
  unfold pow10. change 0 with (inject_Z 0). rewrite <- Zlt_Qlt.
  apply Z.pow_pos_nonneg; lia.
Qed.

(** [round] never reverses an order. *)
Lemma round_mono (x y : Q) (n : nat) : x <= y -> round x n <= round y n.
Proof.
  intro Hxy. unfold round.
  pose proof (pow10_pos n) as Hp.
  apply Qmult_le_compat_r.
  - rewrite <- Zle_Qle. apply round_half_even_mono.
    apply Qmult_le_compat_r; [assumption | apply Qlt_le_weak; assumption].
  - apply Qlt_le_weak. apply Qinv_lt_0_compat. assumption.
Qed.

(** [round] moves a number by at most half a unit of the last digit. *)
Lemma round_near (x : Q) (n : nat) :
  x - (1 # 2) / pow10 n <= round x n /\ round x n <= x + (1 # 2) / pow10 n.
Proof.
  pose proof (pow10_pos n) as Hp.
  destruct (round_half_even_near (x * pow10 n)) as [Hlo Hhi].
  unfold round.
  assert (Hne : ~ pow10 n == 0) by (intro E; rewrite E in Hp; inversion Hp).
  split.
  - apply Qle_shift_div_l; [assumption|].
    setoid_replace ((x - (1 # 2) / pow10 n) * pow10 n)
      with (x * pow10 n - (1 # 2)) by (field; assumption).
    assumption.
  - apply Qle_shift_div_r; [assumption|].
    setoid_replace ((x + (1 # 2) / pow10 n) * pow10 n)
      with (x * pow10 n + (1 # 2)) by (field; assumption).
    assumption.
Qed.

Lemma round_half_even_comp (x y : Q) :
  x == y -> round_half_even x = round_half_even y.
Proof.
  intro H. apply Z.le_antisymm; apply round_half_even_mono;
    rewrite H; apply Qle_refl.
Qed.

#[local] Instance round_Proper : Proper (Qeq ==> eq ==> Qeq) round.
Proof.
  intros x y Hxy n m <-. unfold round.
  rewrite (round_half_even_comp (x * pow10 n) (y * pow10 n));
    [reflexivity | rewrite Hxy; reflexivity].
Qed.

(** ** Dictionaries *)

Lemma lookup_set {V : Type} (k k' : string) (v : V) (d : list (string * V)) :
  Dict.lookup k (Dict.set k' v d)
  = if String.eqb k k' then Some v else Dict.lookup k d.
Proof.
  induction d as [|[k0 v0] d IH]; cbn.
  - reflexivity.
  - destruct (String.eqb k' k0) eqn:E0; cbn.
    + apply String.eqb_eq in E0. subst k0.
      destruct (String.eqb k k'); reflexivity.
    + rewrite IH. destruct (String.eqb k k0) eqn:E1; [|reflexivity].
      apply String.eqb_eq in E1. subst k0.
      rewrite String.eqb_sym, E0. reflexivity.
Qed.

Lemma lookup_none_keys {V : Type} (k : string) (d : list (string * V)) :
  ~ In k (map fst d) -> Dict.lookup k d = None.
Proof.
  induction d as [|[k0 v0] d IH]; cbn; intro H; [reflexivity|].
  destruct (String.eqb k k0) eqn:E.
  - apply String.eqb_eq in E. exfalso. apply H. left. symmetry. exact E.
  - apply IH. intro Hin. apply H. right. exact Hin.
Qed.

Lemma set_keys {V : Type} (k : string) (v : V) (d : list (string * V)) :
  forall x, In x (map fst (Dict.set k v d)) <-> x = k \/ In x (map fst d).
Proof.
  induction d as [|[k0 v0] d IH]; cbn; intro x.
  - split; [intros [<- | []]; left; reflexivity | intros [-> | []]].
    left; reflexivity.
  - destruct (String.eqb k k0) eqn:E; cbn.
    + apply String.eqb_eq in E. subst k0.
      split; [intros [<- | H]; [left; reflexivity | right; right; exact H]|].
      intros [-> | [<- | H]];
        [left; reflexivity | left; reflexivity | right; exact H].
    + rewrite IH.
      split; [intros [<- | [-> | H]] | intros [-> | [<- | H]]];
        first [left; reflexivity | right; left; reflexivity
              | right; right; exact H].
Qed.

Lemma set_keys_distinct {V : Type} (k : string) (v : V)
  (d : list (string * V)) :
  keys_distinct d -> keys_distinct (Dict.set k v d).
Proof.
  unfold keys_distinct.
  induction d as [|[k0 v0] d IH]; cbn; intro H.
  - constructor; [intros []|constructor].
  - inversion H as [|? ? Hnotin Hnd]; subst.
    destruct (String.eqb k k0) eqn:E; cbn.
    + apply String.eqb_eq in E. subst k0. constructor; assumption.
    + constructor; [|apply IH; assumption].
      rewrite set_keys. intros [-> | Hin]; [|contradiction].
      rewrite String.eqb_refl in E. discriminate.
Qed.

Lemma update_keys_distinct {V : Type} (d e : list (string * V)) :
  keys_distinct d -> keys_distinct (Dict.update d e).
Proof.
  unfold Dict.update. revert d.
  induction e as [|[k v] e IH]; cbn; intros d H; [assumption|].
  apply IH. apply set_keys_distinct. assumption.
Qed.

(** After [d.update(e)] a key of [e] has the value [e] gives it. *)
Lemma lookup_update {V : Type} (k : string) (d e : list (string * V)) :
  keys_distinct e ->
  Dict.lookup k (Dict.update d e)
  = match Dict.lookup k e with
    | Some v => Some v
    | None => Dict.lookup k d
    end.
Proof.
  unfold Dict.update, keys_distinct. revert d.
  induction e as [|[k0 v0] e IH]; cbn; intros d H; [reflexivity|].
  inversion H as [|? ? Hnotin Hnd]; subst.
  rewrite (IH _ Hnd), lookup_set.
  destruct (String.eqb k k0) eqn:E; [|reflexivity].
  apply String.eqb_eq in E. subst k0.
  rewrite (lookup_none_keys k e Hnotin). reflexivity.
Qed.

Lemma fold_set_keys_distinct {V A : Type} (f : A -> string) (g : A -> V)
  (l : list A) (d : list (string * V)) :
  keys_distinct d ->
  keys_distinct (fold_left (fun out a => Dict.set (f a) (g a) out) l d).
Proof.
  revert d. induction l as [|a l IH]; cbn; intros d H; [assumption|].
  apply IH. apply set_keys_distinct. assumption.
Qed.

(** ** The gate *)

Lemma spec_vliq_nonneg_lp (c : Candidate) :
  0 <= lp_usd c -> spec_vliq c == vliq_of c.
Proof.
  intro Hlp. unfold spec_vliq, vliq_of.
  destruct (Qeq_bool (lp_usd c) 0) eqn:E0;
    destruct (Qltb 0 (lp_usd c)) eqn:E1; prop_tests; try reflexivity.
  - rewrite E0 in E1. exfalso. apply (Qlt_irrefl 0 E1).
  - exfalso. apply E0. apply Qle_antisym; assumption.
Qed.

(** The answer of [pass_gates] is the conjunction of its six tests. *)
Lemma pass_gates_tests (r : Row) (cfg : GateConfig) :
  let c := row_cand r in
  fst (pass_gates r cfg)
  = negb match age_hours c with
         | Some a => Qltb (num_val (max_age_h cfg)) a
         | None => false
         end
    && (Qle_bool (num_val (min_lp cfg)) (lp_usd c)
        && Qle_bool (lp_usd c) (num_val (max_lp cfg)))
    && negb (Qltb 0 (fdv_usd c) && Qltb (num_val (max_fdv cfg)) (fdv_usd c))
    && negb (unique_traders_24h c <? min_traders_24h cfg)%Z
    && negb (Qltb (vliq_of c) (num_val (min_vliq cfg)))
    && negb (require_social cfg && negb (has_social c)).
Proof.
  unfold pass_gates. cbv zeta.
  destruct (match age_hours (row_cand r) with Some _ => _ | None => _ end);
    [reflexivity|].
  destruct (Qle_bool (num_val (min_lp cfg)) (lp_usd (row_cand r)));
    [|reflexivity].
  destruct (Qle_bool (lp_usd (row_cand r)) (num_val (max_lp cfg)));
    [|reflexivity].
  destruct (Qltb 0 (fdv_usd (row_cand r)));
    destruct (Qltb (num_val (max_fdv cfg)) (fdv_usd (row_cand r)));
    try reflexivity.
  all: destruct (unique_traders_24h (row_cand r) <? min_traders_24h cfg)%Z;
    [reflexivity|].
  all: destruct (Qltb (vliq_of (row_cand r)) (num_val (min_vliq cfg)));
    [reflexivity|].
  all: destruct (require_social cfg); destruct (has_social (row_cand r));
    reflexivity.
Qed.

(** A passing answer carries the empty reason. *)
Lemma pass_gates_reason (r : Row) (cfg : GateConfig) :
  fst (pass_gates r cfg) = true -> snd (pass_gates r cfg) = EmptyString.
Proof.
  unfold pass_gates.
  repeat match goal with
  | |- context [if ?b then _ else _] =>
      destruct b; cbn [fst snd]; try discriminate
  end.
  reflexivity.
Qed.

(** A rejecting answer carries a reason. *)
Lemma pass_gates_rejection_reason (r : Row) (cfg : GateConfig) :
  fst (pass_gates r cfg) = false -> snd (pass_gates r cfg) <> EmptyString.
Proof.
  unfold pass_gates.
  repeat match goal with
  | |- context [if ?b then _ else _] =>
      destruct b; cbn [fst snd]; [intros _; discriminate|]
  end.
  discriminate.
Qed.

Lemma ratio_or_zero_vliq (c : Candidate) : ratio_or_zero c == vliq_of c.
Proof.
  unfold ratio_or_zero, vliq_of.
  destruct (Qle_bool (lp_usd c) 0) eqn:E0;
    destruct (Qltb 0 (lp_usd c)) eqn:E1; prop_tests; try reflexivity.
  - exfalso. apply (Qlt_irrefl 0). eapply Qlt_le_trans; eassumption.
  - exfalso. apply (Qlt_irrefl 0). eapply Qlt_le_trans; eassumption.
Qed.

(** A value is true exactly when it is not an empty one. *)
Lemma truthy_not_empty (v : pyval) : truthy v = true <-> ~ empty_value v.
Proof.
  unfold empty_value.
  destruct v as [|b|z|q|s|l|d]; cbn [truthy].
  - split; [discriminate|]. intro H. exfalso. apply H. left. reflexivity.
  - destruct b.
    + split; [|reflexivity].
      intros _ [E|[E|[E|[(q & E & _)|[E|[E|E]]]]]]; discriminate E.
    + split; [discriminate|]. intro H. exfalso. apply H.
      right. left. reflexivity.
  - rewrite negb_true_iff, Z.eqb_neq. split.
    + intros Hz [E|[E|[E|[(q & E & _)|[E|[E|E]]]]]]; try discriminate E.
      injection E as E. contradiction.
    + intros H E. apply H. right. right. left. rewrite E. reflexivity.
  - rewrite negb_true_iff. split.
    + intros Hq [E|[E|[E|[(q' & E & Hq')|[E|[E|E]]]]]]; try discriminate E.
      injection E as <-. apply Qeq_bool_iff in Hq'. congruence.
    + intro H. destruct (Qeq_bool q 0) eqn:E; [|reflexivity].
      exfalso. apply H. do 3 right. left. exists q.
      split; [reflexivity | apply Qeq_bool_iff; exact E].
  - rewrite negb_true_iff, String.eqb_neq. split.
    + intros Hs [E|[E|[E|[(q & E & _)|[E|[E|E]]]]]]; try discriminate E.
      injection E as E. contradiction.
    + intros H E. apply H. do 4 right. left. rewrite E. reflexivity.
  - destruct l as [|x l].
    + split; [discriminate|]. intro H. exfalso. apply H.
      do 5 right. left. reflexivity.
    + split; [|reflexivity].
      intros _ [E|[E|[E|[(q & E & _)|[E|[E|E]]]]]]; discriminate E.
  - destruct d as [|x d].
    + split; [discriminate|]. intro H. exfalso. apply H.
      do 6 right. reflexivity.
    + split; [|reflexivity].
      intros _ [E|[E|[E|[(q & E & _)|[E|[E|E]]]]]]; discriminate E.
Qed.

Lemma has_social_link (c : Candidate) :
  has_social c = true <-> some_social_link c.
Proof.
  unfold has_social, some_social_link.
  rewrite !orb_true_iff, !truthy_not_empty.
  split.
  - intros [[H | H] | H]; [left | right; left | right; right]; exact H.
  - intros [H | [H | H]]; [left; left | left; right | right]; exact H.
Qed.

(** [pass_gates] answers true exactly on the six conditions, for any ratio
    that agrees with the one it computes. *)
Lemma pass_gates_conditions (ratio : Candidate -> Q) (r : Row)
  (cfg : GateConfig) :
  ratio (row_cand r) == vliq_of (row_cand r) ->
  fst (pass_gates r cfg) = true <-> gate_conditions ratio (row_cand r) cfg.
Proof.
  intro Hratio.
  rewrite pass_gates_tests. cbv zeta. unfold gate_conditions.
  rewrite Hratio, <- has_social_link.
  set (c := row_cand r).
  rewrite !andb_true_iff, !negb_true_iff, !andb_false_iff, negb_false_iff.
  rewrite !Qle_bool_iff, !Qltb_ge, Z.ltb_ge.
  assert (Hage :
    match age_hours c with
    | Some a => Qltb (num_val (max_age_h cfg)) a
    | None => false
    end = false
    <-> (age_hours c = None
         \/ exists a, age_hours c = Some a /\ a <= num_val (max_age_h cfg))).
  { destruct (age_hours c) as [a|].
    - rewrite Qltb_ge. split.
      + intro H. right. exists a. split; [reflexivity | exact H].
      + intros [H | (a' & Ha & H)]; [discriminate|].
        injection Ha as <-. exact H.
    - split; [left|]; reflexivity. }
  rewrite Hage. clear Hage.
  split.
  - intros (((((Ha & Hl) & Hf) & Ht) & Hv) & Hs).
    exact (conj Hl (conj Ha (conj Hf (conj Ht (conj Hv Hs))))).
  - intros (Hl & Ha & Hf & Ht & Hv & Hs).
    exact (conj (conj (conj (conj (conj Ha Hl) Hf) Ht) Hv) Hs).
Qed.

(** C1. For every candidate and all thresholds, [pass_gates] answers true
    exactly when the six conditions hold with the volume-to-liquidity ratio
    taken as 0 at any liquidity that is not positive, and a passing answer
    carries the empty reason.  With the ratio as the specification states
    it (0 at liquidity 0 only) the equivalence holds for every candidate
    whose liquidity is not negative. *)
Theorem pass_gates_iff_gate_spec (r : Row) (cfg : GateConfig) :
  (fst (pass_gates r cfg) = true
   <-> gate_conditions ratio_or_zero (row_cand r) cfg)
  /\ (fst (pass_gates r cfg) = true -> snd (pass_gates r cfg) = EmptyString)
  /\ (0 <= lp_usd (row_cand r) ->
      (fst (pass_gates r cfg) = true <-> gate_spec (row_cand r) cfg)).
Proof.
  split; [apply pass_gates_conditions, ratio_or_zero_vliq|].
  split; [apply pass_gates_reason|].
  intro Hlp. apply pass_gates_conditions, spec_vliq_nonneg_lp. exact Hlp.
Qed.

(** ** The scorer *)

(** C4. The valuation term of the score has the tiers 1.0 for
    0 < valuation <= 3M, 0.85 up to 6M, 0.7 up to 10M, 0.5 up to 15M and 0.0
    above; a valuation of 0 or below is in the 0.85 tier. *)
Theorem fdv_ok_tiers (fdv : Q) :
  (0 < fdv /\ fdv <= 3000000 -> fdv_ok fdv == 1.0)
  /\ (fdv <= 0 \/ (3000000 < fdv /\ fdv <= 6000000) -> fdv_ok fdv == 0.85)
  /\ (6000000 < fdv /\ fdv <= 10000000 -> fdv_ok fdv == 0.7)
  /\ (10000000 < fdv /\ fdv <= 15000000 -> fdv_ok fdv == 0.5)
  /\ (15000000 < fdv -> fdv_ok fdv == 0.0).
Proof.
  unfold fdv_ok.
  destruct (Qltb 0 fdv) eqn:E0; destruct (Qle_bool fdv 3000000) eqn:E1;
    destruct (Qle_bool fdv 6000000) eqn:E2;
    destruct (Qle_bool fdv 10000000) eqn:E3;
    destruct (Qle_bool fdv 15000000) eqn:E4;
    cbn [andb]; prop_tests;
    repeat split; intros; try reflexivity; exfalso; lra.
Qed.

Lemma buy_pressure_mono_buys (b1 b2 sells : Z) :
  (b1 <= b2)%Z -> buy_pressure b1 sells = true -> buy_pressure b2 sells = true.
Proof.
  unfold buy_pressure. intros Hb H.
  apply andb_true_iff in H as [H1 H2]. prop_tests.
  apply andb_true_iff. split.
  - apply Z.leb_le. lia.
  - apply Qltb_lt. eapply Qlt_le_trans; [exact H2|].
    rewrite <- Zle_Qle. assumption.
Qed.

Lemma score_of_mono (lp vol1 vol2 : Q) (t1 t2 : Z) (fdv : Q) (age : option Q)
  (b1 b2 sells : Z) :
  vol1 <= vol2 -> (t1 <= t2)%Z -> (b1 <= b2)%Z ->
  score_of lp vol1 t1 fdv age b1 sells <= score_of lp vol2 t2 fdv age b2 sells.
Proof.
  intros Hv Ht Hb. unfold score_of. apply round_mono.
  assert (Hvl :
    (if Qltb 0 lp then Qmin (vol1 / (lp + 1e-9)) 5.0 / 5.0 else 0.0)
    <= (if Qltb 0 lp then Qmin (vol2 / (lp + 1e-9)) 5.0 / 5.0 else 0.0)).
  { destruct (Qltb 0 lp) eqn:E; [|apply Qle_refl]. prop_tests.
    apply Qmult_le_compat_r; [|discriminate].
    apply Q.min_le_compat_r.
    apply Qmult_le_compat_r; [assumption|].
    apply Qlt_le_weak, Qinv_lt_0_compat.
    assert (Heps : 0 < 1e-9) by reflexivity. lra. }
  assert (Htn :
    Qmin (inject_Z t1 / 1500.0) 1.0 <= Qmin (inject_Z t2 / 1500.0) 1.0).
  { apply Q.min_le_compat_r.
    apply Qmult_le_compat_r; [|discriminate].
    rewrite <- Zle_Qle. assumption. }
  set (v1 := if Qltb 0 lp then _ else _) in *.
  set (v2 := if Qltb 0 lp then _ else _) in *.
  set (n1 := Qmin (inject_Z t1 / 1500.0) 1.0) in *.
  set (n2 := Qmin (inject_Z t2 / 1500.0) 1.0) in *.
  destruct (buy_pressure b1 sells) eqn:E1.
  - rewrite (buy_pressure_mono_buys b1 b2 sells Hb E1). lra.
  - destruct (buy_pressure b2 sells); lra.
Qed.

(** C5. The score does not decrease when the 24h volume grows with the
    liquidity fixed, nor when the trader count grows with the buy and sell
    counts fixed, nor when buys grow with sells fixed and the trader
    count is their sum. *)
Theorem score_monotone (r1 r2 : Row) :
  let c1 := row_cand r1 in
  let c2 := row_cand r2 in
  lp_usd c1 = lp_usd c2 -> fdv_usd c1 = fdv_usd c2 ->
  age_hours c1 = age_hours c2 -> sells_24h c1 = sells_24h c2 ->
  volume_24h_usd c1 <= volume_24h_usd c2 ->
  (unique_traders_24h c1 <= unique_traders_24h c2)%Z ->
  (buys_24h c1 <= buys_24h c2)%Z ->
  score r1 <= score r2.
Proof.
  intros c1 c2 Hlp Hfdv Hage Hsells Hvol Htr Hbuys.
  unfold score. fold c1 c2. rewrite Hlp, Hfdv, Hage, Hsells.
  apply score_of_mono; assumption.
Qed.

(** ** The exit prices *)


Lemma sl_pct_range (vliq : Q) (traders : Z) :
  0.22 <= sl_pct vliq traders /\ sl_pct vliq traders <= 0.28.
Proof.
  unfold sl_pct, sl_pct_assign.
  destruct (tighten_cond vliq traders), (loosen_cond vliq traders);
    split; discriminate.
Qed.


(** C6. A price of 0 or below has stop-loss 0.  For a positive price the
    stop-loss is the price less the cut, rounded to 12 decimals: the
    unrounded value is strictly below the price, the rounding adds at most
    0.5e-12, and from a price of 2.3e-12 on the stop-loss is strictly below
    the price. *)
Theorem compute_stop_loss_below_price (price vliq : Q) (traders : Z) :
  (price <= 0 -> compute_stop_loss price vliq traders == 0)
  /\ (0 < price ->
      price * (1.0 - sl_pct vliq traders) < price
      /\ compute_stop_loss price vliq traders
         <= price * (1.0 - sl_pct vliq traders) + 0.5e-12)
  /\ (2.3e-12 <= price -> compute_stop_loss price vliq traders < price).
Proof.
  pose proof (sl_pct_range vliq traders) as [Hlo Hhi].
  assert (Hhalf : (1 # 2) / pow10 12 == 0.5e-12) by reflexivity.
  assert (E05 : 0.5e-12 == 1 # 2000000000000) by reflexivity.
  assert (E23 : 2.3e-12 == 23 # 10000000000000) by reflexivity.
  unfold compute_stop_loss.
  destruct (Qle_bool price 0) eqn:E; prop_tests.
  - split; [reflexivity|].
    split; intro H; [|rewrite E23 in H]; exfalso; lra.
  - pose proof (round_near (price * (1.0 - sl_pct vliq traders)) 12)
      as [_ Hup].
    rewrite Hhalf in Hup.
    split; [intro; exfalso; lra|].
    split; [intros _; split; [nra | exact Hup]|].
    intro Hp. rewrite E23 in Hp. rewrite E05 in Hup.
    eapply Qle_lt_trans; [exact Hup|]. nra.
Qed.

Lemma fib_levels_keys_distinct (price : Q) (chg24_pct : option Q) :
  keys_distinct (fib_levels price chg24_pct).
Proof.
  unfold keys_distinct, fib_levels.
  destruct (Qle_bool price 0); cbn;
    repeat (constructor; [cbn; intuition discriminate|]); constructor.
Qed.

Lemma add_exit_prices_keys_distinct (r : Row) (tps fdvs : list Q) :
  keys_distinct (add_exit_prices r tps fdvs).
Proof.
  unfold add_exit_prices.
  apply update_keys_distinct, set_keys_distinct.
  destruct (Qltb 0 (price_usd (row_cand r)) && Qltb 0 (fdv_usd (row_cand r)));
    apply fold_set_keys_distinct, fold_set_keys_distinct; constructor.
Qed.

(** A Fibonacci level of a scored row is the one [fib_levels] computes
    from the row's price and percent change. *)
Lemma scored_fib_level (r : Row) (tps fdvs : list Q) (k : string) (c : cell) :
  Dict.lookup k
    (fib_levels (price_usd (row_cand r)) (chg24_pct (row_cand r))) = Some c ->
  Dict.lookup k (row_exits (scored r tps fdvs)) = Some c.
Proof.
  intro H. unfold scored, update_exits. cbn [row_exits].
  rewrite lookup_update by apply add_exit_prices_keys_distinct.
  unfold add_exit_prices.
  rewrite lookup_update by apply fib_levels_keys_distinct.
  cbn [set_score row_cand]. rewrite H. reflexivity.
Qed.

(** C8. With price 1.0 and no 24h percent change the swing is the default
    10% of the price, and the levels a scored row carries are
    fib_dn_0382 = 0.9618, fib_up_1618 = 1.1618 and fib_up_2618 = 1.2618. *)
Theorem fib_levels_default_swing (r : Row) (tps fdvs : list Q) :
  price_usd (row_cand r) == 1.0 -> chg24_pct (row_cand r) = None ->
  fib_swing (price_usd (row_cand r)) (chg24_pct (row_cand r)) == 0.10
  /\ cell_is (row_exits (scored r tps fdvs)) "fib_dn_0382" 0.9618
  /\ cell_is (row_exits (scored r tps fdvs)) "fib_up_1618" 1.1618
  /\ cell_is (row_exits (scored r tps fdvs)) "fib_up_2618" 1.2618.
Proof.
  intros Hp Hc.
  assert (Hpos : Qle_bool (price_usd (row_cand r)) 0 = false).
  { apply Qle_bool_gt. rewrite Hp. reflexivity. }
  split; [rewrite Hc; cbn [fib_swing]; rewrite Hp; reflexivity|].
  unfold cell_is.
  repeat split.
  - erewrite scored_fib_level;
      [|unfold fib_levels; rewrite Hpos; cbn; reflexivity].
    rewrite Hc. cbn [fib_swing]. rewrite Hp. reflexivity.
  - erewrite scored_fib_level;
      [|unfold fib_levels; rewrite Hpos; cbn; reflexivity].
    rewrite Hc. cbn [fib_swing]. rewrite Hp. reflexivity.
  - erewrite scored_fib_level;
      [|unfold fib_levels; rewrite Hpos; cbn; reflexivity].
    rewrite Hc. cbn [fib_swing]. rewrite Hp. reflexivity.
Qed.

(** ** The scenarios of the gate *)

(** C3. The scenario candidate (liquidity 5000, valuation 0, 10 traders,
    volume 2000, age 1h, no social link) passes the default discovery
    gate; the default refine gate rejects it for its liquidity, below the
    refine minimum of 6000; with a social link required and the other
    discovery thresholds kept, the reason is "no_socials". *)
Theorem scenario_gates :
  pass_gates (row_of scenario_candidate) DISCOVERY = (true, EmptyString)
  /\ pass_gates (row_of scenario_candidate) REFINE
     = (false, "lp$5000 outside [6000,1500000]"%string)
  /\ pass_gates (row_of scenario_candidate) DISCOVERY_social
     = (false, "no_socials"%string).
Proof.
  repeat split; vm_compute; reflexivity.
Qed.

(** ** The funnel *)

Lemma insert_desc_perm {A : Type} (key : A -> Q) (x : A) (l : list A) :
  Permutation (insert_desc key x l) (x :: l).
Proof.
  induction l as [|y l IH]; cbn; [apply Permutation_refl|].
  destruct (Qltb (key x) (key y)); [|apply Permutation_refl].
  eapply perm_trans; [apply perm_skip, IH | apply perm_swap].
Qed.

Lemma sorted_desc_perm {A : Type} (key : A -> Q) (l : list A) :
  Permutation (sorted_desc key l) l.
Proof.
  induction l as [|x l IH]; cbn; [apply perm_nil|].
  eapply perm_trans; [apply insert_desc_perm | apply perm_skip, IH].
Qed.

Lemma insert_desc_sorted {A : Type} (key : A -> Q) (x : A) (l : list A) :
  StronglySorted (ranks_before key) l ->
  StronglySorted (ranks_before key) (insert_desc key x l).
Proof.
  induction l as [|y l IH]; cbn; intro H.
  - constructor; constructor.
  - inversion H as [|? ? Hs Hf]; subst.
    destruct (Qltb (key x) (key y)) eqn:E; prop_tests.
    + constructor; [apply IH; assumption|].
      apply (Permutation_Forall (Permutation_sym (insert_desc_perm key x l))).
      constructor; [|assumption].
      unfold ranks_before. apply Qlt_le_weak. assumption.
    + constructor; [assumption|].
      constructor; [exact E|].
      eapply Forall_impl; [|exact Hf].
      unfold ranks_before. intros a Ha. eapply Qle_trans; eassumption.
Qed.

Lemma sorted_desc_sorted {A : Type} (key : A -> Q) (l : list A) :
  StronglySorted (ranks_before key) (sorted_desc key l).
Proof.
  induction l as [|x l IH]; cbn; [constructor|].
  apply insert_desc_sorted. assumption.
Qed.

Lemma insert_desc_with_key {A : Type} (key : A -> Q) (k : Q) (x : A)
  (l : list A) :
  with_key key k (insert_desc key x l) = with_key key k (x :: l).
Proof.
  unfold with_key.
  induction l as [|y l IH]; cbn; [reflexivity|].
  destruct (Qltb (key x) (key y)) eqn:E; [|reflexivity].
  cbn. rewrite IH. cbn.
  destruct (Qeq_bool (key y) k) eqn:Ey; [|reflexivity].
  destruct (Qeq_bool (key x) k) eqn:Ex; [|reflexivity].
  prop_tests. rewrite Ex, Ey in E. exfalso. apply (Qlt_irrefl k E).
Qed.

(** [sorted_desc] is stable: rows of one key keep their order. *)
Lemma sorted_desc_stable {A : Type} (key : A -> Q) (k : Q) (l : list A) :
  with_key key k (sorted_desc key l) = with_key key k l.
Proof.
  induction l as [|x l IH]; cbn [sorted_desc]; [reflexivity|].
  rewrite insert_desc_with_key. unfold with_key in *. cbn. rewrite IH.
  reflexivity.
Qed.

Lemma gate_loop_items (rows : list Row) (cfg : GateConfig) (tps fdvs : list Q) :
  fst (gate_loop rows cfg tps fdvs)
  = map (fun r => scored r tps fdvs)
      (filter (fun r => fst (pass_gates r cfg)) rows).
Proof.
  induction rows as [|r rows IH]; cbn [gate_loop filter]; [reflexivity|].
  destruct (pass_gates r cfg) as [ok why] eqn:E.
  destruct (gate_loop rows cfg tps fdvs) as [items rejects].
  cbn [fst] in *. destruct ok; cbn [fst map]; rewrite IH; reflexivity.
Qed.

Lemma gate_loop_rejects (rows : list Row) (cfg : GateConfig)
  (tps fdvs : list Q) :
  snd (gate_loop rows cfg tps fdvs)
  = map (fun r => set_reject_reason r (snd (pass_gates r cfg)))
      (filter (fun r => negb (fst (pass_gates r cfg))) rows).
Proof.
  induction rows as [|r rows IH]; cbn [gate_loop filter]; [reflexivity|].
  destruct (pass_gates r cfg) as [ok why] eqn:E.
  destruct (gate_loop rows cfg tps fdvs) as [items rejects].
  cbn [snd fst] in *.
  destruct ok; cbn [snd negb map]; rewrite IH, ?E; reflexivity.
Qed.

Lemma assign_ranks_length (i : Z) (items : list Row) :
  List.length (assign_ranks i items) = List.length items.
Proof.
  revert i. induction items as [|it items IH]; cbn; intro i; [reflexivity|].
  rewrite IH. reflexivity.
Qed.

(** The ranks [assign_ranks] gives are [i], [i+1], ... in list order. *)
Lemma assign_ranks_ranks (i : Z) (items : list Row) :
  map row_rank (assign_ranks i items)
  = map (fun j => Some (i + Z.of_nat j)%Z) (seq 0 (List.length items)).
Proof.
  revert i. induction items as [|it items IH]; intro i; [reflexivity|].
  cbn [assign_ranks map List.length seq set_rank row_rank].
  f_equal; [f_equal; lia|].
  rewrite IH, <- seq_shift, map_map.
  apply map_ext. intro j. f_equal. lia.
Qed.

Lemma assign_ranks_scores (i : Z) (items : list Row) :
  Forall (fun it => row_score it = Some (score it)) items ->
  Forall (fun it => row_score it = Some (score it)) (assign_ranks i items).
Proof.
  intro H. revert i.
  induction H as [|it items Hit _ IH]; intro i; cbn; constructor.
  - exact Hit.
  - apply IH.
Qed.

Lemma in_firstn {A : Type} (n : nat) (l : list A) (x : A) :
  In x (firstn n l) -> In x l.
Proof.
  revert l. induction n as [|n IH]; intros [|y l]; cbn; try contradiction.
  intros [-> | H]; [left; reflexivity | right; apply IH; exact H].
Qed.

Lemma file_names_differ (tag : string) :
  String.eqb ("rejects_" ++ tag ++ ".csv") ("candidates_" ++ tag ++ ".html")
  = false
  /\ String.eqb ("candidates_" ++ tag ++ ".csv")
       ("candidates_" ++ tag ++ ".html") = false
  /\ String.eqb ("candidates_" ++ tag ++ ".csv") ("rejects_" ++ tag ++ ".csv")
     = false.
Proof.
  split; [reflexivity|]. split; [|reflexivity].
  apply String.eqb_neq. cbn. intro H.
  repeat (injection H as H).
  induction tag as [|c tag IH]; cbn in H; [discriminate|].
  injection H as H. apply IH. exact H.
Qed.

Lemma run_once_files (rows : list Row) (cfg : GateConfig) (target : Z)
  (outdir : files) (tag : string) (tps fdvs : list Q) :
  snd (run_once rows cfg target outdir tag tps fdvs)
  = Dict.set ("candidates_" ++ tag ++ ".html")
      (Html tag (fst (run_once rows cfg target outdir tag tps fdvs)))
      (Dict.set ("rejects_" ++ tag ++ ".csv")
         (Csv (snd (gate_loop rows cfg tps fdvs)))
         (Dict.set ("candidates_" ++ tag ++ ".csv")
            (Csv (fst (run_once rows cfg target outdir tag tps fdvs)))
            outdir)).
Proof.
  unfold run_once. destruct (gate_loop rows cfg tps fdvs) as [its rej].
  reflexivity.
Qed.

Lemma run_once_candidates_file (rows : list Row) (cfg : GateConfig)
  (target : Z) (outdir : files) (tag : string) (tps fdvs : list Q) :
  Dict.lookup ("candidates_" ++ tag ++ ".csv")
    (snd (run_once rows cfg target outdir tag tps fdvs))
  = Some (Csv (fst (run_once rows cfg target outdir tag tps fdvs))).
Proof.
  pose proof (file_names_differ tag) as (Hn1 & Hn2 & Hn3).
  rewrite run_once_files, !lookup_set, Hn2, Hn3, String.eqb_refl.
  reflexivity.
Qed.

Lemma run_once_rejects_file (rows : list Row) (cfg : GateConfig)
  (target : Z) (outdir : files) (tag : string) (tps fdvs : list Q) :
  Dict.lookup ("rejects_" ++ tag ++ ".csv")
    (snd (run_once rows cfg target outdir tag tps fdvs))
  = Some (Csv (snd (gate_loop rows cfg tps fdvs))).
Proof.
  pose proof (file_names_differ tag) as (Hn1 & Hn2 & Hn3).
  rewrite run_once_files, !lookup_set, Hn1, String.eqb_refl.
  reflexivity.
Qed.

(** C2. For a target count of 0 or more, a pass returns at most that many
    rows.  The rows are the first [target] of a list that holds the scored
    copies of the rows passing the gate, in descending score order, rows of
    equal score in input order; they are ranked 1, 2, ... in that order.
    The rejects table holds the rows failing the gate and no other, in
    input order; each of them carries a reason, which is not empty and is
    the one [pass_gates] gives for it. *)
Theorem run_once_ranked_and_rejected (rows : list Row) (cfg : GateConfig)
  (target : Z) (outdir : files) (tag : string) (tps fdvs : list Q) :
  (0 <= target)%Z ->
  let passers :=
    map (fun r => scored r tps fdvs)
      (filter (fun r => fst (pass_gates r cfg)) rows) in
  let failers := filter (fun r => negb (fst (pass_gates r cfg))) rows in
  let items := fst (run_once rows cfg target outdir tag tps fdvs) in
  let out := snd (run_once rows cfg target outdir tag tps fdvs) in
  (Z.of_nat (List.length items) <= target)%Z
  /\ (exists ranking,
        Permutation ranking passers
        /\ StronglySorted (ranks_before score_key) ranking
        /\ (forall k, with_key score_key k ranking
                      = with_key score_key k passers)
        /\ items = assign_ranks 1 (firstn (Z.to_nat target) ranking))
  /\ Forall (fun it => row_score it = Some (score it)) items
  /\ map row_rank items
     = map (fun i => Some (Z.of_nat i)) (seq 1 (List.length items))
  /\ Dict.lookup ("candidates_" ++ tag ++ ".csv") out = Some (Csv items)
  /\ (exists rejects,
        Dict.lookup ("rejects_" ++ tag ++ ".csv") out = Some (Csv rejects)
        /\ rejects
           = map (fun r => set_reject_reason r (snd (pass_gates r cfg)))
               failers
        /\ map row_cand rejects = map row_cand failers
        /\ Forall (fun rej =>
                     exists why,
                       row_reject_reason rej = Some why
                       /\ why <> EmptyString
                       /\ pass_gates rej cfg = (false, why))
             rejects).
Proof.
  intros Htarget passers failers items out.
  pose proof (gate_loop_items rows cfg tps fdvs) as Hitems.
  pose proof (gate_loop_rejects rows cfg tps fdvs) as Hrejects.
  pose proof (run_once_candidates_file rows cfg target outdir tag tps fdvs)
    as Hfile1.
  pose proof (run_once_rejects_file rows cfg target outdir tag tps fdvs)
    as Hfile2.
  subst items out. rewrite Hfile1, Hfile2. clear Hfile1 Hfile2.
  unfold run_once.
  destruct (gate_loop rows cfg tps fdvs) as [its rej].
  cbn [fst snd] in *. fold passers in Hitems. fold failers in Hrejects.
  subst its rej.
  unfold slice_to.
  destruct (0 <=? target)%Z eqn:E; [|apply Z.leb_gt in E; lia].
  split.
  { rewrite assign_ranks_length.
    pose proof (firstn_le_length (Z.to_nat target)
                  (sorted_desc score_key passers)).
    lia. }
  split.
  { exists (sorted_desc score_key passers).
    split; [apply sorted_desc_perm|].
    split; [apply sorted_desc_sorted|].
    split; [intro k; apply sorted_desc_stable | reflexivity]. }
  split.
  { apply assign_ranks_scores.
    apply Forall_forall. intros it Hin.
    apply in_firstn in Hin.
    apply (Permutation_in _ (sorted_desc_perm score_key passers)) in Hin.
    apply in_map_iff in Hin as (r & <- & _). reflexivity. }
  split.
  { rewrite assign_ranks_ranks, assign_ranks_length, <- seq_shift, map_map.
    apply map_ext. intro j. f_equal. lia. }
  split; [reflexivity|].
  eexists. split; [reflexivity|]. split; [reflexivity|].
  split.
  { rewrite map_map. reflexivity. }
  apply Forall_forall. intros rej Hin.
  apply in_map_iff in Hin as (r & <- & Hr).
  apply filter_In in Hr as [_ Hfail]. apply negb_true_iff in Hfail.
  exists (snd (pass_gates r cfg)).
  split; [reflexivity|].
  split; [apply pass_gates_rejection_reason; exact Hfail|].
  assert (Ecand : pass_gates (set_reject_reason r (snd (pass_gates r cfg))) cfg
              = pass_gates r cfg) by reflexivity.
  rewrite Ecand. rewrite <- Hfail. apply surjective_pairing.
Qed.

(** C10. [run] first runs the discovery pass over the normalized pool.
    When that pass ranks at least one row, the refine pass runs over its
    ranked rows; when it ranks none, the refine pass runs over the whole
    pool; either way with the refine thresholds and the refine target.
    The output directory ends with the ranked table of each pass. *)
Theorem run_two_stage (chains : list string) (limit_per_chain : Z)
  (target_disc target_ref : Z) (outdir : files) (tps fdvs : list Q)
  (disc_cfg ref_cfg : GateConfig) :
  let rows := collect_rows chains limit_per_chain [] 0 in
  let discovery :=
    run_once rows disc_cfg target_disc outdir "discovery" tps fdvs in
  let refine input :=
    run_once input ref_cfg target_ref (snd discovery) "refined" tps fdvs in
  let final :=
    run chains limit_per_chain target_disc target_ref outdir tps fdvs
      disc_cfg ref_cfg in
  Dict.lookup "candidates_discovery.csv" final = Some (Csv (fst discovery))
  /\ (fst discovery <> [] ->
      final = snd (refine (fst discovery))
      /\ Dict.lookup "candidates_refined.csv" final
         = Some (Csv (fst (refine (fst discovery)))))
  /\ (fst discovery = [] ->
      final = snd (refine rows)
      /\ Dict.lookup "candidates_refined.csv" final
         = Some (Csv (fst (refine rows)))).
Proof.
  intros rows discovery refine final.
  assert (Hfinal :
    final = snd (refine match fst discovery with
                        | [] => rows
                        | _ :: _ => fst discovery
                        end)).
  { subst final refine discovery rows. unfold run.
    destruct (run_once _ disc_cfg _ _ _ _ _) as [disc out1]. reflexivity. }
  split.
  - rewrite Hfinal. unfold refine.
    rewrite run_once_files, !lookup_set. cbn [append String.eqb Ascii.eqb
      Bool.eqb].
    apply (run_once_candidates_file rows disc_cfg target_disc outdir
             "discovery" tps fdvs).
  - split; intro Hd.
    + destruct (fst discovery) as [|it its] eqn:E; [contradiction|].
      split; [exact Hfinal|]. rewrite Hfinal.
      apply (run_once_candidates_file _ ref_cfg target_ref (snd discovery)
               "refined" tps fdvs).
    + rewrite Hd in Hfinal. split; [exact Hfinal|]. rewrite Hfinal.
      apply (run_once_candidates_file _ ref_cfg target_ref (snd discovery)
               "refined" tps fdvs).
Qed.

(** ** The normalizer *)

Lemma get_is_dict (d : pyval) (k : string) :
  is_dict d = true -> get d k = Ok (field d k).
Proof.
  destruct d; cbn; intro H; try discriminate. reflexivity.
Qed.

Lemma py_float_numeric (v : pyval) :
  numeric v = true -> exists q, py_float v = Ok q.
Proof.
  destruct v as [| |z| |s| |]; cbn [numeric py_float]; intro H;
    try discriminate; try (eexists; reflexivity).
  - unfold float_of_int. rewrite H. eexists. reflexivity.
  - destruct (float_of_str s); [eexists; reflexivity | discriminate].
Qed.

Lemma py_int_integral (v : pyval) :
  integral v = true -> exists z, py_int v = Ok z.
Proof.
  destruct v; cbn; intro H; try discriminate; try (eexists; reflexivity).
  destruct (int_of_str s); [eexists; reflexivity | discriminate].
Qed.

(** [float(v or 0.0)]: the value when there is one, 0 otherwise. *)
Lemma py_float_or_zero (v zero : pyval) :
  falsy_or numeric v = true -> py_float zero = Ok 0 ->
  exists q, py_float (por v zero) = Ok q /\ (truthy v = false -> q == 0).
Proof.
  unfold falsy_or, por. intros H Hz.
  destruct (truthy v) eqn:E; cbn in H.
  - destruct (py_float_numeric v H) as (q & Hq).
    exists q. split; [exact Hq | discriminate].
  - exists 0. split; [exact Hz | reflexivity].
Qed.

Lemma first_true_ok (d : pyval) (ks : list string) :
  is_dict d = true ->
  Forall (fun k => falsy_or numeric (field d k) = true) ks ->
  exists r, first_true d ks = Ok r
    /\ match r with
       | Some v => numeric v = true
       | None => Forall (fun k => truthy (field d k) = false) ks
       end.
Proof.
  intros Hd H. induction H as [|k ks Hk _ IH]; cbn [first_true].
  - exists None. split; [reflexivity | constructor].
  - rewrite (get_is_dict d k Hd). cbn [bind].
    unfold falsy_or in Hk.
    destruct (truthy (field d k)) eqn:E; cbn in Hk.
    + exists (Some (field d k)). split; [reflexivity | exact Hk].
    + destruct IH as (r & Hr & Hprop). exists r. split; [exact Hr|].
      destruct r; [exact Hprop | constructor; assumption].
Qed.

Lemma pick_created_ms_ok (p : pyval) :
  is_dict p = true ->
  is_dict (group p "info") = true -> is_dict (group p "liquidity") = true ->
  falsy_or numeric (field p "pairCreatedAt") = true ->
  falsy_or numeric (field p "createdAt") = true ->
  falsy_or numeric (field (group p "info") "createdAt") = true ->
  falsy_or numeric (field (group p "info") "listedAt") = true ->
  falsy_or numeric (field (group p "liquidity") "createdAt") = true ->
  exists created, pick_created_ms p = Ok created
    /\ (truthy (field p "pairCreatedAt") = false ->
        truthy (field p "createdAt") = false ->
        truthy (field (group p "info") "createdAt") = false ->
        truthy (field (group p "info") "listedAt") = false ->
        truthy (field (group p "liquidity") "createdAt") = false ->
        created = None).
Proof.
  intros Hp Hinfo Hliq H1 H2 H3 H4 H5.
  unfold pick_created_ms.
  rewrite !(get_is_dict p _ Hp). cbn [bind].
  change (por (field p "info") (VDict [])) with (group p "info").
  change (por (field p "liquidity") (VDict [])) with (group p "liquidity").
  destruct (first_true_ok p ["pairCreatedAt"; "createdAt"]%string Hp)
    as (r1 & Hr1 & Hp1); [repeat constructor; assumption|].
  rewrite Hr1. cbn [bind].
  destruct r1 as [v|].
  { destruct (py_float_numeric v Hp1) as (q & Hq). rewrite Hq. cbn [bind].
    eexists. split; [reflexivity|].
    intros F1 F2 _ _ _. exfalso.
    cbn [first_true] in Hr1. rewrite !(get_is_dict p _ Hp) in Hr1.
    cbn [bind] in Hr1. rewrite F1, F2 in Hr1. discriminate. }
  destruct (first_true_ok (group p "info") ["createdAt"; "listedAt"]%string
              Hinfo) as (r2 & Hr2 & Hp2); [repeat constructor; assumption|].
  rewrite Hr2. cbn [bind].
  destruct r2 as [v|].
  { destruct (py_float_numeric v Hp2) as (q & Hq). rewrite Hq. cbn [bind].
    eexists. split; [reflexivity|].
    intros _ _ F3 F4 _. exfalso.
    cbn [first_true] in Hr2. rewrite !(get_is_dict _ _ Hinfo) in Hr2.
    cbn [bind] in Hr2. rewrite F3, F4 in Hr2. discriminate. }
  rewrite (get_is_dict _ _ Hliq). cbn [bind].
  unfold falsy_or in H5.
  destruct (truthy (field (group p "liquidity") "createdAt")) eqn:E;
    cbn in H5.
  - destruct (py_float_numeric _ H5) as (q & Hq). rewrite Hq. cbn [bind].
    eexists. split; [reflexivity|]. intros _ _ _ _ F5. discriminate.
  - exists None. split; reflexivity.
Qed.

Lemma py_lower_or_empty (v : pyval) :
  falsy_or is_str v = true -> exists s, py_lower (por v (VStr "")) = Ok s.
Proof.
  unfold falsy_or, por. intro H.
  destruct (truthy v); cbn in H.
  - destruct v; try discriminate. eexists. reflexivity.
  - eexists. reflexivity.
Qed.

Lemma socials_loop_ok (l : list pyval) :
  forallb social_entry_ok l = true ->
  forall tw tg, exists r, socials_loop l tw tg = Ok r.
Proof.
  induction l as [|s l IH]; cbn [forallb socials_loop]; intros H tw tg.
  - eexists. reflexivity.
  - apply andb_true_iff in H as [Hs Hl].
    unfold social_entry_ok in Hs. apply andb_true_iff in Hs as [Hd Ht].
    rewrite (get_is_dict s "type" Hd). cbn [bind].
    destruct (py_lower_or_empty _ Ht) as (t & Hlow). rewrite Hlow.
    cbn [bind]. rewrite (get_is_dict s "url" Hd). cbn [bind].
    apply IH. exact Hl.
Qed.

Lemma socials_total (info : pyval) :
  socials_ok info = true -> websites_ok info = true ->
  exists r, socials info = Ok r.
Proof.
  unfold socials, socials_ok, websites_ok. intros Hs Hw.
  destruct (is_dict info) eqn:Hd; [|eexists; reflexivity].
  rewrite (get_is_dict info "socials" Hd). cbn [bind].
  destruct (por (field info "socials") (VList [])) as [| | | | |l|] eqn:E;
    try discriminate.
  cbn [py_iter bind].
  destruct (socials_loop_ok l Hs (VStr "") (VStr "")) as (r & Hr).
  rewrite Hr. cbn [bind].
  rewrite (get_is_dict info "websites" Hd). cbn [bind].
  destruct (por (field info "websites") (VList [])) as [| | | | |ws|];
    try (eexists; reflexivity).
  destruct ws as [|w ws]; [eexists; reflexivity|].
  rewrite (get_is_dict w "url" Hw). cbn [bind]. eexists. reflexivity.
Qed.

Lemma dex_name_total (dex_id chain_id : pyval) :
  falsy_or is_str dex_id = true -> falsy_or is_str chain_id = true ->
  exists s, dex_name dex_id chain_id = Ok s.
Proof.
  intros Hd Hc. unfold dex_name.
  destruct (py_lower_or_empty _ Hd) as (d & Hd'). rewrite Hd'. cbn [bind].
  destruct (py_lower_or_empty _ Hc) as (c & Hc'). rewrite Hc'. cbn [bind].
  destruct (Dict.lookup d dex_table); [eexists; reflexivity|].
  destruct (contains "solana" c); [eexists; reflexivity|].
  destruct (contains "base" c); [eexists; reflexivity|].
  destruct (contains "eth" c); eexists; reflexivity.
Qed.

Lemma explorer_url_total (chain_id addr : pyval) :
  falsy_or is_str chain_id = true ->
  exists s, explorer_url chain_id addr = Ok s.
Proof.
  intro Hc. unfold explorer_url.
  destruct (negb (truthy addr)); [eexists; reflexivity|].
  destruct (py_lower_or_empty _ Hc) as (c & Hc'). rewrite Hc'. cbn [bind].
  repeat match goal with
  | |- context [if ?b then _ else _] => destruct b; [eexists; reflexivity|]
  end.
  eexists. reflexivity.
Qed.

Lemma get_default_count (txns : pyval) (k : string) :
  is_dict txns = true ->
  match Dict.lookup k (match txns with VDict l => l | _ => [] end) with
  | Some v => integral v
  | None => true
  end = true ->
  exists z, (v <- get_default txns k (VInt 0) ;; py_int v) = Ok z
    /\ (Dict.lookup k (match txns with VDict l => l | _ => [] end) = None ->
        z = 0%Z).
Proof.
  destruct txns as [| | | | | |l]; cbn [is_dict]; intros Hd H;
    try discriminate.
  cbn [get_default bind].
  destruct (Dict.lookup k l) as [v|].
  - destruct (py_int_integral v H) as (z & Hz). exists z.
    split; [exact Hz | discriminate].
  - exists 0%Z. split; reflexivity.
Qed.

(** On an accepted snapshot [row_from_pair] returns a candidate, and a
    field that is absent (or null, zero, empty) in the snapshot has its
    default in the candidate. *)
Lemma row_from_pair_accepts (now_ms : Q) (p : pyval) :
  snapshot_ok p = true ->
  exists c, row_from_pair now_ms p = Ok c
    /\ (truthy (field p "priceUsd") = false -> price_usd c == 0)
    /\ (truthy (field p "fdv") = false -> fdv_usd c == 0)
    /\ (truthy (field (group p "liquidity") "usd") = false -> lp_usd c == 0)
    /\ (truthy (field (group p "volume") "h24") = false ->
        volume_24h_usd c == 0)
    /\ (field (group (group p "txns") "h24") "buys" = VNone ->
        buys_24h c = 0%Z)
    /\ (field (group (group p "txns") "h24") "sells" = VNone ->
        sells_24h c = 0%Z)
    /\ unique_traders_24h c = (buys_24h c + sells_24h c)%Z
    /\ (none_or_empty (field (group p "priceChange") "h24") = true ->
        chg24_pct c = None)
    /\ (truthy (field p "pairCreatedAt") = false ->
        truthy (field p "createdAt") = false ->
        truthy (field (group p "info") "createdAt") = false ->
        truthy (field (group p "info") "listedAt") = false ->
        truthy (field (group p "liquidity") "createdAt") = false ->
        age_hours c = None).
Proof.
  intro H. unfold snapshot_ok in H. cbv zeta in H.
  repeat match type of H with
  | (_ && _) = true =>
      let H' := fresh "Hok" in apply andb_true_iff in H as [H H']
  end.
  rename H into Hp.
  unfold row_from_pair.
  rewrite !(get_is_dict p _ Hp). cbn [bind].
  change (por (field p "baseToken") (VDict [])) with (group p "baseToken").
  change (por (field p "info") (VDict [])) with (group p "info").
  change (por (field p "liquidity") (VDict [])) with (group p "liquidity").
  change (por (field p "txns") (VDict [])) with (group p "txns").
  change (por (field p "volume") (VDict [])) with (group p "volume").
  change (por (field p "priceChange") (VDict []))
    with (group p "priceChange").
  rewrite (get_is_dict (group p "txns") "h24") by assumption.
  rewrite (get_is_dict (group p "volume") "h24") by assumption.
  rewrite (get_is_dict (group p "priceChange") "h24") by assumption.
  cbn [bind].
  change (por (field (group p "txns") "h24") (VDict []))
    with (group (group p "txns") "h24").
  destruct (get_default_count (group (group p "txns") "h24") "buys")
    as (buys & Hbuys & Dbuys); [assumption | assumption |].
  destruct (get_default_count (group (group p "txns") "h24") "sells")
    as (sells & Hsells & Dsells); [assumption | assumption |].
  cbn [bind] in Hbuys, Hsells.
  destruct (get_default (group (group p "txns") "h24") "buys" (VInt 0))
    as [b0|] eqn:Eb; [|discriminate].
  cbn [bind] in Hbuys |- *. rewrite Hbuys. cbn [bind].
  destruct (get_default (group (group p "txns") "h24") "sells" (VInt 0))
    as [s0|] eqn:Es; [|discriminate].
  cbn [bind] in Hsells |- *. rewrite Hsells. cbn [bind].
  destruct (pick_created_ms_ok p) as (created & Hcreated & Dcreated);
    try assumption.
  rewrite Hcreated. cbn [bind].
  destruct (socials_total (group p "info")) as ([[tw tg] web] & Hsoc);
    try assumption.
  rewrite Hsoc. cbn [bind].
  destruct (py_float_or_zero (field p "priceUsd") (VFloat 0))
    as (price & Hprice & Dprice); [assumption | reflexivity |].
  rewrite Hprice. cbn [bind].
  destruct (py_float_or_zero (field p "fdv") (VFloat 0))
    as (fdv & Hfdv & Dfdv); [assumption | reflexivity |].
  rewrite Hfdv. cbn [bind].
  assert (Hliq2 : por (group p "liquidity") (VDict []) = group p "liquidity").
  { unfold por. destruct (truthy (group p "liquidity")) eqn:E; [reflexivity|].
    destruct (group p "liquidity") as [| | | | | |l]; try discriminate.
    destruct l; [reflexivity | discriminate]. }
  rewrite Hliq2.
  rewrite (get_is_dict (group p "liquidity") "usd") by assumption.
  cbn [bind].
  destruct (py_float_or_zero (field (group p "liquidity") "usd") (VFloat 0))
    as (lp & Hlp & Dlp); [assumption | reflexivity |].
  rewrite Hlp. cbn [bind].
  rewrite !(get_is_dict (group p "baseToken") _) by assumption. cbn [bind].
  assert (Hvol2 :
    por (por (field (group p "volume") "h24") (VInt 0)) (VInt 0)
    = por (field (group p "volume") "h24") (VInt 0)).
  { unfold por. destruct (truthy (field (group p "volume") "h24")) eqn:E;
      [rewrite E|]; reflexivity. }
  rewrite Hvol2.
  destruct (py_float_or_zero (field (group p "volume") "h24") (VInt 0))
    as (vol & Hvol & Dvol); [assumption | reflexivity |].
  rewrite Hvol. cbn [bind].
  assert (Hchg : exists chg,
    (if none_or_empty (field (group p "priceChange") "h24") then Ok None
     else x <- py_float (field (group p "priceChange") "h24") ;; Ok (Some x))
    = Ok chg
    /\ (none_or_empty (field (group p "priceChange") "h24") = true ->
        chg = None)).
  { destruct (none_or_empty (field (group p "priceChange") "h24")) eqn:E.
    - exists None. split; reflexivity.
    - match goal with
      | Hc : (_ || numeric _) = true |- _ =>
          cbn [orb] in Hc; destruct (py_float_numeric _ Hc) as (x & Hx)
      end.
      rewrite Hx. cbn [bind]. eexists. split; [reflexivity | discriminate]. }
  destruct Hchg as (chg & Hchg & Dchg). rewrite Hchg. cbn [bind].
  destruct (dex_name_total (field p "dexId") (field p "chainId"))
    as (dexn & Hdex); [assumption | assumption |].
  rewrite Hdex. cbn [bind].
  destruct (explorer_url_total (field p "chainId")
              (field (group p "baseToken") "address"))
    as (expl & Hexpl); [assumption|].
  rewrite Hexpl. cbn [bind].
  eexists. split; [reflexivity|].
  cbn [price_usd fdv_usd lp_usd volume_24h_usd buys_24h sells_24h
       unique_traders_24h chg24_pct age_hours].
  assert (Habsent : forall k,
    match Dict.lookup k
            (match group (group p "txns") "h24" with
             | VDict l => l
             | _ => []
             end) with
    | Some v => integral v
    | None => true
    end = true ->
    field (group (group p "txns") "h24") k = VNone ->
    Dict.lookup k
      (match group (group p "txns") "h24" with VDict l => l | _ => [] end)
    = None).
  { intros k Hint Hnone.
    destruct (group (group p "txns") "h24") as [| | | | | |l];
      try reflexivity.
    cbn [field] in Hnone.
    destruct (Dict.lookup k l) as [v|]; [|reflexivity].
    subst v. discriminate. }
  split; [exact Dprice|]. split; [exact Dfdv|]. split; [exact Dlp|].
  split; [exact Dvol|].
  split; [intro Hn; apply Dbuys, Habsent; assumption|].
  split; [intro Hn; apply Dsells, Habsent; assumption|].
  split; [reflexivity|].
  split; [exact Dchg|].
  intros F1 F2 F3 F4 F5. rewrite (Dcreated F1 F2 F3 F4 F5). reflexivity.
Qed.

(** Whatever the snapshots are, [extend_rows] keeps the rows it was given
    and the rows it appended before an exception. *)
Lemma extend_rows_keeps (pairs : list pyval) (rows : list Row) (n : nat) :
  exists added,
    fst (fst (extend_rows rows n pairs)) = rows ++ map row_of added
    /\ (List.length added <= List.length pairs)%nat
    /\ (snd (extend_rows rows n pairs) = None ->
        List.length added = List.length pairs).
Proof.
  revert rows n.
  induction pairs as [|p pairs IH]; intros rows n; cbn [extend_rows].
  - exists []. cbn. rewrite app_nil_r. repeat split; reflexivity.
  - destruct (row_from_pair (clock_ms n) p) as [c|e].
    + destruct (IH (rows ++ [row_of c]) (S n)) as (added & Hrows & Hlen & Hall).
      exists (c :: added). rewrite Hrows, <- app_assoc. cbn.
      split; [reflexivity|]. split; [lia|]. intro Hn. rewrite (Hall Hn).
      reflexivity.
    + exists []. cbn. rewrite app_nil_r.
      split; [reflexivity|]. split; [lia | discriminate].
Qed.

Lemma run_once_empty_pool (cfg : GateConfig) (target : Z) (outdir : files)
  (tag : string) (tps fdvs : list Q) :
  run_once [] cfg target outdir tag tps fdvs
  = ([], Dict.set ("candidates_" ++ tag ++ ".html") (Html tag [])
           (Dict.set ("rejects_" ++ tag ++ ".csv") (Csv [])
              (Dict.set ("candidates_" ++ tag ++ ".csv") (Csv []) outdir))).
Proof.
  unfold run_once, slice_to. cbn [gate_loop sorted_desc List.length].
  destruct (0 <=? target)%Z; rewrite firstn_nil; reflexivity.
Qed.

Lemma py_float_not_numeric (v : pyval) :
  numeric v = false -> exists e, py_float v = Raise e.
Proof.
  destruct v as [| |z| |s| |]; cbn [numeric py_float]; intro H;
    try discriminate; try (eexists; reflexivity).
  - unfold float_of_int. rewrite H. eexists. reflexivity.
  - destruct (float_of_str s); [discriminate | eexists; reflexivity].
Qed.

(** Peels the successful steps off a computation known to return. *)
Ltac bind_inv H :=
  repeat match type of H with
  | bind ?m _ = Ok _ =>
      let E := fresh "E" in
      destruct m eqn:E; cbn [bind] in H; [|discriminate H]
  end.

(** A price or a valuation that [float] rejects: no record comes back. *)
Lemma row_from_pair_rejects (now_ms : Q) (p : pyval) (k : string) :
  is_dict p = true -> In k ["priceUsd"; "fdv"]%string ->
  truthy (field p k) = true -> numeric (field p k) = false ->
  forall c, row_from_pair now_ms p <> Ok c.
Proof.
  intros Hp Hk Ht Hn c H.
  destruct (py_float_not_numeric _ Hn) as (e & He).
  unfold row_from_pair in H.
  rewrite !(get_is_dict p _ Hp) in H. cbn [bind] in H.
  bind_inv H.
  match type of H with
  | context [let '(_, _) := ?x in _] => destruct x as [[tw tg] web]
  end.
  bind_inv H.
  destruct Hk as [<- | [<- | []]];
    match type of Ht with
    | truthy ?v = true =>
        match goal with
        | E : py_float (por v _) = Ok _ |- _ =>
            unfold por in E; rewrite Ht, He in E; discriminate E
        end
    end.
Qed.

(** The snapshots normalized before an exception stay in the pool; the
    snapshot that raises ends the loop. *)
Lemma extend_rows_app (good : list pyval) (cs : list Candidate)
  (rows : list Row) (n : nat) (rest : list pyval) :
  normalized n good = map Ok cs ->
  extend_rows rows n (good ++ rest)
  = extend_rows (rows ++ map row_of cs) (n + List.length good) rest.
Proof.
  revert cs rows n.
  induction good as [|p good IH]; intros cs rows n H.
  - destruct cs; [|discriminate H].
    cbn. rewrite app_nil_r, Nat.add_0_r. reflexivity.
  - destruct cs as [|c cs]; [discriminate H|].
    cbn [normalized map] in H. injection H as Hp Hgood.
    cbn [app extend_rows List.length]. rewrite Hp.
    rewrite (IH cs _ _ Hgood), <- app_assoc, Nat.add_succ_r. reflexivity.
Qed.

Lemma extend_rows_stops (good : list pyval) (cs : list Candidate)
  (bad : pyval) (e : exn) (rows : list Row) (n : nat) (rest : list pyval) :
  normalized n good = map Ok cs ->
  row_from_pair (clock_ms (n + List.length good)) bad = Raise e ->
  extend_rows rows n (good ++ bad :: rest)
  = (rows ++ map row_of cs, S (n + List.length good), Some e).
Proof.
  intros Hgood Hbad.
  rewrite (extend_rows_app good cs rows n (bad :: rest) Hgood).
  cbn [extend_rows]. rewrite Hbad. reflexivity.
Qed.

Lemma run_empty_pool (chains : list string) (limit_per_chain : Z)
  (target_disc target_ref : Z) (outdir : files) (tps fdvs : list Q)
  (disc_cfg ref_cfg : GateConfig) :
  collect_rows chains limit_per_chain [] 0 = [] ->
  forall name,
    In name [ "candidates_discovery.csv"; "rejects_discovery.csv";
              "candidates_refined.csv"; "rejects_refined.csv" ]%string ->
    Dict.lookup name
      (run chains limit_per_chain target_disc target_ref outdir tps fdvs
         disc_cfg ref_cfg)
    = Some (Csv []).
Proof.
  intros Hrows name Hname. unfold run. rewrite Hrows.
  rewrite (run_once_empty_pool disc_cfg), (run_once_empty_pool ref_cfg).
  cbn [snd]. rewrite !lookup_set.
  destruct Hname as [<- | [<- | [<- | [<- | []]]]]; reflexivity.
Qed.

(** What a returned candidate owes to the steps of [row_from_pair]. *)
Lemma row_from_pair_inv (now_ms : Q) (p : pyval) (c : Candidate) :
  row_from_pair now_ms p = Ok c ->
  is_dict p = true
  /\ unique_traders_24h c = (buys_24h c + sells_24h c)%Z
  /\ (exists created,
        pick_created_ms p = Ok created
        /\ age_hours c = match age_hours_from_ms now_ms created with
                         | None => None
                         | Some a => Some (round a 2)
                         end)
  /\ (exists tw tg web,
        socials (por (field p "info") (VDict [])) = Ok (tw, tg, web)
        /\ twitter_url c = tw /\ telegram_url c = tg /\ website_url c = web)
  /\ token_symbol c
     = por (field (por (field p "baseToken") (VDict [])) "symbol") (VStr "")
  /\ chain c = por (field p "chainId") (VStr "")
  /\ trade_url c = por (field p "url") (VStr "")
  /\ contract_address c
     = field (por (field p "baseToken") (VDict [])) "address"
  /\ pair_address c = field p "pairAddress"
  /\ dex_name (field p "dexId") (field p "chainId") = Ok (dex c)
  /\ explorer_url (field p "chainId") (contract_address c)
     = Ok (explorer_link c).
Proof.
  intro H.
  assert (Hp : is_dict p = true).
  { destruct p; try reflexivity; cbn in H; discriminate. }
  unfold row_from_pair in H.
  rewrite !(get_is_dict p _ Hp) in H. cbn [bind] in H.
  bind_inv H.
  match type of H with
  | context [let '(_, _) := ?x in _] => destruct x as [[tw tg] web]
  end.
  bind_inv H.
  assert (Hbase : is_dict (por (field p "baseToken") (VDict [])) = true).
  { match goal with
    | E : get (por (field p "baseToken") (VDict [])) "symbol" = Ok _ |- _ =>
        destruct (por (field p "baseToken") (VDict [])); try reflexivity;
        cbn in E; discriminate
    end. }
  repeat match goal with
  | E : get (por (field p "baseToken") (VDict [])) ?k = Ok ?v |- _ =>
      rewrite (get_is_dict _ k Hbase) in E; injection E as <-
  end.
  injection H as <-. cbn.
  split; [exact Hp|]. split; [reflexivity|].
  split; [eexists; split; reflexivity|].
  split; [exists tw, tg, web; repeat split; reflexivity|].
  repeat split; try reflexivity; assumption.
Qed.

(** With no "socials" list there is no Twitter or Telegram link, with no
    "websites" list no website link. *)
Lemma socials_defaults (info tw tg web : pyval) :
  socials info = Ok (tw, tg, web) ->
  (truthy (field info "socials") = false -> tw = VStr "" /\ tg = VStr "")
  /\ (truthy (field info "websites") = false -> web = VStr "").
Proof.
  unfold socials. destruct (is_dict info) eqn:Hd.
  - rewrite (get_is_dict info "socials" Hd), (get_is_dict info "websites" Hd).
    cbn [bind]. intro H.
    destruct (py_iter (por (field info "socials") (VList []))) as [l|]
      eqn:El; cbn [bind] in H; [|discriminate H].
    destruct (socials_loop l (VStr "") (VStr "")) as [twtg|] eqn:Eloop;
      cbn [bind] in H; [|discriminate H].
    assert (Hweb : por (field info "websites") (VList []) = VList [] ->
                   web = VStr "").
    { intro Ew. rewrite Ew in H. injection H as _ _ <-. reflexivity. }
    assert (Htwtg : fst twtg = tw /\ snd twtg = tg).
    { destruct (por (field info "websites") (VList [])) as [| | | | |ws|];
        try (injection H as <- <- _; split; reflexivity).
      destruct ws as [|w ws]; [injection H as <- <- _; split; reflexivity|].
      bind_inv H. injection H as <- <- _. split; reflexivity. }
    split.
    + intro Hs. unfold por in El. rewrite Hs in El. cbn [py_iter] in El.
      injection El as <-. cbn [socials_loop] in Eloop.
      injection Eloop as <-.
      destruct Htwtg as [<- <-]. split; reflexivity.
    + intro Hw. apply Hweb. unfold por. rewrite Hw. reflexivity.
  - intro H. injection H as <- <- <-. repeat split; reflexivity.
Qed.

(** A text field that is absent, null or empty in the snapshot is the
    empty string in the record, and an absent address is null. *)
Lemma row_from_pair_text_defaults (now_ms : Q) (p : pyval) (c : Candidate) :
  row_from_pair now_ms p = Ok c ->
  (truthy (field (group p "baseToken") "symbol") = false ->
   token_symbol c = VStr "")
  /\ (truthy (field p "chainId") = false -> chain c = VStr "")
  /\ (truthy (field p "url") = false -> trade_url c = VStr "")
  /\ (field (group p "baseToken") "address" = VNone ->
      contract_address c = VNone)
  /\ (field p "pairAddress" = VNone -> pair_address c = VNone)
  /\ (truthy (field (group p "info") "socials") = false ->
      twitter_url c = VStr "" /\ telegram_url c = VStr "")
  /\ (truthy (field (group p "info") "websites") = false ->
      website_url c = VStr "").
Proof.
  intro H.
  destruct (row_from_pair_inv now_ms p c H)
    as (_ & _ & _ & (tw & tg & web & Hsoc & Htw & Htg & Hweb)
        & Hsym & Hchain & Hurl & Haddr & Hpair & _).
  destruct (socials_defaults _ _ _ _ Hsoc) as [Ds Dw].
  unfold group.
  split; [intro F; rewrite Hsym; unfold por at 1; rewrite F; reflexivity|].
  split; [intro F; rewrite Hchain; unfold por; rewrite F; reflexivity|].
  split; [intro F; rewrite Hurl; unfold por; rewrite F; reflexivity|].
  split; [intro F; rewrite Haddr; exact F|].
  split; [intro F; rewrite Hpair; exact F|].
  split; [intro F; rewrite Htw, Htg; apply Ds; exact F|].
  intro F. rewrite Hweb. apply Dw. exact F.
Qed.

(** C9. [row_from_pair] returns a record on every snapshot it accepts
    ([snapshot_ok]), with 0 for a number that is absent, null, zero or
    empty, 0 for an absent count, and null for an absent age or percent
    change; in any record it returns, a text field that is absent, null or
    empty is the empty string and an absent address is null.  It returns
    none on a snapshot whose price or valuation is a true value that
    [float] rejects.  In [run], an exception raised while
    the snapshots of a query are normalized is caught there: the rows of
    the earlier queries and of the earlier snapshots of that query stay in
    the pool, the later snapshots of that query are dropped, and the loop
    goes on with the next query; a query whose fetch fails adds nothing.
    A run whose pool is empty writes empty tables. *)
Theorem normalizer_accepts_and_query_loop_recovers (now_ms : Q) (p : pyval)
  (q : string) (chains : list string)
  (limit_per_chain target_disc target_ref : Z) (rows : list Row) (n : nat)
  (good rest : list pyval) (bad : pyval) (cs : list Candidate) (e : exn)
  (outdir : files) (tps fdvs : list Q) (disc_cfg ref_cfg : GateConfig) :
  (snapshot_ok p = true ->
   exists c, row_from_pair now_ms p = Ok c
     /\ (truthy (field p "priceUsd") = false -> price_usd c == 0)
     /\ (truthy (field p "fdv") = false -> fdv_usd c == 0)
     /\ (truthy (field (group p "liquidity") "usd") = false -> lp_usd c == 0)
     /\ (truthy (field (group p "volume") "h24") = false ->
         volume_24h_usd c == 0)
     /\ (field (group (group p "txns") "h24") "buys" = VNone ->
         buys_24h c = 0%Z)
     /\ (field (group (group p "txns") "h24") "sells" = VNone ->
         sells_24h c = 0%Z)
     /\ unique_traders_24h c = (buys_24h c + sells_24h c)%Z
     /\ (none_or_empty (field (group p "priceChange") "h24") = true ->
         chg24_pct c = None)
     /\ (truthy (field p "pairCreatedAt") = false ->
         truthy (field p "createdAt") = false ->
         truthy (field (group p "info") "createdAt") = false ->
         truthy (field (group p "info") "listedAt") = false ->
         truthy (field (group p "liquidity") "createdAt") = false ->
         age_hours c = None))
  /\ (forall c, row_from_pair now_ms p = Ok c ->
      (truthy (field (group p "baseToken") "symbol") = false ->
       token_symbol c = VStr "")
      /\ (truthy (field p "chainId") = false -> chain c = VStr "")
      /\ (truthy (field p "url") = false -> trade_url c = VStr "")
      /\ (field (group p "baseToken") "address" = VNone ->
          contract_address c = VNone)
      /\ (field p "pairAddress" = VNone -> pair_address c = VNone)
      /\ (truthy (field (group p "info") "socials") = false ->
          twitter_url c = VStr "" /\ telegram_url c = VStr "")
      /\ (truthy (field (group p "info") "websites") = false ->
          website_url c = VStr ""))
  /\ (is_dict p = true ->
      forall k, In k ["priceUsd"; "fdv"]%string ->
      truthy (field p k) = true -> numeric (field p k) = false ->
      forall c, row_from_pair now_ms p <> Ok c)
  /\ (fetch_pairs_for_chain q limit_per_chain = Ok (good ++ bad :: rest) ->
      normalized n good = map Ok cs ->
      row_from_pair (clock_ms (n + List.length good)) bad = Raise e ->
      collect_rows (q :: chains) limit_per_chain rows n
      = collect_rows chains limit_per_chain (rows ++ map row_of cs)
          (S (n + List.length good)))
  /\ (fetch_pairs_for_chain q limit_per_chain = Raise e ->
      collect_rows (q :: chains) limit_per_chain rows n
      = collect_rows chains limit_per_chain rows n)
  /\ (collect_rows chains limit_per_chain [] 0 = [] ->
      forall name,
        In name [ "candidates_discovery.csv"; "rejects_discovery.csv";
                  "candidates_refined.csv"; "rejects_refined.csv" ]%string ->
        Dict.lookup name
          (run chains limit_per_chain target_disc target_ref outdir tps fdvs
             disc_cfg ref_cfg)
        = Some (Csv [])).
Proof.
  split; [apply row_from_pair_accepts|].
  split; [apply row_from_pair_text_defaults|].
  split; [intros Hp k; apply row_from_pair_rejects; exact Hp|].
  split.
  { intros Hfetch Hgood Hbad. cbn [collect_rows]. rewrite Hfetch.
    rewrite (extend_rows_stops good cs bad e rows n rest Hgood Hbad).
    reflexivity. }
  split.
  { intro Hfetch. cbn [collect_rows]. rewrite Hfetch. reflexivity. }
  apply run_empty_pool.
Qed.

(** ** Further properties of the normalizer *)

(** [round] leaves a whole number alone. *)
Lemma round_inject_Z (z : Z) (n : nat) : round (inject_Z z) n == inject_Z z.
Proof.
  pose proof (pow10_pos n) as Hp.
  unfold round, pow10 in *.
  rewrite <- inject_Z_mult.
  assert (H : round_half_even (inject_Z (z * 10 ^ Z.of_nat n))
              = (z * 10 ^ Z.of_nat n)%Z).
  { unfold round_half_even. rewrite Qfloor_Z.
    assert (E : Qltb (inject_Z (z * 10 ^ Z.of_nat n)
                      - inject_Z (z * 10 ^ Z.of_nat n)) (1 # 2) = true).
    { apply Qltb_lt. setoid_replace
        (inject_Z (z * 10 ^ Z.of_nat n) - inject_Z (z * 10 ^ Z.of_nat n))
        with 0 by ring. reflexivity. }
    rewrite E. reflexivity. }
  rewrite H, inject_Z_mult. field.
  intro E. rewrite E in Hp. inversion Hp.
Qed.

Lemma age_hours_from_ms_range (now_ms : Q) (ms : option Q) (a : Q) :
  age_hours_from_ms now_ms ms = Some a -> 0 <= a /\ a <= 43800.
Proof.
  unfold age_hours_from_ms. destruct ms as [ms|]; [|discriminate].
  destruct (Qltb (24 * 365 * 5) ((now_ms - ms) / 3600000)) eqn:E;
    [discriminate|].
  intro H. injection H as <-. prop_tests.
  split; [apply Q.le_max_l|].
  apply Q.max_lub; [discriminate|].
  setoid_replace 43800 with (24 * 365 * 5) by reflexivity. exact E.
Qed.

(** X1. Whatever the snapshot, a candidate that [row_from_pair] returns has
    a trader count equal to its buys plus its sells, and an age that is
    null or between 0 and 43800 hours (five years). *)
Theorem row_from_pair_traders_and_age (now_ms : Q) (p : pyval)
  (c : Candidate) :
  row_from_pair now_ms p = Ok c ->
  unique_traders_24h c = (buys_24h c + sells_24h c)%Z
  /\ match age_hours c with
     | None => True
     | Some a => 0 <= a /\ a <= 43800
     end.
Proof.
  intro H.
  destruct (row_from_pair_inv now_ms p c H)
    as (_ & Ht & (created & _ & Hage) & _).
  split; [exact Ht|]. rewrite Hage.
  destruct (age_hours_from_ms now_ms created) as [a|] eqn:E; [|exact I].
  destruct (age_hours_from_ms_range now_ms created a E) as [Hlo Hhi].
  split.
  - rewrite <- (round_inject_Z 0 2). apply round_mono. exact Hlo.
  - rewrite <- (round_inject_Z 43800 2). apply round_mono. exact Hhi.
Qed.

(** X2. A snapshot that is not a JSON object makes [row_from_pair] raise
    [AttributeError], and the loop over a query's snapshots stops there:
    the rows of the snapshots normalized before it are in the pool, after
    the rows that were there, and the snapshots after it are not
    normalized. *)
Theorem non_object_snapshot_ends_the_loop (now_ms : Q) (bad : pyval)
  (rows : list Row) (n : nat) (good rest : list pyval)
  (cs : list Candidate) :
  is_dict bad = false ->
  normalized n good = map Ok cs ->
  row_from_pair now_ms bad = Raise AttributeError
  /\ extend_rows rows n (good ++ bad :: rest)
     = (rows ++ map row_of cs, S (n + List.length good),
        Some AttributeError).
Proof.
  intros H Hgood.
  assert (E : forall t, row_from_pair t bad = Raise AttributeError).
  { intro t. destruct bad; try discriminate; reflexivity. }
  split; [apply E|].
  apply extend_rows_stops; [exact Hgood | apply E].
Qed.

Lemma por_empty_or_true (v : pyval) : empty_or_true (por v (VStr "")).
Proof.
  unfold por, empty_or_true.
  destruct (truthy v) eqn:E; [right; exact E | left; reflexivity].
Qed.

Lemma py_lower_raises (v : pyval) :
  falsy_or is_str v = false ->
  py_lower (por v (VStr "")) = Raise AttributeError.
Proof.
  unfold falsy_or, por. intro H.
  destruct (truthy v); cbn in H; [|discriminate].
  destruct v; try discriminate; reflexivity.
Qed.

(** X3. [dex_name] returns a label when each of its two arguments is
    absent (or empty) or text, and raises [AttributeError] otherwise. *)
Theorem dex_name_text_or_raises (dex_id chain_id : pyval) :
  (falsy_or is_str dex_id && falsy_or is_str chain_id = true ->
   exists label, dex_name dex_id chain_id = Ok label)
  /\ (falsy_or is_str dex_id && falsy_or is_str chain_id = false ->
      dex_name dex_id chain_id = Raise AttributeError).
Proof.
  split; intro H.
  - apply andb_true_iff in H as [Hd Hc]. apply dex_name_total; assumption.
  - unfold dex_name.
    destruct (falsy_or is_str dex_id) eqn:Ed.
    + destruct (py_lower_or_empty dex_id Ed) as (d & Hd). rewrite Hd.
      cbn [bind]. cbn [andb] in H. rewrite (py_lower_raises chain_id H).
      reflexivity.
    + rewrite (py_lower_raises dex_id Ed). reflexivity.
Qed.

Lemma lower_ascii_idem (c : ascii) : lower_ascii (lower_ascii c) = lower_ascii c.
Proof.
  unfold lower_ascii.
  destruct ((65 <=? nat_of_ascii c)%nat && (nat_of_ascii c <=? 90)%nat) eqn:E.
  - apply andb_true_iff in E as [E1 E2].
    apply Nat.leb_le in E1. apply Nat.leb_le in E2.
    rewrite nat_ascii_embedding by lia.
    assert (E3 : (nat_of_ascii c + 32 <=? 90)%nat = false)
      by (apply Nat.leb_gt; lia).
    rewrite E3, andb_false_r. reflexivity.
  - rewrite E. reflexivity.
Qed.

Lemma lower_idem (s : string) : lower (lower s) = lower s.
Proof.
  induction s as [|c s IH]; cbn; [reflexivity|].
  rewrite lower_ascii_idem, IH. reflexivity.
Qed.

Lemma py_lower_text (s : string) :
  py_lower (por (VStr s) (VStr "")) = Ok (lower s).
Proof.
  unfold por. cbn [truthy].
  destruct (String.eqb s "") eqn:E; cbn [negb py_lower]; [|reflexivity].
  apply String.eqb_eq in E. subst s. reflexivity.
Qed.

(** X4. [dex_name] does not tell upper case from lower case in the DEX
    identifier or in the chain identifier. *)
Theorem dex_name_ignores_case (dex_id chain_id : string) :
  dex_name (VStr dex_id) (VStr chain_id)
  = dex_name (VStr (lower dex_id)) (VStr (lower chain_id)).
Proof.
  unfold dex_name. rewrite !py_lower_text, !lower_idem. reflexivity.
Qed.

Lemma Ok_inj {A : Type} (a b : A) : Ok a = Ok b -> a = b.
Proof.
  intro H. injection H as H. exact H.
Qed.

(** X5. Without a token address [explorer_url] returns the empty string
    and does not look at the chain; with one, the chain must be absent or
    text, else [AttributeError]; a returned URL is empty or ends with the
    address as text. *)
Theorem explorer_url_shape (chain_id addr : pyval) :
  (truthy addr = false -> explorer_url chain_id addr = Ok EmptyString)
  /\ (truthy addr = true -> falsy_or is_str chain_id = false ->
      explorer_url chain_id addr = Raise AttributeError)
  /\ (forall url, explorer_url chain_id addr = Ok url ->
      url = EmptyString
      \/ exists site, url = (site ++ py_str addr)%string).
Proof.
  unfold explorer_url.
  split; [intro H; rewrite H; reflexivity|].
  split.
  - intros Ha Hc. rewrite Ha. cbn [negb].
    rewrite (py_lower_raises chain_id Hc). reflexivity.
  - intro url. destruct (negb (truthy addr)).
    + intro H. injection H as <-. left. reflexivity.
    + destruct (py_lower (por chain_id (VStr ""))) as [c|e]; cbn [bind];
        [|discriminate].
      cbv zeta.
      repeat match goal with
      | |- (if ?b then _ else _) = _ -> _ =>
          destruct b;
          [intro H; apply Ok_inj in H; subst url; right; eexists;
           reflexivity|]
      end.
      intro H. injection H as <-. left. reflexivity.
Qed.

Lemma socials_loop_app (l1 l2 : list pyval) (tw tg : pyval) :
  socials_loop (l1 ++ l2) tw tg
  = (r <- socials_loop l1 tw tg ;; socials_loop l2 (fst r) (snd r)).
Proof.
  revert tw tg. induction l1 as [|s l1 IH]; intros tw tg.
  - reflexivity.
  - cbn [app socials_loop].
    destruct (get s "type") as [ty|]; cbn [bind]; [|reflexivity].
    destruct (py_lower (por ty (VStr ""))) as [t|]; cbn [bind];
      [|reflexivity].
    destruct (get s "url") as [u0|]; cbn [bind]; [|reflexivity].
    apply IH.
Qed.

Lemma socials_loop_keeps (l : list pyval) (tw tg tw' tg' : pyval) :
  socials_loop l tw tg = Ok (tw', tg') ->
  (truthy tw = true -> tw' = tw) /\ (truthy tg = true -> tg' = tg).
Proof.
  revert tw tg. induction l as [|s l IH]; intros tw tg H.
  - injection H as <- <-. split; reflexivity.
  - cbn [socials_loop] in H. bind_inv H.
    destruct (IH _ _ H) as [H1 H2].
    split; intro Ht; [rewrite H1 | rewrite H2]; rewrite Ht;
      rewrite ?andb_false_r; try reflexivity;
      destruct (String.eqb _ _ && _); exact Ht.
Qed.

(** X6. In the loop of [socials] a Twitter or Telegram URL found in the
    first entries is kept: the entries after it never replace it. *)
Theorem socials_first_link_wins (first later : list pyval)
  (tw tg tw' tg' : pyval) :
  socials_loop first (VStr "") (VStr "") = Ok (tw, tg) ->
  socials_loop (first ++ later) (VStr "") (VStr "") = Ok (tw', tg') ->
  (truthy tw = true -> tw' = tw) /\ (truthy tg = true -> tg' = tg).
Proof.
  intros H1 H2. rewrite socials_loop_app, H1 in H2. cbn [bind fst snd] in H2.
  exact (socials_loop_keeps later tw tg tw' tg' H2).
Qed.

Lemma first_true_find (d : pyval) (ks : list string) :
  is_dict d = true ->
  first_true d ks = Ok (find truthy (map (field d) ks)).
Proof.
  intro Hd. induction ks as [|k ks IH]; cbn [first_true map find];
    [reflexivity|].
  rewrite (get_is_dict d k Hd). cbn [bind].
  destruct (truthy (field d k)); [reflexivity | exact IH].
Qed.

(** X7. When the snapshot is an object whose "info" and "liquidity" groups
    are absent or objects, [pick_created_ms] converts the first true value
    among the pair-level, info-level and liquidity-level creation fields,
    in that order, and returns null when there is none; a zero or empty
    field counts as missing, and a first true value that is not a number
    raises without a look at the later fields. *)
Theorem pick_created_ms_first_true (p : pyval) :
  is_dict p = true -> is_dict (group p "info") = true ->
  is_dict (group p "liquidity") = true ->
  pick_created_ms p
  = match find truthy (created_fields p) with
    | Some v => x <- py_float v ;; Ok (Some x)
    | None => Ok None
    end.
Proof.
  intros Hp Hi Hl. unfold pick_created_ms, created_fields.
  rewrite !(get_is_dict p _ Hp). cbn [bind].
  change (por (field p "info") (VDict [])) with (group p "info").
  change (por (field p "liquidity") (VDict [])) with (group p "liquidity").
  rewrite (first_true_find p _ Hp), (first_true_find _ _ Hi).
  rewrite (get_is_dict _ _ Hl). cbn [bind map find].
  destruct (truthy (field p "pairCreatedAt")); [reflexivity|].
  destruct (truthy (field p "createdAt")); [reflexivity|].
  destruct (truthy (field (group p "info") "createdAt")); [reflexivity|].
  destruct (truthy (field (group p "info") "listedAt")); [reflexivity|].
  destruct (truthy (field (group p "liquidity") "createdAt")); reflexivity.
Qed.

Lemma socials_loop_empty_or_true (l : list pyval) (tw tg tw' tg' : pyval) :
  empty_or_true tw -> empty_or_true tg ->
  socials_loop l tw tg = Ok (tw', tg') ->
  empty_or_true tw' /\ empty_or_true tg'.
Proof.
  revert tw tg. induction l as [|s l IH]; intros tw tg Htw Htg H.
  - injection H as <- <-. split; assumption.
  - cbn [socials_loop] in H. bind_inv H.
    refine (IH _ _ _ _ H);
      match goal with
      | |- empty_or_true (if ?b then _ else _) =>
          destruct b; [apply por_empty_or_true | assumption]
      end.
Qed.

Lemma socials_empty_or_true (info tw tg web : pyval) :
  socials info = Ok (tw, tg, web) ->
  empty_or_true tw /\ empty_or_true tg /\ empty_or_true web.
Proof.
  unfold socials. intro H.
  assert (He : empty_or_true (VStr "")) by (left; reflexivity).
  destruct (is_dict info).
  - bind_inv H.
    match goal with
    | E : socials_loop _ _ _ = Ok ?r |- _ =>
        destruct r as [tw0 tg0];
        destruct (socials_loop_empty_or_true _ _ _ _ _ He He E) as [H1 H2]
    end.
    cbn [fst snd] in H.
    match type of H with
    | context [match por ?w (VList []) with _ => _ end] =>
        destruct (por w (VList [])) as [| | | | |ws|]
    end;
      try (injection H as <- <- <-; repeat split; assumption).
    destruct ws as [|w ws];
      [injection H as <- <- <-; repeat split; assumption|].
    bind_inv H. injection H as <- <- <-.
    repeat split; try assumption. apply por_empty_or_true.
  - injection H as <- <- <-. repeat split; assumption.
Qed.

(** X8. In a candidate that [row_from_pair] returns, the symbol, the
    chain, the trade URL and the three social links are each the empty
    string or a true value; so the candidate has no social link exactly
    when its three links are the empty string. *)
Theorem row_from_pair_text_fields (now_ms : Q) (p : pyval) (c : Candidate) :
  row_from_pair now_ms p = Ok c ->
  empty_or_true (token_symbol c) /\ empty_or_true (chain c)
  /\ empty_or_true (trade_url c)
  /\ empty_or_true (twitter_url c) /\ empty_or_true (telegram_url c)
  /\ empty_or_true (website_url c)
  /\ (has_social c = false
      <-> twitter_url c = VStr "" /\ telegram_url c = VStr ""
          /\ website_url c = VStr "").
Proof.
  intro H. unfold has_social.
  destruct (row_from_pair_inv now_ms p c H)
    as (_ & _ & _ & (tw & tg & web & Hs & -> & -> & ->) & -> & -> & -> & _).
  destruct (socials_empty_or_true _ _ _ _ Hs) as (H1 & H2 & H3).
  repeat (split; [first [apply por_empty_or_true | assumption]|]).
  rewrite !orb_false_iff.
  split.
  - intros [[F1 F2] F3].
    destruct H1 as [-> | T1]; [|rewrite T1 in F1; discriminate].
    destruct H2 as [-> | T2]; [|rewrite T2 in F2; discriminate].
    destruct H3 as [-> | T3]; [|rewrite T3 in F3; discriminate].
    repeat split; reflexivity.
  - intros (-> & -> & ->). repeat split; reflexivity.
Qed.

(** ** Further properties of the gate and of the score *)

(** X9. [pass_gates] rejects exactly when it gives a non-empty reason, and
    a candidate older than the maximum age gets the age reason whatever
    its other fields. *)
Theorem pass_gates_reason_tells_rejection (r : Row) (cfg : GateConfig) :
  (fst (pass_gates r cfg) = false <-> snd (pass_gates r cfg) <> EmptyString)
  /\ (forall a, age_hours (row_cand r) = Some a ->
      num_val (max_age_h cfg) < a ->
      pass_gates r cfg
      = (false, ("age>" ++ str_of_num (max_age_h cfg) ++ "h")%string)).
Proof.
  split.
  - split.
    + unfold pass_gates.
      repeat match goal with
      | |- context [if ?b then _ else _] =>
          destruct b; cbn [fst snd]; [intros _; discriminate|]
      end.
      discriminate.
    + intro H. destruct (fst (pass_gates r cfg)) eqn:E; [|reflexivity].
      exfalso. apply H. apply pass_gates_reason. exact E.
  - intros a Ha Hlt. unfold pass_gates. rewrite Ha.
    apply Qltb_lt in Hlt. rewrite Hlt. reflexivity.
Qed.

Lemma pass_gates_weaken (r : Row) (strict loose : GateConfig) :
  at_least_as_strict strict loose ->
  fst (pass_gates r strict) = true -> fst (pass_gates r loose) = true.
Proof.
  intros (Hage & Hmin & Hmax & Hfdv & Htr & Hvl & Hsoc).
  rewrite !pass_gates_tests. cbv zeta.
  set (c := row_cand r).
  rewrite !andb_true_iff, !negb_true_iff.
  intros (((((Ta & Tl1 & Tl2) & Tf) & Tt) & Tv) & Ts).
  prop_tests.
  repeat split.
  - destruct (age_hours c) as [a|]; [|reflexivity].
    prop_tests. apply Qltb_ge. eapply Qle_trans; eassumption.
  - apply Qle_bool_iff. eapply Qle_trans; eassumption.
  - apply Qle_bool_iff. eapply Qle_trans; eassumption.
  - apply andb_false_iff in Tf. apply andb_false_iff.
    destruct Tf as [Tf | Tf]; [left; exact Tf | right].
    prop_tests. apply Qltb_ge. eapply Qle_trans; eassumption.
  - apply Z.ltb_ge. lia.
  - apply Qltb_ge. eapply Qle_trans; eassumption.
  - destruct (require_social loose) eqn:E; [|reflexivity].
    rewrite (Hsoc eq_refl) in Ts. exact Ts.
Qed.

(** X10. A candidate that passes the gate under some thresholds passes it
    under any thresholds that ask no more: a wider age, liquidity and
    valuation range, lower trader and ratio minimums, no added social
    requirement. *)
Theorem pass_gates_looser_config (r : Row) (strict loose : GateConfig) :
  at_least_as_strict strict loose ->
  fst (pass_gates r strict) = true -> fst (pass_gates r loose) = true.
Proof.
  apply pass_gates_weaken.
Qed.

Lemma fdv_ok_range (fdv : Q) : 0 <= fdv_ok fdv /\ fdv_ok fdv <= 1.
Proof.
  unfold fdv_ok.
  repeat match goal with
  | |- context [if ?b then _ else _] => destruct b
  end; split; discriminate.
Qed.

Lemma age_ok_range (age : option Q) : 0.3 <= age_ok age /\ age_ok age <= 1.
Proof.
  unfold age_ok. destruct age as [a|]; [|split; discriminate].
  repeat match goal with
  | |- context [if ?b then _ else _] => destruct b
  end; split; discriminate.
Qed.

(** X11. A score is at most 102; for a candidate whose volume and trader
    count are not negative it is at least 3. *)
Theorem score_range (r : Row) :
  score r <= 102
  /\ (0 <= volume_24h_usd (row_cand r) ->
      (0 <= unique_traders_24h (row_cand r))%Z ->
      3 <= score r).
Proof.
  unfold score, score_of.
  set (c := row_cand r).
  pose proof (fdv_ok_range (fdv_usd c)) as [Hf0 Hf1].
  pose proof (age_ok_range (age_hours c)) as [Ha0 Ha1].
  assert (Heps : 0 < 1e-9) by reflexivity.
  set (vl := if Qltb 0 (lp_usd c)
             then Qmin (volume_24h_usd c / (lp_usd c + 1e-9)) 5.0 / 5.0
             else 0.0).
  set (tn := Qmin (inject_Z (unique_traders_24h c) / 1500.0) 1.0).
  assert (Hv1 : vl <= 1).
  { subst vl. destruct (Qltb 0 (lp_usd c)); [|discriminate].
    apply Qle_shift_div_r; [reflexivity|].
    eapply Qle_trans; [apply Q.le_min_r | discriminate]. }
  assert (Ht1 : tn <= 1).
  { subst tn. eapply Qle_trans; [apply Q.le_min_r | discriminate]. }
  split.
  - rewrite <- (round_inject_Z 102 2). apply round_mono.
    change (inject_Z 102) with 102.
    destruct (buy_pressure (buys_24h c) (sells_24h c)); lra.
  - intros Hvol Htr.
    assert (Hv0 : 0 <= vl).
    { subst vl. destruct (Qltb 0 (lp_usd c)) eqn:E; [|discriminate].
      prop_tests. apply Qle_shift_div_l; [reflexivity|].
      apply Q.min_glb; [|discriminate].
      apply Qle_shift_div_l; lra. }
    assert (Ht0 : 0 <= tn).
    { subst tn. apply Q.min_glb; [|discriminate].
      apply Qle_shift_div_l; [reflexivity|].
      assert (H0 : 0 <= inject_Z (unique_traders_24h c))
        by (change 0 with (inject_Z 0); rewrite <- Zle_Qle; exact Htr).
      lra. }
    rewrite <- (round_inject_Z 3 2). apply round_mono.
    change (inject_Z 3) with 3.
    destruct (buy_pressure (buys_24h c) (sells_24h c)); lra.
Qed.

Lemma age_ok_antitone (a1 a2 : Q) :
  a1 <= a2 -> age_ok (Some a2) <= age_ok (Some a1).
Proof.
  intro H. unfold age_ok.
  destruct (Qle_bool a1 24) eqn:E1; destruct (Qle_bool a1 72) eqn:E2;
    destruct (Qle_bool a1 240) eqn:E3; destruct (Qle_bool a2 24) eqn:E4;
    destruct (Qle_bool a2 72) eqn:E5; destruct (Qle_bool a2 240) eqn:E6;
    prop_tests; try discriminate; exfalso; lra.
Qed.

(** X12. With the other fields equal, an older candidate never scores
    higher than a younger one, and a candidate of known age never scores
    higher than one of unknown age. *)
Theorem score_never_rises_with_age (r1 r2 : Row) :
  let c1 := row_cand r1 in
  let c2 := row_cand r2 in
  lp_usd c1 = lp_usd c2 -> volume_24h_usd c1 = volume_24h_usd c2 ->
  unique_traders_24h c1 = unique_traders_24h c2 ->
  fdv_usd c1 = fdv_usd c2 ->
  buys_24h c1 = buys_24h c2 -> sells_24h c1 = sells_24h c2 ->
  (age_hours c1 = None
   \/ exists a1 a2,
        age_hours c1 = Some a1 /\ age_hours c2 = Some a2 /\ a1 <= a2) ->
  score r2 <= score r1.
Proof.
  intros c1 c2 Hlp Hvol Htr Hfdv Hb Hs Hage.
  unfold score. fold c1 c2. rewrite Hlp, Hvol, Htr, Hfdv, Hb, Hs.
  unfold score_of. apply round_mono.
  assert (Hok : age_ok (age_hours c2) <= age_ok (age_hours c1)).
  { destruct Hage as [-> | (a1 & a2 & -> & -> & Hle)].
    - eapply Qle_trans; [exact (proj2 (age_ok_range (age_hours c2)))|].
      discriminate.
    - apply age_ok_antitone. exact Hle. }
  destruct (buy_pressure (buys_24h c2) (sells_24h c2)); lra.
Qed.

(** ** Further properties of the exit prices *)

Lemma find_app {A : Type} (f : A -> bool) (l1 l2 : list A) :
  find f (l1 ++ l2)
  = match find f l1 with Some x => Some x | None => find f l2 end.
Proof.
  induction l1 as [|x l1 IH]; cbn; [reflexivity|].
  destruct (f x); [reflexivity | exact IH].
Qed.

Lemma find_none_all {A : Type} (f : A -> bool) (l : list A) :
  (forall x, f x = false) -> find f l = None.
Proof.
  intro H. induction l as [|x l IH]; cbn; [reflexivity|].
  rewrite H. exact IH.
Qed.

(** After a loop of assignments [out[f a] = g a], a key holds the value of
    the last [a] that wrote it. *)
Lemma lookup_fold_set {V A : Type} (f : A -> string) (g : A -> V)
  (l : list A) (d : list (string * V)) (k : string) :
  Dict.lookup k (fold_left (fun out a => Dict.set (f a) (g a) out) l d)
  = match find (fun a => String.eqb (f a) k) (rev l) with
    | Some a => Some (g a)
    | None => Dict.lookup k d
    end.
Proof.
  revert d. induction l as [|a l IH]; intro d; cbn [fold_left rev];
    [reflexivity|].
  rewrite IH, find_app, lookup_set. cbn [find].
  destruct (find (fun a0 => String.eqb (f a0) k) (rev l)); [reflexivity|].
  rewrite (String.eqb_sym k (f a)).
  destruct (String.eqb (f a) k); reflexivity.
Qed.

Lemma fib_swing_nonneg (price : Q) (chg24_pct : option Q) :
  0 < price -> 0 <= fib_swing price chg24_pct.
Proof.
  intro Hp. unfold fib_swing.
  destruct chg24_pct as [chg|]; [|lra].
  destruct (div price (1.0 + chg / 100.0)); [apply Qabs_nonneg | lra].
Qed.

(** X13. For a positive price the four Fibonacci levels are numbers in
    ascending order around the price rounded to 12 decimals:
    0 <= fib_dn_0618 <= fib_dn_0382 <= round(price, 12) <= fib_up_1618
    <= fib_up_2618. *)
Theorem fib_levels_ordered (price : Q) (chg24_pct : option Q) :
  0 < price ->
  exists dn_382 dn_618 up_1618 up_2618,
    fib_levels price chg24_pct
    = [ ("fib_dn_0382", CNum dn_382); ("fib_dn_0618", CNum dn_618);
        ("fib_up_1618", CNum up_1618); ("fib_up_2618", CNum up_2618) ]%string
    /\ 0 <= dn_618 /\ dn_618 <= dn_382 /\ dn_382 <= round price 12
    /\ round price 12 <= up_1618 /\ up_1618 <= up_2618.
Proof.
  intro Hp. pose proof (fib_swing_nonneg price chg24_pct Hp) as Hs.
  unfold fib_levels.
  assert (E : Qle_bool price 0 = false) by (apply Qle_bool_gt; exact Hp).
  rewrite E. cbv zeta.
  set (swing := fib_swing price chg24_pct) in *.
  do 4 eexists. split; [reflexivity|].
  split.
  { rewrite <- (round_inject_Z 0 12). apply round_mono.
    eapply Qle_trans; [|apply Q.le_max_r]. discriminate. }
  split.
  { apply round_mono. apply Q.max_le_compat_r. lra. }
  split.
  { apply round_mono. apply Q.max_lub; lra. }
  split; apply round_mono; lra.
Qed.

(** X14. With a known percent change the swing is the distance between
    the price and the implied open price, price / (1 + change/100); at a
    change of -100 that division fails and the swing is the default 10% of
    the price; at a change of 0 the swing is 0. *)
Theorem fib_swing_cases (price chg : Q) :
  (chg == -100 -> fib_swing price (Some chg) == 0.10 * price)
  /\ (~ chg == -100 ->
      fib_swing price (Some chg)
      == Qabs (price - price / (1.0 + chg / 100.0)))
  /\ (chg == 0 -> fib_swing price (Some chg) == 0).
Proof.
  unfold fib_swing, div.
  destruct (Qeq_bool (1.0 + chg / 100.0) 0) eqn:E; prop_tests.
  - assert (Hc : chg == -100).
    { setoid_replace chg with (((1.0 + chg / 100.0) - 1) * 100) by field.
      rewrite E. reflexivity. }
    split; [reflexivity|]. split; [intro H; contradiction|].
    intro H0. rewrite H0 in Hc. discriminate.
  - split.
    { intro Hc. exfalso. apply E. rewrite Hc. reflexivity. }
    split; [reflexivity|].
    intro H0.
    assert (Ho : price / (1.0 + chg / 100.0) == price).
    { rewrite H0. field. }
    rewrite Ho.
    setoid_replace (price - price) with 0 by ring. reflexivity.
Qed.

(** The values a pass writes for a price of 0 or below. *)
Lemma fib_levels_no_price (price : Q) (chg24_pct : option Q) (k : string)
  (v : cell) :
  price <= 0 ->
  Dict.lookup k (fib_levels price chg24_pct) = Some v -> v = CEmpty.
Proof.
  intros Hp. unfold fib_levels.
  apply Qle_bool_iff in Hp. rewrite Hp. cbn [Dict.lookup].
  repeat match goal with
  | |- context [if ?b then _ else _] => destruct b
  end; intro H; [injection H as <-; reflexivity ..|discriminate].
Qed.

(** X15. For a price of 0 or below the exit prices of a row are all the
    empty cell, except the stop-loss, which is the number 0; every
    take-profit key, every valuation-target key and the four Fibonacci
    keys are present. *)
Theorem add_exit_prices_without_price (r : Row) (tps fdvs : list Q) :
  price_usd (row_cand r) <= 0 ->
  let exits := add_exit_prices r tps fdvs in
  Dict.lookup "stop_loss_price" exits = Some (CNum 0.0)
  /\ (forall k v, k <> "stop_loss_price"%string ->
      Dict.lookup k exits = Some v -> v = CEmpty)
  /\ (forall m, In m tps -> Dict.lookup (tp_key m) exits = Some CEmpty)
  /\ (forall T, In T fdvs -> Dict.lookup (fdv_key T) exits = Some CEmpty)
  /\ Dict.lookup "fib_dn_0382" exits = Some CEmpty
  /\ Dict.lookup "fib_dn_0618" exits = Some CEmpty
  /\ Dict.lookup "fib_up_1618" exits = Some CEmpty
  /\ Dict.lookup "fib_up_2618" exits = Some CEmpty.
Proof.
  intros Hp exits.
  assert (Hle : Qle_bool (price_usd (row_cand r)) 0 = true)
    by (apply Qle_bool_iff; exact Hp).
  assert (Hlt : Qltb 0 (price_usd (row_cand r)) = false)
    by (apply Qltb_ge; exact Hp).
  assert (Hlook : forall k,
    Dict.lookup k exits
    = match Dict.lookup k (fib_levels (price_usd (row_cand r))
                             (chg24_pct (row_cand r))) with
      | Some v => Some v
      | None =>
          if String.eqb k "stop_loss_price" then Some (CNum 0.0)
          else match find (fun T => String.eqb (fdv_key T) k) (rev fdvs) with
               | Some _ => Some CEmpty
               | None =>
                   match find (fun m => String.eqb (tp_key m) k) (rev tps) with
                   | Some _ => Some CEmpty
                   | None => None
                   end
               end
      end).
  { intro k. subst exits. unfold add_exit_prices.
    rewrite lookup_update by apply fib_levels_keys_distinct.
    rewrite lookup_set. unfold compute_stop_loss. rewrite Hle, Hlt.
    cbn [andb]. rewrite !lookup_fold_set. reflexivity. }
  assert (Hfib : fib_levels (price_usd (row_cand r)) (chg24_pct (row_cand r))
                 = [ ("fib_dn_0382", CEmpty); ("fib_dn_0618", CEmpty);
                     ("fib_up_1618", CEmpty); ("fib_up_2618", CEmpty) ]%string).
  { unfold fib_levels. rewrite Hle. reflexivity. }
  split; [rewrite Hlook, Hfib; reflexivity|].
  split.
  { intros k v Hk. rewrite Hlook.
    destruct (Dict.lookup k (fib_levels _ _)) as [w|] eqn:Ef.
    - intro H. injection H as <-.
      exact (fib_levels_no_price _ _ _ _ Hp Ef).
    - destruct (String.eqb k "stop_loss_price") eqn:Es;
        [apply String.eqb_eq in Es; contradiction|].
      destruct (find _ (rev fdvs));
        [intro H; injection H as <-; reflexivity|].
      destruct (find _ (rev tps));
        [intro H; injection H as <-; reflexivity | discriminate]. }
  split.
  { intros m Hin. rewrite Hlook, Hfib.
    assert (Ef : find (fun T => String.eqb (fdv_key T) (tp_key m)) (rev fdvs)
                 = None) by (apply find_none_all; intro T; reflexivity).
    assert (F1 : Dict.lookup (tp_key m)
                   [ ("fib_dn_0382", CEmpty); ("fib_dn_0618", CEmpty);
                     ("fib_up_1618", CEmpty); ("fib_up_2618", CEmpty) ]%string
                 = None) by reflexivity.
    assert (F2 : String.eqb (tp_key m) "stop_loss_price" = false)
      by reflexivity.
    rewrite F1, F2, Ef.
    destruct (find (fun m0 => String.eqb (tp_key m0) (tp_key m)) (rev tps))
      eqn:Et; [reflexivity|].
    exfalso. apply in_rev in Hin.
    pose proof (List.find_none _ _ Et m Hin) as Em. cbv beta in Em.
    rewrite String.eqb_refl in Em. discriminate. }
  split.
  { intros T Hin. rewrite Hlook, Hfib.
    assert (F1 : Dict.lookup (fdv_key T)
                   [ ("fib_dn_0382", CEmpty); ("fib_dn_0618", CEmpty);
                     ("fib_up_1618", CEmpty); ("fib_up_2618", CEmpty) ]%string
                 = None) by reflexivity.
    assert (F2 : String.eqb (fdv_key T) "stop_loss_price" = false)
      by reflexivity.
    rewrite F1, F2.
    destruct (find (fun T0 => String.eqb (fdv_key T0) (fdv_key T)) (rev fdvs))
      eqn:Et; [reflexivity|].
    exfalso. apply in_rev in Hin.
    pose proof (List.find_none _ _ Et T Hin) as Em. cbv beta in Em.
    rewrite String.eqb_refl in Em. discriminate. }
  repeat split; rewrite Hlook, Hfib; reflexivity.
Qed.

(** The exit prices of a row, key by key: a Fibonacci level, else the
    stop-loss, else the last valuation target, else the last take-profit
    multiplier that wrote the key. *)
Lemma add_exit_prices_lookup (r : Row) (tps fdvs : list Q) (k : string) :
  let c := row_cand r in
  Dict.lookup k (add_exit_prices r tps fdvs)
  = match Dict.lookup k (fib_levels (price_usd c) (chg24_pct c)) with
    | Some v => Some v
    | None =>
        if String.eqb k "stop_loss_price"
        then Some (CNum (compute_stop_loss (price_usd c) (vliq_of c)
                           (unique_traders_24h c)))
        else
          match find (fun T => String.eqb (fdv_key T) k) (rev fdvs) with
          | Some T =>
              Some (if Qltb 0 (price_usd c) && Qltb 0 (fdv_usd c)
                    then CNum (round (price_usd c * (T / fdv_usd c)) 12)
                    else CEmpty)
          | None =>
              match find (fun m => String.eqb (tp_key m) k) (rev tps) with
              | Some m =>
                  Some (if Qltb 0 (price_usd c)
                        then CNum (round (price_usd c * m) 12)
                        else CEmpty)
              | None => None
              end
          end
    end.
Proof.
  cbv zeta. unfold add_exit_prices.
  rewrite lookup_update by apply fib_levels_keys_distinct.
  rewrite lookup_set.
  destruct (Qltb 0 (price_usd (row_cand r)) && Qltb 0 (fdv_usd (row_cand r)));
    rewrite !lookup_fold_set; reflexivity.
Qed.

Lemma fib_levels_keys (price : Q) (chg24_pct : option Q) (k : string) :
  String.eqb k "fib_dn_0382" = false -> String.eqb k "fib_dn_0618" = false ->
  String.eqb k "fib_up_1618" = false -> String.eqb k "fib_up_2618" = false ->
  Dict.lookup k (fib_levels price chg24_pct) = None.
Proof.
  intros H1 H2 H3 H4. unfold fib_levels.
  destruct (Qle_bool price 0); cbn [Dict.lookup]; rewrite H1, H2, H3, H4;
    reflexivity.
Qed.

Lemma append_length (s t : string) :
  String.length (s ++ t) = (String.length s + String.length t)%nat.
Proof.
  induction s as [|c s IH]; cbn; [reflexivity|]. rewrite IH. reflexivity.
Qed.

Lemma append_inv_tail (s1 s2 t : string) :
  (s1 ++ t)%string = (s2 ++ t)%string -> s1 = s2.
Proof.
  revert s2. induction s1 as [|c s1 IH]; intros [|c2 s2] H.
  - reflexivity.
  - apply (f_equal String.length) in H. cbn in H.
    rewrite append_length in H. lia.
  - apply (f_equal String.length) in H. cbn in H.
    rewrite append_length in H. lia.
  - cbn in H. injection H as -> H. rewrite (IH s2 H). reflexivity.
Qed.

(** Printing an int loses nothing. *)
Lemma str_of_Z_inj (a b : Z) : str_of_Z a = str_of_Z b -> a = b.
Proof.
  unfold str_of_Z. intro H.
  assert (Hnil : forall z, Z.to_int z <> Decimal.Pos Decimal.Nil
                           /\ Z.to_int z <> Decimal.Neg Decimal.Nil).
  { intro z. split; intro E;
      pose proof (f_equal Z.of_int E) as E'; rewrite DecimalZ.of_to in E';
      cbn in E'; subst z; discriminate E. }
  apply DecimalZ.to_int_inj.
  assert (Ha := NilZero.isi (Z.to_int a) (proj1 (Hnil a)) (proj2 (Hnil a))).
  assert (Hb := NilZero.isi (Z.to_int b) (proj1 (Hnil b)) (proj2 (Hnil b))).
  rewrite H in Ha. rewrite Ha in Hb. injection Hb as Hb. exact Hb.
Qed.

(** Two multipliers share a key exactly when they have the same whole
    part. *)
Lemma tp_key_eq (a b : Q) : tp_key a = tp_key b <-> trunc a = trunc b.
Proof.
  unfold tp_key. split; [|intros ->; reflexivity].
  intro H. cbn in H. injection H as H.
  apply append_inv_tail in H. apply str_of_Z_inj. exact H.
Qed.

Lemma fdv_key_eq (a b : Q) :
  fdv_key a = fdv_key b <-> trunc (a / 1000000) = trunc (b / 1000000).
Proof.
  unfold fdv_key. split; [|intros ->; reflexivity].
  intro H. cbn in H. injection H as H.
  apply append_inv_tail in H. apply str_of_Z_inj. exact H.
Qed.

(** X16. For a positive price the take-profit cell of a multiplier [m] is
    the price times a multiplier, rounded to 12 decimals: [m] itself when
    no other multiplier has its whole part, otherwise the last multiplier
    of the list with that whole part, since both write the same key. *)
Theorem add_exit_prices_take_profit (r : Row) (tps fdvs : list Q) (m : Q) :
  0 < price_usd (row_cand r) -> In m tps ->
  exists m',
    find (fun x => (trunc x =? trunc m)%Z) (rev tps) = Some m'
    /\ Dict.lookup (tp_key m) (add_exit_prices r tps fdvs)
       = Some (CNum (round (price_usd (row_cand r) * m') 12)).
Proof.
  intros Hp Hin.
  assert (Hfind :
    find (fun x => String.eqb (tp_key x) (tp_key m)) (rev tps)
    = find (fun x => (trunc x =? trunc m)%Z) (rev tps)).
  { induction (rev tps) as [|x l IH]; cbn [find]; [reflexivity|].
    rewrite IH.
    destruct (String.eqb (tp_key x) (tp_key m)) eqn:E1;
      destruct (trunc x =? trunc m)%Z eqn:E2; try reflexivity; exfalso.
    - apply String.eqb_eq, tp_key_eq in E1. apply Z.eqb_neq in E2.
      contradiction.
    - apply String.eqb_neq in E1. apply Z.eqb_eq in E2.
      apply E1, tp_key_eq. exact E2. }
  destruct (find (fun x => (trunc x =? trunc m)%Z) (rev tps)) as [m'|] eqn:Ef.
  - exists m'. split; [reflexivity|].
    rewrite add_exit_prices_lookup. cbv zeta.
    rewrite fib_levels_keys by reflexivity.
    assert (F2 : String.eqb (tp_key m) "stop_loss_price" = false)
      by reflexivity.
    assert (F3 : find (fun T => String.eqb (fdv_key T) (tp_key m)) (rev fdvs)
                 = None) by (apply find_none_all; intro T; reflexivity).
    rewrite F2, F3, Hfind.
    apply Qltb_lt in Hp. rewrite Hp. reflexivity.
  - exfalso. apply in_rev in Hin.
    pose proof (List.find_none _ _ Ef m Hin) as Em. cbv beta in Em.
    rewrite Z.eqb_refl in Em. discriminate.
Qed.

(** X17. The cell of a valuation target [T] is the price times T' / fdv,
    rounded to 12 decimals, when the price and the valuation are both
    positive, and the empty cell otherwise; T' is [T], or the last target
    of the list with the same whole number of millions. *)
Theorem add_exit_prices_valuation_target (r : Row) (tps fdvs : list Q)
  (T : Q) :
  In T fdvs ->
  exists T',
    find (fun x => (trunc (x / 1000000) =? trunc (T / 1000000))%Z) (rev fdvs)
    = Some T'
    /\ Dict.lookup (fdv_key T) (add_exit_prices r tps fdvs)
       = Some (if Qltb 0 (price_usd (row_cand r))
                  && Qltb 0 (fdv_usd (row_cand r))
               then CNum (round (price_usd (row_cand r)
                                 * (T' / fdv_usd (row_cand r))) 12)
               else CEmpty).
Proof.
  intros Hin.
  assert (Hfind :
    find (fun x => String.eqb (fdv_key x) (fdv_key T)) (rev fdvs)
    = find (fun x => (trunc (x / 1000000) =? trunc (T / 1000000))%Z)
        (rev fdvs)).
  { induction (rev fdvs) as [|x l IH]; cbn [find]; [reflexivity|].
    rewrite IH.
    destruct (String.eqb (fdv_key x) (fdv_key T)) eqn:E1;
      destruct (trunc (x / 1000000) =? trunc (T / 1000000))%Z eqn:E2;
      try reflexivity; exfalso.
    - apply String.eqb_eq, fdv_key_eq in E1. apply Z.eqb_neq in E2.
      contradiction.
    - apply String.eqb_neq in E1. apply Z.eqb_eq in E2.
      apply E1, fdv_key_eq. exact E2. }
  destruct (find (fun x => (trunc (x / 1000000) =? trunc (T / 1000000))%Z)
              (rev fdvs)) as [T'|] eqn:Ef.
  - exists T'. split; [reflexivity|].
    rewrite add_exit_prices_lookup. cbv zeta.
    rewrite fib_levels_keys by reflexivity.
    assert (F2 : String.eqb (fdv_key T) "stop_loss_price" = false)
      by reflexivity.
    rewrite F2, Hfind. reflexivity.
  - exfalso. apply in_rev in Hin.
    pose proof (List.find_none _ _ Ef T Hin) as Em. cbv beta in Em.
    rewrite Z.eqb_refl in Em. discriminate.
Qed.

Lemma sl_factor_pos (vliq : Q) (traders : Z) : 0 < 1.0 - sl_pct vliq traders.
Proof.
  pose proof (sl_pct_range vliq traders) as [_ H]. lra.
Qed.

(** X18. The stop-loss is never negative, and with the same ratio and
    trader count a higher price never has a lower stop-loss. *)
Theorem compute_stop_loss_monotone (p1 p2 vliq : Q) (traders : Z) :
  p1 <= p2 ->
  0 <= compute_stop_loss p1 vliq traders
  /\ compute_stop_loss p1 vliq traders <= compute_stop_loss p2 vliq traders.
Proof.
  intro Hle. pose proof (sl_factor_pos vliq traders) as Hf.
  assert (Hnn : forall p, 0 <= compute_stop_loss p vliq traders).
  { intro p. unfold compute_stop_loss.
    destruct (Qle_bool p 0) eqn:E; [discriminate|]. prop_tests.
    rewrite <- (round_inject_Z 0 12). apply round_mono.
    change (inject_Z 0) with 0. nra. }
  split; [apply Hnn|].
  unfold compute_stop_loss at 1.
  destruct (Qle_bool p1 0) eqn:E1.
  - eapply Qle_trans; [|apply Hnn]. discriminate.
  - unfold compute_stop_loss. prop_tests.
    assert (E2 : Qle_bool p2 0 = false) by (apply Qle_bool_gt; lra).
    rewrite E2. apply round_mono. nra.
Qed.

Lemma lookup_in {V : Type} (k : string) (v : V) (d : list (string * V)) :
  keys_distinct d -> In (k, v) d -> Dict.lookup k d = Some v.
Proof.
  unfold keys_distinct.
  induction d as [|[k0 v0] d IH]; cbn [Dict.lookup In map fst];
    intros Hnd Hin; [contradiction|].
  inversion Hnd as [|? ? Hnotin Hnd']; subst.
  destruct Hin as [Heq | Hin].
  - injection Heq as -> ->. rewrite String.eqb_refl. reflexivity.
  - destruct (String.eqb k k0) eqn:E; [|apply IH; assumption].
    apply String.eqb_eq in E. subst k0. exfalso. apply Hnotin.
    apply (in_map fst) in Hin. exact Hin.
Qed.

Lemma set_same {V : Type} (k : string) (v : V) (d : list (string * V)) :
  Dict.lookup k d = Some v -> Dict.set k v d = d.
Proof.
  induction d as [|[k0 v0] d IH]; cbn [Dict.lookup Dict.set];
    [discriminate|].
  destruct (String.eqb k k0) eqn:E.
  - apply String.eqb_eq in E. subst k0.
    intro H. injection H as ->. reflexivity.
  - intro H. rewrite (IH H). reflexivity.
Qed.

(** Updating twice with the same dictionary is updating once. *)
Lemma update_twice {V : Type} (d e : list (string * V)) :
  keys_distinct e -> Dict.update (Dict.update d e) e = Dict.update d e.
Proof.
  intro Hnd.
  assert (Hall : forall k v, In (k, v) e ->
                 Dict.lookup k (Dict.update d e) = Some v).
  { intros k v Hin. rewrite (lookup_update k d e Hnd).
    rewrite (lookup_in k v e Hnd Hin). reflexivity. }
  generalize dependent (Dict.update d e). intros D Hall.
  clear Hnd. unfold Dict.update.
  induction e as [|[k v] e IH]; cbn [fold_left]; [reflexivity|].
  cbn [fst snd]. rewrite (set_same k v D) by (apply Hall; left; reflexivity).
  apply IH. intros k' v' Hin. apply Hall. right. exact Hin.
Qed.

(** X19. Scoring and pricing a row that a pass has already scored and
    priced, with the same multipliers and targets, changes nothing: the
    refine pass leaves the score and the exit prices of a discovery row as
    they are. *)
Theorem scored_twice (r : Row) (tps fdvs : list Q) :
  scored (scored r tps fdvs) tps fdvs = scored r tps fdvs.
Proof.
  unfold scored, update_exits, set_score. cbn [row_cand row_score row_exits
    row_rank row_reject_reason].
  f_equal.
  apply (update_twice (row_exits r)).
  apply add_exit_prices_keys_distinct.
Qed.

(** ** Further properties of the funnel *)

Lemma run_once_items (rows : list Row) (cfg : GateConfig) (target : Z)
  (outdir : files) (tag : string) (tps fdvs : list Q) :
  fst (run_once rows cfg target outdir tag tps fdvs)
  = assign_ranks 1
      (slice_to
         (sorted_desc score_key
            (map (fun r => scored r tps fdvs)
               (filter (fun r => fst (pass_gates r cfg)) rows)))
         target).
Proof.
  pose proof (gate_loop_items rows cfg tps fdvs) as H.
  unfold run_once. destruct (gate_loop rows cfg tps fdvs) as [its rej].
  cbn [fst] in *. rewrite H. reflexivity.
Qed.

Lemma sorted_desc_length {A : Type} (key : A -> Q) (l : list A) :
  List.length (sorted_desc key l) = List.length l.
Proof.
  apply Permutation_length, sorted_desc_perm.
Qed.

Lemma assign_ranks_cands (i : Z) (items : list Row) :
  map row_cand (assign_ranks i items) = map row_cand items.
Proof.
  revert i. induction items as [|it items IH]; intro i; cbn; [reflexivity|].
  rewrite IH. reflexivity.
Qed.

Lemma filter_split_length {A : Type} (f : A -> bool) (l : list A) :
  (List.length (filter f l) + List.length (filter (fun x => negb (f x)) l)
   = List.length l)%nat.
Proof.
  induction l as [|x l IH]; cbn; [reflexivity|].
  destruct (f x); cbn; lia.
Qed.

Lemma assign_ranks_firstn (k : nat) (i : Z) (items : list Row) :
  assign_ranks i (firstn k items) = firstn k (assign_ranks i items).
Proof.
  revert i items. induction k as [|k IH]; intros i [|it items]; cbn;
    try reflexivity.
  rewrite IH. reflexivity.
Qed.

(** X20. With a negative target a pass drops that many rows from the low
    end of the ranking: it returns the ranking of all passing rows, ranks
    included, without its last [-target] rows, and no row when fewer
    pass. *)
Theorem run_once_negative_target (rows : list Row) (cfg : GateConfig)
  (target : Z) (outdir : files) (tag : string) (tps fdvs : list Q) :
  (target < 0)%Z ->
  let passing := filter (fun r => fst (pass_gates r cfg)) rows in
  let full :=
    fst (run_once rows cfg (Z.of_nat (List.length rows)) outdir tag tps fdvs) in
  List.length full = List.length passing
  /\ fst (run_once rows cfg target outdir tag tps fdvs)
     = firstn (List.length full - Z.to_nat (- target)) full.
Proof.
  intros Ht passing full. subst passing full.
  rewrite !run_once_items. unfold slice_to.
  assert (E : (0 <=? target)%Z = false) by (apply Z.leb_gt; exact Ht).
  assert (E' : (0 <=? Z.of_nat (List.length rows))%Z = true)
    by (apply Z.leb_le; lia).
  rewrite E, E'.
  pose proof (filter_split_length (fun r => fst (pass_gates r cfg)) rows)
    as Hlen.
  cbv beta in Hlen.
  rewrite (firstn_all2 (n := Z.to_nat (Z.of_nat (List.length rows))))
    by (rewrite sorted_desc_length, length_map; lia).
  rewrite assign_ranks_length, sorted_desc_length, length_map.
  split; [reflexivity|].
  apply assign_ranks_firstn.
Qed.

(** X21. A pass loses no row: the passing rows and the rows of the rejects
    table add up to the input; and when the target is at least the number
    of passing rows, every passing row is ranked, with its candidate
    fields as they came in. *)
Theorem run_once_keeps_every_row (rows : list Row) (cfg : GateConfig)
  (target : Z) (outdir : files) (tag : string) (tps fdvs : list Q) :
  let passing := filter (fun r => fst (pass_gates r cfg)) rows in
  let pass := run_once rows cfg target outdir tag tps fdvs in
  (exists rejects,
     Dict.lookup ("rejects_" ++ tag ++ ".csv") (snd pass) = Some (Csv rejects)
     /\ (List.length passing + List.length rejects = List.length rows)%nat)
  /\ ((Z.of_nat (List.length passing) <= target)%Z ->
      Permutation (map row_cand (fst pass)) (map row_cand passing)).
Proof.
  intros passing pass. subst pass. split.
  - eexists. split; [apply run_once_rejects_file|].
    rewrite gate_loop_rejects, length_map.
    apply filter_split_length.
  - intro Ht. rewrite run_once_items, assign_ranks_cands. unfold slice_to.
    assert (E : (0 <=? target)%Z = true) by (apply Z.leb_le; lia).
    rewrite E, firstn_all2
      by (rewrite sorted_desc_length, length_map; fold passing; lia).
    eapply perm_trans;
      [apply Permutation_map, sorted_desc_perm|].
    rewrite map_map. cbn [scored update_exits set_score row_cand].
    apply Permutation_refl.
Qed.

Lemma pass_gates_cand (r r' : Row) (cfg : GateConfig) :
  row_cand r = row_cand r' -> pass_gates r cfg = pass_gates r' cfg.
Proof.
  intro H. unfold pass_gates. rewrite H. reflexivity.
Qed.

Lemma assign_ranks_in (i : Z) (items : list Row) (it : Row) :
  In it (assign_ranks i items) ->
  exists x j, In x items /\ it = set_rank x j.
Proof.
  revert i. induction items as [|y items IH]; intro i; cbn; [contradiction|].
  intros [<- | H].
  - exists y, i. split; [left|]; reflexivity.
  - destruct (IH _ H) as (x & j & Hin & ->).
    exists x, j. split; [right; exact Hin | reflexivity].
Qed.

Lemma in_slice_to {A : Type} (l : list A) (n : Z) (x : A) :
  In x (slice_to l n) -> In x l.
Proof.
  unfold slice_to. destruct (0 <=? n)%Z; apply in_firstn.
Qed.

(** A ranked row is the copy of an input row that passes the gate. *)
Lemma run_once_item_origin (rows : list Row) (cfg : GateConfig) (target : Z)
  (outdir : files) (tag : string) (tps fdvs : list Q) (it : Row) :
  In it (fst (run_once rows cfg target outdir tag tps fdvs)) ->
  exists r, In r rows /\ row_cand it = row_cand r
            /\ fst (pass_gates r cfg) = true.
Proof.
  rewrite run_once_items. intro H.
  destruct (assign_ranks_in _ _ _ H) as (x & j & Hin & ->).
  apply in_slice_to in Hin.
  apply (Permutation_in _ (sorted_desc_perm score_key _)) in Hin.
  apply in_map_iff in Hin as (r & <- & Hr).
  apply filter_In in Hr as [Hr Hp].
  exists r. repeat split; assumption.
Qed.

Lemma run_refine_input (chains : list string) (limit_per_chain : Z)
  (target_disc target_ref : Z) (outdir : files) (tps fdvs : list Q)
  (disc_cfg ref_cfg : GateConfig) :
  let rows := collect_rows chains limit_per_chain [] 0 in
  let discovery :=
    run_once rows disc_cfg target_disc outdir "discovery" tps fdvs in
  Dict.lookup "candidates_refined.csv"
    (run chains limit_per_chain target_disc target_ref outdir tps fdvs
       disc_cfg ref_cfg)
  = Some (Csv (fst (run_once
                      match fst discovery with
                      | [] => rows
                      | _ :: _ => fst discovery
                      end
                      ref_cfg target_ref (snd discovery) "refined" tps fdvs))).
Proof.
  intros rows discovery. subst discovery rows. unfold run.
  destruct (run_once _ disc_cfg _ _ _ _ _) as [disc out1]. cbn [fst snd].
  apply (run_once_candidates_file _ ref_cfg target_ref out1 "refined"
           tps fdvs).
Qed.

(** X22. When the discovery pass ranks at least one row, every row of the
    refined table is a row of the normalized pool that passes the
    discovery gate and the refine gate. *)
Theorem run_refined_rows_pass_both_gates (chains : list string)
  (limit_per_chain target_disc target_ref : Z) (outdir : files)
  (tps fdvs : list Q) (disc_cfg ref_cfg : GateConfig) (refined : list Row) :
  let rows := collect_rows chains limit_per_chain [] 0 in
  fst (run_once rows disc_cfg target_disc outdir "discovery" tps fdvs) <> [] ->
  Dict.lookup "candidates_refined.csv"
    (run chains limit_per_chain target_disc target_ref outdir tps fdvs
       disc_cfg ref_cfg)
  = Some (Csv refined) ->
  forall it, In it refined ->
  exists r, In r rows /\ row_cand it = row_cand r
            /\ fst (pass_gates r disc_cfg) = true
            /\ fst (pass_gates r ref_cfg) = true.
Proof.
  intros rows Hne Hfile it Hin.
  pose proof (run_refine_input chains limit_per_chain target_disc target_ref
                outdir tps fdvs disc_cfg ref_cfg) as Hrun.
  cbv zeta in Hrun. fold rows in Hrun. rewrite Hrun in Hfile.
  injection Hfile as <-.
  destruct (fst (run_once rows disc_cfg target_disc outdir "discovery" tps
                   fdvs)) as [|d ds] eqn:Ed; [contradiction|].
  destruct (run_once_item_origin _ _ _ _ _ _ _ _ Hin) as (x & Hx & Hc & Hp).
  rewrite <- Ed in Hx.
  destruct (run_once_item_origin _ _ _ _ _ _ _ _ Hx) as (r & Hr & Hc' & Hp').
  exists r. split; [exact Hr|]. split; [congruence|]. split; [exact Hp'|].
  rewrite <- (pass_gates_cand x r ref_cfg Hc'). exact Hp.
Qed.

(** X23. When the refine thresholds ask at least what the discovery
    thresholds ask and the discovery target is 1 or more, an empty
    discovery ranking gives an empty refined table: the fall-back to the
    whole pool finds nothing. *)
Theorem run_fallback_finds_nothing (chains : list string)
  (limit_per_chain target_disc target_ref : Z) (outdir : files)
  (tps fdvs : list Q) (disc_cfg ref_cfg : GateConfig) :
  let rows := collect_rows chains limit_per_chain [] 0 in
  at_least_as_strict ref_cfg disc_cfg -> (1 <= target_disc)%Z ->
  fst (run_once rows disc_cfg target_disc outdir "discovery" tps fdvs) = [] ->
  Dict.lookup "candidates_refined.csv"
    (run chains limit_per_chain target_disc target_ref outdir tps fdvs
       disc_cfg ref_cfg)
  = Some (Csv []).
Proof.
  intros rows Hstrict Ht Hd.
  pose proof (run_refine_input chains limit_per_chain target_disc target_ref
                outdir tps fdvs disc_cfg ref_cfg) as Hrun.
  cbv zeta in Hrun. fold rows in Hrun. rewrite Hrun, Hd.
  do 2 f_equal.
  assert (Hnone : filter (fun r => fst (pass_gates r disc_cfg)) rows = []).
  { rewrite run_once_items in Hd.
    apply (f_equal (@List.length Row)) in Hd.
    rewrite assign_ranks_length in Hd. unfold slice_to in Hd.
    assert (E : (0 <=? target_disc)%Z = true) by (apply Z.leb_le; lia).
    rewrite E, length_firstn, sorted_desc_length, length_map in Hd.
    cbn [List.length] in Hd.
    destruct (filter (fun r => fst (pass_gates r disc_cfg)) rows);
      [reflexivity | cbn [List.length] in Hd; lia]. }
  assert (Href : filter (fun r => fst (pass_gates r ref_cfg)) rows = []).
  { destruct (filter (fun r => fst (pass_gates r ref_cfg)) rows)
      as [|x l] eqn:E; [reflexivity|]. exfalso.
    assert (Hx : In x (filter (fun r => fst (pass_gates r ref_cfg)) rows))
      by (rewrite E; left; reflexivity).
    apply filter_In in Hx as [Hx Hp].
    apply (pass_gates_weaken x ref_cfg disc_cfg Hstrict) in Hp.
    assert (Hin : In x (filter (fun r => fst (pass_gates r disc_cfg)) rows))
      by (apply filter_In; split; assumption).
    rewrite Hnone in Hin. contradiction. }
  rewrite run_once_items, Href. unfold slice_to. cbn [map sorted_desc].
  destruct (0 <=? target_ref)%Z; rewrite firstn_nil; reflexivity.
Qed.

(** X24. With a discovery target of 0 the discovery ranking is empty
    whatever passes, so the refine pass runs over the whole normalized
    pool. *)
Theorem run_zero_discovery_target (chains : list string)
  (limit_per_chain target_ref : Z) (outdir : files)
  (tps fdvs : list Q) (disc_cfg ref_cfg : GateConfig) :
  let rows := collect_rows chains limit_per_chain [] 0 in
  let discovery := run_once rows disc_cfg 0 outdir "discovery" tps fdvs in
  fst discovery = []
  /\ Dict.lookup "candidates_refined.csv"
       (run chains limit_per_chain 0 target_ref outdir tps fdvs
          disc_cfg ref_cfg)
     = Some (Csv (fst (run_once rows ref_cfg target_ref (snd discovery)
                         "refined" tps fdvs))).
Proof.
  intros rows discovery.
  assert (Hd : fst discovery = []).
  { subst discovery. rewrite run_once_items. reflexivity. }
  split; [exact Hd|].
  pose proof (run_refine_input chains limit_per_chain 0 target_ref
                outdir tps fdvs disc_cfg ref_cfg) as Hrun.
  cbv zeta in Hrun. fold rows in Hrun. fold discovery in Hrun.
  rewrite Hrun, Hd. reflexivity.
Qed.

Lemma extend_rows_accepted (pairs : list pyval) (rows : list Row) (n : nat) :
  Forall (fun p => snapshot_ok p = true) pairs ->
  exists added,
    extend_rows rows n pairs
    = (rows ++ map row_of added, (n + List.length pairs)%nat, None)
    /\ List.length added = List.length pairs.
Proof.
  intro H. revert rows n.
  induction H as [|p pairs Hp _ IH]; intros rows n; cbn [extend_rows].
  - exists []. cbn. rewrite app_nil_r, Nat.add_0_r. split; reflexivity.
  - destruct (row_from_pair_accepts (clock_ms n) p Hp) as (c & Hc & _).
    rewrite Hc.
    destruct (IH (rows ++ [row_of c]) (S n)) as (added & Hrows & Hlen).
    exists (c :: added). rewrite Hrows, <- app_assoc. cbn.
    rewrite Hlen, Nat.add_succ_r. split; reflexivity.
Qed.

Lemma collect_rows_length (chains : list string) (limit_per_chain : Z)
  (rows : list Row) (n : nat) :
  (List.length (collect_rows chains limit_per_chain rows n)
   <= List.length rows + List.length (fetched chains limit_per_chain))%nat
  /\ (Forall (fun p => snapshot_ok p = true) (fetched chains limit_per_chain) ->
      List.length (collect_rows chains limit_per_chain rows n)
      = (List.length rows + List.length (fetched chains limit_per_chain))%nat).
Proof.
  revert rows n. unfold fetched.
  induction chains as [|q chains IH]; intros rows n;
    cbn [collect_rows flat_map List.length].
  - split; [lia | intros _; lia].
  - destruct (fetch_pairs_for_chain q limit_per_chain) as [pairs|e].
    + rewrite length_app.
      destruct (extend_rows rows n pairs) as [[rows' n'] raised] eqn:E.
      destruct (extend_rows_keeps pairs rows n) as (added & Hrows & Hlen & _).
      rewrite E in Hrows. cbn [fst] in Hrows.
      destruct (IH rows' n') as [IH1 IH2].
      split.
      * subst rows'. rewrite length_app, length_map in IH1. lia.
      * intro Hall. apply Forall_app in Hall as [Hp Hrest].
        destruct (extend_rows_accepted pairs rows n Hp)
          as (added' & Hrows' & Hlen').
        rewrite E in Hrows'. injection Hrows' as Hr _ _.
        rewrite (IH2 Hrest), Hr, length_app, length_map. lia.
    + cbn [app]. apply IH.
Qed.

(** X25. The normalized pool never has more rows than the queries
    returned snapshots, a failed query counting for none; when every
    returned snapshot is one the normalizer accepts, it has exactly one
    row per snapshot. *)
Theorem collect_rows_one_row_per_snapshot (chains : list string)
  (limit_per_chain : Z) :
  (List.length (collect_rows chains limit_per_chain [] 0)
   <= List.length (fetched chains limit_per_chain))%nat
  /\ (Forall (fun p => snapshot_ok p = true) (fetched chains limit_per_chain) ->
      List.length (collect_rows chains limit_per_chain [] 0)
      = List.length (fetched chains limit_per_chain)).
Proof.
  exact (collect_rows_length chains limit_per_chain [] 0).
Qed.

Lemma sorted_desc_head_max {A : Type} (key : A -> Q) (l : list A)
  (top : A) (rest : list A) :
  sorted_desc key l = top :: rest ->
  forall x, In x l -> key x <= key top.
Proof.
  intros H x Hin.
  pose proof (sorted_desc_sorted key l) as Hs.
  apply (Permutation_in _ (Permutation_sym (sorted_desc_perm key l))) in Hin.
  rewrite H in Hs, Hin.
  inversion Hs as [|? ? _ Hall]; subst.
  destruct Hin as [<- | Hin]; [apply Qle_refl|].
  rewrite Forall_forall in Hall. exact (Hall x Hin).
Qed.

(** X26. With a target of 1 or more, the first row a pass returns has rank
    1 and a score that no passing row of the input exceeds. *)
Theorem run_once_top_row (rows : list Row) (cfg : GateConfig) (target : Z)
  (outdir : files) (tag : string) (tps fdvs : list Q)
  (top : Row) (rest : list Row) :
  (1 <= target)%Z ->
  fst (run_once rows cfg target outdir tag tps fdvs) = top :: rest ->
  row_rank top = Some 1%Z
  /\ (forall r, In r rows -> fst (pass_gates r cfg) = true ->
      score r <= score_key top).
Proof.
  intros Ht H. rewrite run_once_items in H. unfold slice_to in H.
  assert (E : (0 <=? target)%Z = true) by (apply Z.leb_le; lia).
  rewrite E in H.
  destruct (Z.to_nat target) as [|n] eqn:En; [lia|].
  destruct (sorted_desc score_key
              (map (fun r => scored r tps fdvs)
                 (filter (fun r => fst (pass_gates r cfg)) rows)))
    as [|x l] eqn:Es; [discriminate|].
  cbn [firstn assign_ranks] in H. injection H as <- _.
  split; [reflexivity|].
  intros r Hin Hp.
  change (score_key (scored r tps fdvs) <= score_key x).
  apply (sorted_desc_head_max score_key _ x l Es (scored r tps fdvs)).
  apply (in_map (fun r => scored r tps fdvs)).
  apply filter_In. split; assumption.
Qed.

End Pipeline.

(** ** Instances on the sample data *)

Lemma pass_gates_iff_gate_spec_witness :
  0 <= lp_usd (row_cand (row_of scenario_candidate))
  /\ gate_conditions ratio_or_zero (row_cand (row_of scenario_candidate))
       DISCOVERY
  /\ gate_spec (row_cand (row_of scenario_candidate)) DISCOVERY
  /\ snd (pass_gates sample_repr (row_of scenario_candidate) DISCOVERY)
     = EmptyString
  /\ ~ gate_conditions ratio_or_zero (row_cand (row_of scenario_candidate))
         DISCOVERY_social.
Proof.
  assert (H : 0 <= lp_usd (row_cand (row_of scenario_candidate)))
    by (vm_compute; discriminate).
  assert (Hp : fst (pass_gates sample_repr (row_of scenario_candidate)
                      DISCOVERY) = true) by (vm_compute; reflexivity).
  pose proof (pass_gates_iff_gate_spec sample_repr (row_of scenario_candidate)
                DISCOVERY) as (T1 & T2 & T3).
  pose proof (pass_gates_iff_gate_spec sample_repr (row_of scenario_candidate)
                DISCOVERY_social) as (S1 & _ & _).
  split; [exact H|].
  split; [exact (proj1 T1 Hp)|].
  split; [exact (proj1 (T3 H) Hp)|].
  split; [exact (T2 Hp)|].
  intro Hc. apply (proj2 S1) in Hc. vm_compute in Hc. discriminate Hc.
Defined.

(** At a negative liquidity the source takes the ratio as 0 and the
    candidate passes thresholds that admit it, while the ratio of the
    specification is negative and below the minimum. *)
Lemma pass_gates_negative_liquidity :
  fst (pass_gates sample_repr (row_of negative_lp_candidate) DISCOVERY_any_lp)
  = true
  /\ spec_vliq negative_lp_candidate < 0
  /\ ~ gate_spec (row_cand (row_of negative_lp_candidate)) DISCOVERY_any_lp.
Proof.
  split; [vm_compute; reflexivity|].
  split; [vm_compute; reflexivity|].
  intros (_ & _ & _ & _ & H & _). vm_compute in H. apply H. reflexivity.
Qed.

Lemma scenario_refine_reason_not_socials :
  fst (pass_gates sample_repr (row_of scenario_candidate) REFINE) = false
  /\ snd (pass_gates sample_repr (row_of scenario_candidate) REFINE)
     <> "no_socials"%string.
Proof.
  split; [vm_compute; reflexivity|].
  vm_compute. discriminate.
Qed.

Lemma fdv_ok_tiers_witness :
  fdv_ok 2000000 == 1.0 /\ fdv_ok 0 == 0.85 /\ fdv_ok 5000000 == 0.85
  /\ fdv_ok 8000000 == 0.7 /\ fdv_ok 12000000 == 0.5 /\ fdv_ok 20000000 == 0.0.
Proof.
  split; [apply (proj1 (fdv_ok_tiers 2000000)); split; vm_compute;
          first [reflexivity | discriminate]|].
  split; [apply (proj1 (proj2 (fdv_ok_tiers 0))); left; vm_compute;
          discriminate|].
  split; [apply (proj1 (proj2 (fdv_ok_tiers 5000000))); right; split;
          vm_compute; first [reflexivity | discriminate]|].
  split; [apply (proj1 (proj2 (proj2 (fdv_ok_tiers 8000000)))); split;
          vm_compute; first [reflexivity | discriminate]|].
  split; [apply (proj1 (proj2 (proj2 (proj2 (fdv_ok_tiers 12000000)))));
          split; vm_compute; first [reflexivity | discriminate]|].
  apply (proj2 (proj2 (proj2 (proj2 (fdv_ok_tiers 20000000))))).
  vm_compute. reflexivity.
Defined.

Lemma fdv_ok_zero_not_top_tier :
  fdv_ok 0 == 0.85 /\ ~ fdv_ok 0 == 1.0.
Proof.
  split; [vm_compute; reflexivity|].
  vm_compute. discriminate.
Qed.

Lemma score_monotone_witness :
  score (row_of scenario_candidate)
  <= score (row_of (with_trades scenario_candidate 10 5)).
Proof.
  apply score_monotone; vm_compute; first [reflexivity | discriminate].
Defined.

(** Ten buys and no sell against ten buys and ten sells: more traders,
    the buy-pressure bonus lost, a lower score. *)
Lemma score_drops_when_sells_grow :
  let few := with_trades scenario_candidate 10 0 in
  let many := with_trades scenario_candidate 10 10 in
  (unique_traders_24h few < unique_traders_24h many)%Z
  /\ score (row_of few) == 28.62
  /\ score (row_of many) == 26.82
  /\ ~ score (row_of few) <= score (row_of many).
Proof.
  repeat split; try (vm_compute; reflexivity).
  vm_compute. intro H. apply H. reflexivity.
Qed.

Lemma compute_stop_loss_below_price_witness :
  compute_stop_loss 0 0.5 40 == 0
  /\ compute_stop_loss 0.5 0.5 40 < 0.5.
Proof.
  split.
  - apply (proj1 (compute_stop_loss_below_price 0 0.5 40)).
    vm_compute. discriminate.
  - apply (proj2 (proj2 (compute_stop_loss_below_price 0.5 0.5 40))).
    vm_compute. discriminate.
Defined.

(** At a price of 1e-12 the rounding to 12 decimals lifts the stop-loss
    back to the price. *)
Lemma stop_loss_equals_tiny_price :
  0 < 1e-12
  /\ compute_stop_loss 1e-12 0.2 10 == 1e-12
  /\ ~ compute_stop_loss 1e-12 0.2 10 < 1e-12.
Proof.
  repeat split; try (vm_compute; reflexivity).
  vm_compute. discriminate.
Qed.


Lemma fib_levels_default_swing_witness :
  cell_is (row_exits (scored (row_of scenario_candidate) [2; 5; 10]
                        [25000000; 50000000])) "fib_dn_0382" 0.9618.
Proof.
  assert (Hp : price_usd (row_cand (row_of scenario_candidate)) == 1.0)
    by (vm_compute; reflexivity).
  assert (Hc : chg24_pct (row_cand (row_of scenario_candidate)) = None)
    by reflexivity.
  exact (proj1 (proj2 (fib_levels_default_swing (row_of scenario_candidate)
                         [2; 5; 10] [25000000; 50000000] Hp Hc))).
Defined.

Lemma fib_dn_0382_is_not_0962 :
  cell_is (fib_levels 1.0 None) "fib_dn_0382" 0.9618
  /\ ~ cell_is (fib_levels 1.0 None) "fib_dn_0382" 0.962.
Proof.
  split; vm_compute; [reflexivity | discriminate].
Qed.

Lemma run_once_ranked_and_rejected_witness :
  let rows :=
    [ row_of scenario_candidate;
      row_of (with_trades scenario_candidate 1 1);
      row_of (with_trades scenario_candidate 10 0) ] in
  let pass := run_once sample_repr rows DISCOVERY 1 [] "discovery" [2; 5; 10]
                [25000000; 50000000] in
  (0 <= 1)%Z
  /\ (Z.of_nat (List.length (fst pass)) <= 1)%Z
  /\ map row_rank (fst pass)
     = map (fun i => Some (Z.of_nat i)) (seq 1 (List.length (fst pass)))
  /\ map row_score (fst pass) = [Some (score (row_of (with_trades
                                                        scenario_candidate 10 0)))]
  /\ (exists rejects,
        Dict.lookup "rejects_discovery.csv" (snd pass) = Some (Csv rejects)
        /\ map row_cand rejects = [with_trades scenario_candidate 1 1]
        /\ map row_reject_reason rejects = [Some "traders24h<4"%string]
        /\ Forall (fun rej =>
                     exists why,
                       row_reject_reason rej = Some why
                       /\ why <> EmptyString
                       /\ pass_gates sample_repr rej DISCOVERY = (false, why))
             rejects).
Proof.
  intros rows pass.
  assert (H : (0 <= 1)%Z) by lia.
  pose proof (run_once_ranked_and_rejected sample_repr rows DISCOVERY 1 []
                "discovery" [2; 5; 10] [25000000; 50000000] H) as T.
  cbv zeta in T.
  destruct T as (T1 & _ & _ & T4 & _ & (rejects & R1 & R2 & R3 & R4)).
  split; [exact H|].
  split; [exact T1|].
  split; [exact T4|].
  split; [vm_compute; reflexivity|].
  exists rejects.
  split; [exact R1|].
  split; [rewrite R3; vm_compute; reflexivity|].
  split; [rewrite R2; vm_compute; reflexivity|].
  exact R4.
Defined.

Lemma run_two_stage_witness :
  let rows :=
    collect_rows sample_float_of_str sample_int_of_str sample_repr
      sample_clock_ms sample_fetch ["base"; "eth"; "solana"]%string 2000 [] 0 in
  let discovery :=
    run_once sample_repr rows DISCOVERY 200 [] "discovery" [2; 5; 10]
      [25000000; 50000000] in
  fst discovery <> []
  /\ run sample_float_of_str sample_int_of_str sample_repr sample_clock_ms
       sample_fetch ["base"; "eth"; "solana"]%string 2000 200 90 []
       [2; 5; 10] [25000000; 50000000] DISCOVERY REFINE
     = snd (run_once sample_repr (fst discovery) REFINE 90 (snd discovery)
              "refined" [2; 5; 10] [25000000; 50000000]).
Proof.
  intros rows discovery.
  assert (H : fst discovery <> []) by (vm_compute; discriminate).
  split; [exact H|].
  exact (proj1 (proj1 (proj2 (run_two_stage sample_float_of_str
                                sample_int_of_str sample_repr sample_clock_ms
                                sample_fetch ["base"; "eth"; "solana"]%string
                                2000 200 90 [] [2; 5; 10]
                                [25000000; 50000000] DISCOVERY REFINE)) H)).
Defined.

Lemma normalizer_accepts_and_query_loop_recovers_witness :
  snapshot_ok sample_float_of_str sample_int_of_str sample_pair = true
  /\ snapshot_ok sample_float_of_str sample_int_of_str empty_pair = true
  /\ (exists c,
        row_from_pair sample_float_of_str sample_int_of_str sample_repr
          1700003600000 sample_pair = Ok c)
  /\ (exists c,
        row_from_pair sample_float_of_str sample_int_of_str sample_repr
          1700003600000 empty_pair = Ok c
        /\ price_usd c == 0 /\ fdv_usd c == 0 /\ lp_usd c == 0
        /\ volume_24h_usd c == 0 /\ unique_traders_24h c = 0%Z
        /\ chg24_pct c = None /\ age_hours c = None
        /\ token_symbol c = VStr "" /\ chain c = VStr ""
        /\ contract_address c = VNone /\ twitter_url c = VStr ""
        /\ website_url c = VStr "")
  /\ (forall c,
        row_from_pair sample_float_of_str sample_int_of_str sample_repr
          1700003600000 malformed_pair <> Ok c)
  /\ (forall c,
        row_from_pair sample_float_of_str sample_int_of_str sample_repr
          1700003600000 oversized_pair <> Ok c)
  /\ collect_rows sample_float_of_str sample_int_of_str sample_repr
       sample_clock_ms sample_fetch ["solana"; "base"]%string 2000
       [row_of empty_candidate] 0
     = collect_rows sample_float_of_str sample_int_of_str sample_repr
         sample_clock_ms sample_fetch ["base"]%string 2000
         [row_of empty_candidate; row_of sample_candidate] 2
  /\ collect_rows sample_float_of_str sample_int_of_str sample_repr
       sample_clock_ms sample_fetch ["eth"; "base"]%string 2000
       [row_of empty_candidate] 0
     = collect_rows sample_float_of_str sample_int_of_str sample_repr
         sample_clock_ms sample_fetch ["base"]%string 2000
         [row_of empty_candidate] 0
  /\ Dict.lookup "rejects_refined.csv"
       (run sample_float_of_str sample_int_of_str sample_repr sample_clock_ms
          sample_fetch ["eth"]%string 2000 200 90 [] [2; 5; 10]
          [25000000; 50000000] DISCOVERY REFINE)
     = Some (Csv []).
Proof.
  assert (H1 : snapshot_ok sample_float_of_str sample_int_of_str sample_pair
               = true) by (vm_compute; reflexivity).
  assert (H2 : snapshot_ok sample_float_of_str sample_int_of_str empty_pair
               = true) by (vm_compute; reflexivity).
  pose (T := fun p q chains rows good rest bad cs e =>
    normalizer_accepts_and_query_loop_recovers sample_float_of_str
      sample_int_of_str sample_repr sample_clock_ms sample_fetch
      1700003600000 p q chains 2000 200 90 rows 0 good rest bad cs e
      [] [2; 5; 10] [25000000; 50000000] DISCOVERY REFINE).
  split; [exact H1|]. split; [exact H2|].
  split.
  { destruct (proj1 (T sample_pair "eth"%string [] [] [] [] VNone []
                       RequestException) H1) as (c & Hc & _).
    exists c. exact Hc. }
  split.
  { destruct (proj1 (T empty_pair "eth"%string [] [] [] [] VNone []
                       RequestException) H2)
      as (c & Hc & Dp & Df & Dl & Dv & Db & Ds & Dt & Dchg & Dage).
    exists c. split; [exact Hc|].
    split; [apply Dp; reflexivity|]. split; [apply Df; reflexivity|].
    split; [apply Dl; reflexivity|]. split; [apply Dv; reflexivity|].
    split; [rewrite Dt, Db, Ds; reflexivity|].
    split; [apply Dchg; reflexivity|].
    split; [apply Dage; reflexivity|].
    destruct (proj1 (proj2 (T empty_pair "eth"%string [] [] [] [] VNone []
                              RequestException)) c Hc)
      as (Dsym & Dchain & _ & Daddr & _ & Dsoc & Dweb).
    split; [apply Dsym; reflexivity|]. split; [apply Dchain; reflexivity|].
    split; [apply Daddr; reflexivity|].
    split; [apply Dsoc; reflexivity|].
    apply Dweb; reflexivity. }
  split.
  { apply (proj1 (proj2 (proj2 (T malformed_pair "eth"%string [] [] [] []
                                  VNone [] RequestException)))
             eq_refl "priceUsd"%string);
      [left; reflexivity | reflexivity | reflexivity]. }
  split.
  { apply (proj1 (proj2 (proj2 (T oversized_pair "eth"%string [] [] [] []
                                  VNone [] RequestException)))
             eq_refl "fdv"%string);
      [right; left; reflexivity | reflexivity | vm_compute; reflexivity]. }
  split.
  { apply (proj1 (proj2 (proj2 (proj2
             (T sample_pair "solana"%string
                ["base"]%string [row_of empty_candidate]
                [sample_pair] [sample_pair] malformed_pair
                [sample_candidate] ValueError)))));
      vm_compute; reflexivity. }
  split.
  { apply (proj1 (proj2 (proj2 (proj2 (proj2
             (T sample_pair "eth"%string ["base"]%string
                [row_of empty_candidate] [] [] VNone []
                RequestException)))))).
    reflexivity. }
  apply (proj2 (proj2 (proj2 (proj2 (proj2
           (T sample_pair "eth"%string ["eth"]%string [] [] [] VNone []
              RequestException))))));
    [vm_compute; reflexivity | do 3 right; left; reflexivity].
Defined.

(** A price that is not a number, a valuation too large for a float, a
    count that is null: the normalizer raises instead of defaulting to 0. *)
Lemma row_from_pair_raises_on_malformed_price :
  field malformed_pair "priceUsd" = VStr "n/a"
  /\ row_from_pair sample_float_of_str sample_int_of_str sample_repr
       1700003600000 malformed_pair = Raise ValueError
  /\ ~ (exists c,
          row_from_pair sample_float_of_str sample_int_of_str sample_repr
            1700003600000 malformed_pair = Ok c)
  /\ row_from_pair sample_float_of_str sample_int_of_str sample_repr
       1700003600000 oversized_pair = Raise OverflowError
  /\ row_from_pair sample_float_of_str sample_int_of_str sample_repr
       1700003600000 null_count_pair = Raise TypeError.
Proof.
  split; [reflexivity|].
  split; [vm_compute; reflexivity|].
  split; [intros (c & Hc); vm_compute in Hc; discriminate|].
  split; vm_compute; reflexivity.
Qed.

(** ** Instances of the further properties *)

Lemma row_from_pair_traders_and_age_witness :
  row_from_pair sample_float_of_str sample_int_of_str sample_repr
    1700003600000 sample_pair = Ok sample_candidate
  /\ unique_traders_24h sample_candidate
     = (buys_24h sample_candidate + sells_24h sample_candidate)%Z
  /\ match age_hours sample_candidate with
     | None => True
     | Some a => 0 <= a /\ a <= 43800
     end.
Proof.
  assert (H : row_from_pair sample_float_of_str sample_int_of_str sample_repr
                1700003600000 sample_pair = Ok sample_candidate)
    by (vm_compute; reflexivity).
  split; [exact H|].
  exact (row_from_pair_traders_and_age sample_float_of_str sample_int_of_str
           sample_repr 1700003600000 sample_pair sample_candidate H).
Defined.

Lemma non_object_snapshot_ends_the_loop_witness :
  is_dict (VStr "oops") = false
  /\ extend_rows sample_float_of_str sample_int_of_str sample_repr
       sample_clock_ms [row_of empty_candidate] 0
       [sample_pair; VStr "oops"; sample_pair]
     = ([row_of empty_candidate; row_of sample_candidate], 2%nat,
        Some AttributeError).
Proof.
  assert (H : is_dict (VStr "oops") = false) by reflexivity.
  assert (Hgood :
    normalized sample_float_of_str sample_int_of_str sample_repr
      sample_clock_ms 0 [sample_pair] = map Ok [sample_candidate])
    by (vm_compute; reflexivity).
  split; [exact H|].
  exact (proj2 (non_object_snapshot_ends_the_loop sample_float_of_str
                  sample_int_of_str sample_repr sample_clock_ms 0
                  (VStr "oops") [row_of empty_candidate] 0%nat [sample_pair]
                  [sample_pair] [sample_candidate] H Hgood)).
Defined.

Lemma dex_name_text_or_raises_witness :
  (exists label, dex_name (VStr "Raydium") VNone = Ok label)
  /\ dex_name (VInt 5) (VStr "solana") = Raise AttributeError.
Proof.
  split.
  - apply (proj1 (dex_name_text_or_raises (VStr "Raydium") VNone)).
    reflexivity.
  - apply (proj2 (dex_name_text_or_raises (VInt 5) (VStr "solana"))).
    reflexivity.
Defined.

Lemma explorer_url_shape_witness :
  explorer_url sample_repr (VInt 1) VNone = Ok EmptyString
  /\ explorer_url sample_repr (VInt 1) (VStr "0xabc") = Raise AttributeError
  /\ ("https://basescan.org/token/0xabc"%string = EmptyString
      \/ exists site,
           "https://basescan.org/token/0xabc"%string
           = (site ++ py_str sample_repr (VStr "0xabc"))%string).
Proof.
  split.
  - apply (proj1 (explorer_url_shape sample_repr (VInt 1) VNone)).
    reflexivity.
  - split.
    + apply (proj1 (proj2 (explorer_url_shape sample_repr (VInt 1)
                             (VStr "0xabc"))));
        reflexivity.
    + apply (proj2 (proj2 (explorer_url_shape sample_repr (VStr "Base")
                             (VStr "0xabc")))).
      reflexivity.
Defined.

Lemma socials_first_link_wins_witness :
  socials_loop [twitter_entry "https://x.com/a"] (VStr "") (VStr "")
  = Ok (VStr "https://x.com/a", VStr "")
  /\ exists tw' tg',
       socials_loop ([twitter_entry "https://x.com/a"]
                     ++ [twitter_entry "https://x.com/b"])
         (VStr "") (VStr "") = Ok (tw', tg')
       /\ tw' = VStr "https://x.com/a".
Proof.
  assert (H1 : socials_loop [twitter_entry "https://x.com/a"] (VStr "")
                 (VStr "") = Ok (VStr "https://x.com/a", VStr ""))
    by reflexivity.
  assert (H2 : socials_loop ([twitter_entry "https://x.com/a"]
                             ++ [twitter_entry "https://x.com/b"])
                 (VStr "") (VStr "") = Ok (VStr "https://x.com/a", VStr ""))
    by reflexivity.
  split; [exact H1|].
  exists (VStr "https://x.com/a"), (VStr "").
  split; [exact H2|].
  apply (proj1 (socials_first_link_wins _ _ _ _ _ _ H1 H2)). reflexivity.
Defined.

Lemma pick_created_ms_first_true_witness :
  pick_created_ms sample_float_of_str sample_pair = Ok (Some 1700000000000).
Proof.
  assert (Hp : is_dict sample_pair = true) by reflexivity.
  assert (Hi : is_dict (group sample_pair "info") = true) by reflexivity.
  assert (Hl : is_dict (group sample_pair "liquidity") = true) by reflexivity.
  rewrite (pick_created_ms_first_true sample_float_of_str sample_pair
             Hp Hi Hl).
  reflexivity.
Defined.

Lemma row_from_pair_text_fields_witness :
  row_from_pair sample_float_of_str sample_int_of_str sample_repr
    1700003600000 empty_pair = Ok empty_candidate
  /\ empty_or_true (token_symbol empty_candidate)
  /\ (has_social empty_candidate = false
      <-> twitter_url empty_candidate = VStr ""
          /\ telegram_url empty_candidate = VStr ""
          /\ website_url empty_candidate = VStr "").
Proof.
  assert (H : row_from_pair sample_float_of_str sample_int_of_str sample_repr
                1700003600000 empty_pair = Ok empty_candidate)
    by (vm_compute; reflexivity).
  pose proof (row_from_pair_text_fields sample_float_of_str sample_int_of_str
                sample_repr 1700003600000 empty_pair empty_candidate H) as T.
  split; [exact H|].
  split; [exact (proj1 T)|].
  exact (proj2 (proj2 (proj2 (proj2 (proj2 (proj2 T)))))).
Defined.

Lemma pass_gates_reason_tells_rejection_witness :
  snd (pass_gates sample_repr (row_of scenario_candidate) REFINE)
  <> EmptyString
  /\ pass_gates sample_repr (row_of sample_candidate) DISCOVERY_newborn
     = (false, "age>0h"%string).
Proof.
  split.
  - apply (proj1 (proj1 (pass_gates_reason_tells_rejection sample_repr
                           (row_of scenario_candidate) REFINE))).
    vm_compute. reflexivity.
  - apply (proj2 (pass_gates_reason_tells_rejection sample_repr
                    (row_of sample_candidate) DISCOVERY_newborn) 1.00).
    + reflexivity.
    + vm_compute. reflexivity.
Defined.

(** The default refine thresholds ask at least what the default discovery
    thresholds ask. *)
Lemma refine_at_least_as_strict : at_least_as_strict REFINE DISCOVERY.
Proof.
  repeat split; try (vm_compute; discriminate).
Defined.

Lemma pass_gates_looser_config_witness :
  at_least_as_strict REFINE DISCOVERY
  /\ fst (pass_gates sample_repr (row_of sample_candidate) REFINE) = true
  /\ fst (pass_gates sample_repr (row_of sample_candidate) DISCOVERY) = true.
Proof.
  assert (H : fst (pass_gates sample_repr (row_of sample_candidate) REFINE)
              = true) by (vm_compute; reflexivity).
  split; [exact refine_at_least_as_strict|].
  split; [exact H|].
  exact (pass_gates_looser_config sample_repr (row_of sample_candidate)
           REFINE DISCOVERY refine_at_least_as_strict H).
Defined.

Lemma score_range_witness :
  score (row_of scenario_candidate) <= 102
  /\ 3 <= score (row_of scenario_candidate).
Proof.
  split.
  - exact (proj1 (score_range (row_of scenario_candidate))).
  - apply (proj2 (score_range (row_of scenario_candidate)));
      vm_compute; discriminate.
Defined.

Lemma score_never_rises_with_age_witness :
  score (row_of (with_age scenario_candidate (Some 100)))
  <= score (row_of scenario_candidate)
  /\ score (row_of scenario_candidate)
     <= score (row_of (with_age scenario_candidate None)).
Proof.
  split.
  - apply (score_never_rises_with_age (row_of scenario_candidate)
             (row_of (with_age scenario_candidate (Some 100))));
      try reflexivity.
    right. exists 1.0, 100. repeat split; try reflexivity.
    vm_compute. discriminate.
  - apply (score_never_rises_with_age
             (row_of (with_age scenario_candidate None))
             (row_of scenario_candidate)); try reflexivity.
    left. reflexivity.
Defined.

Lemma fib_levels_ordered_witness :
  0 < 1.0
  /\ exists dn_382 dn_618 up_1618 up_2618,
       fib_levels 1.0 None
       = [ ("fib_dn_0382", CNum dn_382); ("fib_dn_0618", CNum dn_618);
           ("fib_up_1618", CNum up_1618); ("fib_up_2618", CNum up_2618)
         ]%string
       /\ 0 <= dn_618 /\ dn_618 <= dn_382 /\ dn_382 <= round 1.0 12
       /\ round 1.0 12 <= up_1618 /\ up_1618 <= up_2618.
Proof.
  assert (H : 0 < 1.0) by reflexivity.
  split; [exact H|].
  exact (fib_levels_ordered 1.0 None H).
Defined.

Lemma fib_swing_cases_witness :
  fib_swing 2 (Some (-100)) == 0.10 * 2
  /\ fib_swing 2 (Some 25) == Qabs (2 - 2 / (1.0 + 25 / 100.0))
  /\ fib_swing 2 (Some 0) == 0.
Proof.
  split.
  - apply (proj1 (fib_swing_cases 2 (-100))). reflexivity.
  - split.
    + apply (proj1 (proj2 (fib_swing_cases 2 25))).
      intro H. vm_compute in H. discriminate.
    + apply (proj2 (proj2 (fib_swing_cases 2 0))). reflexivity.
Defined.

Lemma add_exit_prices_without_price_witness :
  price_usd (row_cand (row_of empty_candidate)) <= 0
  /\ Dict.lookup "stop_loss_price"
       (add_exit_prices (row_of empty_candidate) [2; 5; 10]
          [25000000; 50000000])
     = Some (CNum 0.0)
  /\ Dict.lookup (tp_key 5)
       (add_exit_prices (row_of empty_candidate) [2; 5; 10]
          [25000000; 50000000])
     = Some CEmpty.
Proof.
  assert (H : price_usd (row_cand (row_of empty_candidate)) <= 0)
    by (vm_compute; discriminate).
  pose proof (add_exit_prices_without_price (row_of empty_candidate)
                [2; 5; 10] [25000000; 50000000] H) as T.
  cbv zeta in T. destruct T as (T1 & _ & T3 & _).
  split; [exact H|]. split; [exact T1|].
  apply T3. right. left. reflexivity.
Defined.

Lemma add_exit_prices_take_profit_witness :
  0 < price_usd (row_cand (row_of scenario_candidate))
  /\ In 2 [2; 2.5; 5]
  /\ exists m',
       find (fun x => (trunc x =? trunc 2)%Z) (rev [2; 2.5; 5]) = Some m'
       /\ Dict.lookup (tp_key 2)
            (add_exit_prices (row_of scenario_candidate) [2; 2.5; 5] [])
          = Some (CNum (round (price_usd (row_cand (row_of scenario_candidate))
                               * m') 12)).
Proof.
  assert (H : 0 < price_usd (row_cand (row_of scenario_candidate)))
    by reflexivity.
  assert (Hin : In 2 [2; 2.5; 5]) by (left; reflexivity).
  split; [exact H|]. split; [exact Hin|].
  exact (add_exit_prices_take_profit (row_of scenario_candidate) [2; 2.5; 5]
           [] 2 H Hin).
Defined.

Lemma add_exit_prices_valuation_target_witness :
  In 25000000 [25000000; 50000000]
  /\ exists T',
       find (fun x => (trunc (x / 1000000) =? trunc (25000000 / 1000000))%Z)
         (rev [25000000; 50000000]) = Some T'
       /\ Dict.lookup (fdv_key 25000000)
            (add_exit_prices (row_of sample_candidate) [2; 5; 10]
               [25000000; 50000000])
          = Some (if Qltb 0 (price_usd (row_cand (row_of sample_candidate)))
                     && Qltb 0 (fdv_usd (row_cand (row_of sample_candidate)))
                  then CNum (round
                               (price_usd (row_cand (row_of sample_candidate))
                                * (T' / fdv_usd (row_cand
                                                   (row_of sample_candidate))))
                               12)
                  else CEmpty).
Proof.
  assert (Hin : In 25000000 [25000000; 50000000]) by (left; reflexivity).
  split; [exact Hin|].
  exact (add_exit_prices_valuation_target (row_of sample_candidate)
           [2; 5; 10] [25000000; 50000000] 25000000 Hin).
Defined.

Lemma compute_stop_loss_monotone_witness :
  0.5 <= 1
  /\ 0 <= compute_stop_loss 0.5 0.5 40
  /\ compute_stop_loss 0.5 0.5 40 <= compute_stop_loss 1 0.5 40.
Proof.
  assert (H : 0.5 <= 1) by (vm_compute; discriminate).
  split; [exact H|].
  exact (compute_stop_loss_monotone 0.5 1 0.5 40 H).
Defined.

Lemma run_once_negative_target_witness :
  let rows :=
    [ row_of scenario_candidate;
      row_of (with_trades scenario_candidate 1 1);
      row_of (with_trades scenario_candidate 10 0) ] in
  let full :=
    fst (run_once sample_repr rows DISCOVERY 3 [] "discovery"
           [2; 5; 10] [25000000; 50000000]) in
  let kept :=
    fst (run_once sample_repr rows DISCOVERY (-1) [] "discovery"
           [2; 5; 10] [25000000; 50000000]) in
  (-1 < 0)%Z
  /\ map row_cand full
     = [with_trades scenario_candidate 10 0; scenario_candidate]
  /\ kept = firstn (List.length full - 1) full
  /\ map row_cand kept = [with_trades scenario_candidate 10 0].
Proof.
  intros rows full kept.
  assert (H : (-1 < 0)%Z) by lia.
  split; [exact H|].
  split; [vm_compute; reflexivity|].
  split.
  - exact (proj2 (run_once_negative_target sample_repr rows DISCOVERY (-1) []
                    "discovery" [2; 5; 10] [25000000; 50000000] H)).
  - vm_compute. reflexivity.
Defined.

Lemma run_once_keeps_every_row_witness :
  let rows :=
    [ row_of scenario_candidate;
      row_of (with_trades scenario_candidate 1 1);
      row_of (with_trades scenario_candidate 10 0) ] in
  let passing :=
    filter (fun r => fst (pass_gates sample_repr r DISCOVERY)) rows in
  (Z.of_nat (List.length passing) <= 10)%Z
  /\ Permutation
       (map row_cand
          (fst (run_once sample_repr rows DISCOVERY 10 [] "discovery"
                  [2; 5; 10] [25000000; 50000000])))
       (map row_cand passing).
Proof.
  intros rows passing.
  assert (H : (Z.of_nat (List.length passing) <= 10)%Z)
    by (vm_compute; discriminate).
  split; [exact H|].
  exact (proj2 (run_once_keeps_every_row sample_repr rows DISCOVERY 10 []
                  "discovery" [2; 5; 10] [25000000; 50000000]) H).
Defined.

Lemma run_once_top_row_witness :
  let rows :=
    [ row_of scenario_candidate;
      row_of (with_trades scenario_candidate 1 1);
      row_of (with_trades scenario_candidate 10 0) ] in
  (1 <= 2)%Z
  /\ exists top rest,
       fst (run_once sample_repr rows DISCOVERY 2 [] "discovery" [2; 5; 10]
              [25000000; 50000000]) = top :: rest
       /\ row_rank top = Some 1%Z
       /\ score (row_of scenario_candidate) <= score_key top.
Proof.
  intro rows.
  assert (H : (1 <= 2)%Z) by lia.
  split; [exact H|].
  destruct (fst (run_once sample_repr rows DISCOVERY 2 [] "discovery"
                   [2; 5; 10] [25000000; 50000000])) as [|top rest] eqn:E;
    [vm_compute in E; discriminate E|].
  exists top, rest. split; [reflexivity|].
  destruct (run_once_top_row sample_repr rows DISCOVERY 2 [] "discovery"
              [2; 5; 10] [25000000; 50000000] top rest H E) as [T1 T2].
  split; [exact T1|].
  apply T2; [left; reflexivity | vm_compute; reflexivity].
Defined.

Lemma run_refined_rows_pass_both_gates_witness :
  let rows :=
    collect_rows sample_float_of_str sample_int_of_str sample_repr
      sample_clock_ms sample_fetch ["base"; "eth"; "solana"]%string 2000 [] 0 in
  exists refined it,
    Dict.lookup "candidates_refined.csv"
      (run sample_float_of_str sample_int_of_str sample_repr sample_clock_ms
         sample_fetch ["base"; "eth"; "solana"]%string 2000 200 90 []
         [2; 5; 10] [25000000; 50000000] DISCOVERY REFINE)
    = Some (Csv refined)
    /\ In it refined
    /\ exists r, In r rows /\ row_cand it = row_cand r
                 /\ fst (pass_gates sample_repr r DISCOVERY) = true
                 /\ fst (pass_gates sample_repr r REFINE) = true.
Proof.
  intro rows.
  assert (Hne :
    fst (run_once sample_repr rows DISCOVERY 200 [] "discovery" [2; 5; 10]
           [25000000; 50000000]) <> []) by (vm_compute; discriminate).
  destruct (Dict.lookup "candidates_refined.csv"
              (run sample_float_of_str sample_int_of_str sample_repr
                 sample_clock_ms sample_fetch
                 ["base"; "eth"; "solana"]%string 2000 200 90 []
                 [2; 5; 10] [25000000; 50000000] DISCOVERY REFINE))
    as [[refined|tag refined]|] eqn:E;
    [|vm_compute in E; discriminate E|vm_compute in E; discriminate E].
  destruct refined as [|it refined']; [vm_compute in E; discriminate E|].
  exists (it :: refined'), it.
  split; [reflexivity|].
  assert (Hin : In it (it :: refined')) by (left; reflexivity).
  split; [exact Hin|].
  exact (run_refined_rows_pass_both_gates sample_float_of_str
           sample_int_of_str sample_repr sample_clock_ms sample_fetch
           ["base"; "eth"; "solana"]%string 2000 200 90 [] [2; 5; 10]
           [25000000; 50000000] DISCOVERY REFINE (it :: refined') Hne E
           it Hin).
Defined.

Lemma refine_newborn_at_least_as_strict :
  at_least_as_strict REFINE_newborn DISCOVERY_newborn.
Proof.
  repeat split; try (vm_compute; discriminate).
Defined.

(** Three rows in the pool, none young enough for the discovery pass: the
    refine pass runs over the pool and, its thresholds asking as much,
    ranks none; with the age limit of the default refine thresholds it
    ranks some. *)
Lemma run_fallback_finds_nothing_witness :
  let rows :=
    collect_rows sample_float_of_str sample_int_of_str sample_repr
      sample_clock_ms sample_fetch ["base"; "solana"]%string 2000 [] 0 in
  List.length rows = 3%nat
  /\ at_least_as_strict REFINE_newborn DISCOVERY_newborn /\ (1 <= 200)%Z
  /\ fst (run_once sample_repr rows DISCOVERY_newborn 200 [] "discovery"
            [2; 5; 10] [25000000; 50000000]) = []
  /\ Dict.lookup "candidates_refined.csv"
       (run sample_float_of_str sample_int_of_str sample_repr sample_clock_ms
          sample_fetch ["base"; "solana"]%string 2000 200 90 []
          [2; 5; 10] [25000000; 50000000] DISCOVERY_newborn REFINE_newborn)
     = Some (Csv [])
  /\ Dict.lookup "candidates_refined.csv"
       (run sample_float_of_str sample_int_of_str sample_repr sample_clock_ms
          sample_fetch ["base"; "solana"]%string 2000 200 90 []
          [2; 5; 10] [25000000; 50000000] DISCOVERY_newborn REFINE)
     <> Some (Csv []).
Proof.
  intro rows.
  assert (Ht : (1 <= 200)%Z) by lia.
  assert (Hd :
    fst (run_once sample_repr rows DISCOVERY_newborn 200 [] "discovery"
           [2; 5; 10] [25000000; 50000000]) = [])
    by (vm_compute; reflexivity).
  split; [vm_compute; reflexivity|].
  split; [exact refine_newborn_at_least_as_strict|]. split; [exact Ht|].
  split; [exact Hd|].
  split.
  - exact (run_fallback_finds_nothing sample_float_of_str sample_int_of_str
             sample_repr sample_clock_ms sample_fetch
             ["base"; "solana"]%string 2000 200 90 [] [2; 5; 10]
             [25000000; 50000000] DISCOVERY_newborn REFINE_newborn
             refine_newborn_at_least_as_strict Ht Hd).
  - vm_compute. discriminate.
Defined.

Lemma collect_rows_one_row_per_snapshot_witness :
  Forall (fun p => snapshot_ok sample_float_of_str sample_int_of_str p = true)
    (fetched sample_fetch ["base"; "eth"]%string 2000)
  /\ List.length
       (collect_rows sample_float_of_str sample_int_of_str sample_repr
          sample_clock_ms sample_fetch ["base"; "eth"]%string 2000 [] 0)
     = List.length (fetched sample_fetch ["base"; "eth"]%string 2000).
Proof.
  assert (H : Forall (fun p => snapshot_ok sample_float_of_str
                                 sample_int_of_str p = true)
                (fetched sample_fetch ["base"; "eth"]%string 2000))
    by (repeat constructor).
  split; [exact H|].
  exact (proj2 (collect_rows_one_row_per_snapshot sample_float_of_str
                  sample_int_of_str sample_repr sample_clock_ms sample_fetch
                  ["base"; "eth"]%string 2000) H).
Defined.
